(** * Nazara Engine, Renderer module: state and binding reconciliation

    A shallow embedding of [src/Nazara/Renderer/Renderer.cpp]: the matrix
    cache ([SetMatrix], [GetMatrix], [UpdateMatrix]), the setters of the
    bound resources and of the texture units, the per-context cache of
    vertex array objects, the reconciliation routine [EnsureStateUpdate],
    the draw entry points, the life cycle of the module ([Initialize],
    [Uninitialize]) and the release callbacks.

    The file-local globals [s_...] of the translation unit become the fields
    of one record, [World], that every operation takes and returns.  Calls
    into the driver and into collaborating classes are appended to a trace
    of [Command]s; [NazaraError] and [NazaraWarning] append to a log. *)

From Stdlib Require Import ZArith QArith String List Bool Lia DecimalString.
From stdpp Require Import base tactics option list functions gmap.

Local Open Scope string_scope.
Local Open Scope Z_scope.

(** ** Enumerations and plain data *)

(** Object identity.  The source compares resources by address only. *)
Definition ptr := positive.
Definition GLuint := N.
Definition Context := ptr.

(** The twelve matrix slots, in the order in which the source lists them. *)
Inductive MatrixType :=
| MatrixType_Projection
| MatrixType_View
| MatrixType_World
| MatrixType_ViewProj
| MatrixType_WorldView
| MatrixType_WorldViewProj
| MatrixType_InvProjection
| MatrixType_InvView
| MatrixType_InvViewProj
| MatrixType_InvWorld
| MatrixType_InvWorldView
| MatrixType_InvWorldViewProj.

#[global] Instance MatrixType_eq_dec : EqDecision MatrixType.
Proof. solve_decision. Defined.

(** The range [0 .. MatrixType_Max] walked by the loops over [s_matrices]. *)
Definition MatrixType_all : list MatrixType :=
  [ MatrixType_Projection; MatrixType_View; MatrixType_World;
    MatrixType_ViewProj; MatrixType_WorldView; MatrixType_WorldViewProj;
    MatrixType_InvProjection; MatrixType_InvView; MatrixType_InvViewProj;
    MatrixType_InvWorld; MatrixType_InvWorldView; MatrixType_InvWorldViewProj ].

Inductive ShaderUniform :=
| ShaderUniform_InvProjMatrix
| ShaderUniform_InvTargetSize
| ShaderUniform_InvViewMatrix
| ShaderUniform_InvViewProjMatrix
| ShaderUniform_InvWorldMatrix
| ShaderUniform_InvWorldViewMatrix
| ShaderUniform_InvWorldViewProjMatrix
| ShaderUniform_ProjMatrix
| ShaderUniform_TargetSize
| ShaderUniform_ViewMatrix
| ShaderUniform_ViewProjMatrix
| ShaderUniform_WorldMatrix
| ShaderUniform_WorldViewMatrix
| ShaderUniform_WorldViewProjMatrix.

(** The cases of the switch in [IsComponentTypeSupported]. *)
Inductive ComponentType :=
| ComponentType_Color
| ComponentType_Double1 | ComponentType_Double2
| ComponentType_Double3 | ComponentType_Double4
| ComponentType_Float1 | ComponentType_Float2
| ComponentType_Float3 | ComponentType_Float4
| ComponentType_Int1 | ComponentType_Int2
| ComponentType_Int3 | ComponentType_Int4
| ComponentType_Quaternion.

(** The capabilities filled in by [Initialize]. *)
Inductive RendererCap :=
| RendererCap_AnisotropicFilter
| RendererCap_ConditionalRendering
| RendererCap_FP64
| RendererCap_HardwareBuffer
| RendererCap_Instancing
| RendererCap_MultipleRenderTargets
| RendererCap_OcclusionQuery
| RendererCap_PixelBufferObject
| RendererCap_RenderTexture
| RendererCap_Texture3D
| RendererCap_TextureCubemap
| RendererCap_TextureMulti
| RendererCap_TextureNPOT.

#[global] Instance RendererCap_eq_dec : EqDecision RendererCap.
Proof. solve_decision. Defined.

Inductive BufferType := BufferType_Index | BufferType_Vertex.

(** [enum UpdateFlags] *)
Definition Update_None : Z := 0.
Definition Update_Matrices : Z := 1.
Definition Update_Shader : Z := 2.
Definition Update_Textures : Z := 4.
Definition Update_VAO : Z := 8.

(** [flags & bit] read as a condition, [flags |= bit], [flags &= ~bit]. *)
Definition has_flag (flags bit : Z) : bool := negb (Z.land flags bit =? 0).
Definition add_flag (flags bit : Z) : Z := Z.lor flags bit.
Definition clear_flag (flags bit : Z) : Z := Z.land flags (Z.lnot bit).

(** Compile-time configuration: macros and enumeration bounds that the
    translation unit takes from headers ([Config.hpp], [Utility/Enums.hpp])
    outside the sources at hand. *)
Record Config := {
  NAZARA_DEBUG : bool;
  NAZARA_RENDERER_SAFE : bool;
  NAZARA_RENDERER_INSTANCE_BUFFER_SIZE : N;
  PrimitiveMode_TriangleStrip : N;
  PrimitiveMode_Max : N;
  VertexComponent_FirstVertexData : nat;
  VertexComponent_LastVertexData : nat;
  VertexComponent_FirstInstanceData : nat;
  VertexComponent_LastInstanceData : nat
}.

(** ** Resources

    A resource is known to the renderer through a pointer.  Each record
    carries the address ([.._ptr]) and what the renderer reads through it. *)

Record VertexDeclaration := {
  vd_ptr : ptr;
  vd_stride : N;
  (** [GetComponent(j, &enabled, &type, &offset)] *)
  vd_component : nat -> bool * ComponentType * N
}.

Record VertexBuffer := {
  vb_ptr : ptr;
  vb_hardware : bool;
  vb_glid : GLuint;
  vb_startOffset : N;
  vb_vertexCount : N;
  vb_declaration : option VertexDeclaration
}.

Record IndexBuffer := {
  ib_ptr : ptr;
  ib_hardware : bool;
  ib_glid : GLuint;
  ib_startOffset : N;
  ib_largeIndices : bool
}.

Record Shader := {
  sh_ptr : ptr;
  sh_valid : bool;
  sh_linked : bool;
  sh_uniformLocation : ShaderUniform -> Z
}.

Record RenderTarget := {
  rt_ptr : ptr;
  rt_renderable : bool;
  rt_hasContext : bool;
  (** what [Activate()] answers *)
  rt_activate : bool;
  rt_width : N;
  rt_height : N
}.

Record Texture := {
  tex_ptr : ptr;
  tex_glid : GLuint;
  tex_type : N
}.

(** Pointer comparison *)
Definition same_ptr {A} (addr : A -> ptr) (a b : option A) : bool :=
  bool_decide (addr <$> a = addr <$> b).

(** ** Matrices

    Modelled from the spec: [Matrix4f] and its member functions are declared
    in the Math module, which is not among the sources.  The spec says of
    them that derived matrices multiply their two sources (affine-aware
    concatenation for World and View), that inverse slots invert their source
    matrix, and that a failed inversion leaves the previous inverse value
    untouched.  [a.Concatenate(b)] overwrites [a] with the product;
    [src.GetInverse(&dest)] answers [false] on a singular [src] and then
    does not write [dest]. *)
Class Matrix4Ops (Matrix4f : Type) := {
  MakeIdentity : Matrix4f;
  Concatenate : Matrix4f -> Matrix4f -> Matrix4f;
  ConcatenateAffine : Matrix4f -> Matrix4f -> Matrix4f;
  GetInverse : Matrix4f -> option Matrix4f
}.

Record MatrixUnit (Matrix4f : Type) := {
  matrix : Matrix4f;
  updated : bool;
  location : Z
}.
Arguments matrix {Matrix4f} _.
Arguments updated {Matrix4f} _.
Arguments location {Matrix4f} _.
Arguments Build_MatrixUnit {Matrix4f} _ _ _.

(** ** Texture units and the cache of vertex array objects *)

Record TextureUnit := {
  sampler : N;
  texture : option Texture;
  samplerUpdated : bool
}.

(** The four [NazaraSlot]s of an entry hold the object whose release signal
    they are connected to, if any. *)
Record VAO_Entry := {
  vao : GLuint;
  onIndexBufferReleaseSlot : option ptr;
  onVertexBufferReleaseSlot : option ptr;
  onInstancingDeclarationReleaseSlot : option ptr;
  onVertexDeclarationReleaseSlot : option ptr
}.

(** [std::tuple<const IndexBuffer*, const VertexBuffer*,
    const VertexDeclaration*, const VertexDeclaration*>]; [None] is the null
    pointer. *)
Definition VAO_Key : Type := option ptr * option ptr * option ptr * option ptr.

Record Context_Entry := {
  vaoMap : gmap VAO_Key VAO_Entry;
  onReleaseSlot : Context
}.

(** ** Messages *)

Inductive Message :=
| Msg (text : string)
| MsgInstanceCount (instanceCount : N)
| MsgInvalidDeclaration (declaration : ptr) (component : nat) (type : ComponentType)
| MsgFailedToUpdateStates (lastError : Message).

Inductive LogEntry :=
| NazaraError (m : Message)
| NazaraWarning (m : Message)
| NazaraInternalError (m : Message).

Definition entry_message (e : LogEntry) : Message :=
  match e with
  | NazaraError m | NazaraWarning m | NazaraInternalError m => m
  end.

(** [Error::GetLastError()]: the text of the most recent entry. *)
Definition Error_GetLastError (l : list LogEntry) : Message :=
  match last l with
  | Some e => entry_message e
  | None => Msg ""
  end.

(** ** The driver

    Modelled from the spec: the backend is an external collaborator that
    hands out object names as opaque integer handles.  [glGenVertexArrays]
    picks a name given the names in use in the current context; a driver
    that keeps to the OpenGL rules picks one that is neither zero nor in use
    ([Driver_fresh]). *)
Class Driver := {
  glGenVertexArrays_name : list GLuint -> GLuint
}.

Definition Driver_fresh (D : Driver) : Prop :=
  forall names,
    (glGenVertexArrays_name names ∉ names) /\ glGenVertexArrays_name names <> 0%N.

(** ** Samplers

    [TextureSampler] and the mipmaps of a [Texture] belong to classes
    outside the sources.  A sampler is known by the value a unit holds;
    [UseMipmaps(mipmaps)] answers the sampler it leaves and whether it
    changed it. *)
Class Samplers := {
  Texture_HasMipmaps : Texture -> bool;
  TextureSampler_UseMipmaps : N -> bool -> N * bool
}.

(** [String::Number] *)
Definition String_Number (n : N) : string := NilZero.string_of_uint (N.to_uint n).

Section Renderer.

Context {Matrix4f : Type} {MOps : Matrix4Ops Matrix4f}.
Context {RenderStates : Type}.
Context {Drv : Driver}.
Variable cfg : Config.

(** Calls that leave the translation unit.  Arguments that the source first
    sends through a table of the [OpenGL] class ([OpenGL::PrimitiveMode],
    [OpenGL::VertexComponentIndex], [OpenGL::ComponentType], ...) are
    recorded before that translation. *)
Inductive Command :=
| glDrawArrays (mode : N) (first count : N)
| glDrawArraysInstanced (mode : N) (first count instanceCount : N)
| glGenVertexArrays (name : GLuint)
| glBindVertexArray (name : GLuint)
| glDeleteVertexArrays (name : GLuint)
| glBindBuffer (target : BufferType) (id : GLuint)
| glEnableVertexAttribArray (component : nat)
| glDisableVertexAttribArray (component : nat)
| glVertexAttribPointer (component : nat) (type : ComponentType)
    (normalized : bool) (stride : N) (pointer : N)
| glVertexAttribLPointer (component : nat) (type : ComponentType)
    (stride : N) (pointer : N)
| glVertexAttribIPointer (component : nat) (type : ComponentType)
    (stride : N) (pointer : N)
| glVertexAttribDivisor (component : nat) (divisor : N)
| OpenGL_SetBuffer (target : BufferType) (id : GLuint)
| OpenGL_BindTextureUnit (unit : nat)
| OpenGL_BindTexture (unit : nat) (type : N) (id : GLuint)
| OpenGL_ApplyStates (states : RenderStates)
| OpenGL_DeleteVertexArray (context : Context) (name : GLuint)
| OpenGL_SetTarget (target : option ptr)
| RenderTarget_Activate (target : ptr)
| RenderTarget_Desactivate (target : ptr)
| RenderTarget_EnsureTargetUpdated (target : ptr)
| Shader_Bind (shader : ptr)
| Shader_SendMatrix (location : Z) (m : Matrix4f)
| Shader_SendInvTargetSize (location : Z) (width height : N)
| Shader_SendTargetSize (location : Z) (width height : N)
| TextureSampler_Bind (sampler : N) (unit : nat)
| TextureSampler_Apply (sampler : N) (texture : ptr)
| Texture_EnsureMipmapsUpdate (texture : ptr).

(** ** The state

    The globals of the anonymous namespace, then what the renderer reads
    from the driver, then the two output channels. *)
Record World := {
  s_vaos : gmap Context Context_Entry;
  s_dirtyTextureUnits : list nat;
  s_textureUnits : list TextureUnit;
  s_currentVAO : GLuint;
  s_instanceBuffer : VertexBuffer;
  s_matrices : MatrixType -> MatrixUnit Matrix4f;
  s_states : RenderStates;
  s_targetSize : N * N;
  s_updateFlags : Z;
  s_indexBuffer : option IndexBuffer;
  s_target : option RenderTarget;
  s_shader : option Shader;
  s_vertexBuffer : option VertexBuffer;
  s_capabilities : RendererCap -> bool;
  s_instancing : bool;
  s_useSamplerObjects : bool;
  s_useVertexArrayObjects : bool;
  s_maxTextureUnit : N;
  s_moduleReferenceCounter : N;
  (** [Context::GetCurrent()] *)
  current_context : option Context;
  (** the vertex array names in use, per context *)
  gl_vertexArrays : gmap Context (list GLuint);
  (** [glVertexAttribLPointer != nullptr], [glVertexAttribIPointer != nullptr] *)
  gl_hasVertexAttribLPointer : bool;
  gl_hasVertexAttribIPointer : bool;
  trace : list Command;
  log : list LogEntry
}.

(** Assignment to one global. *)
Definition set_s_vaos v (w : World) : World :=
  Build_World v (s_dirtyTextureUnits w) (s_textureUnits w) (s_currentVAO w)
    (s_instanceBuffer w) (s_matrices w) (s_states w) (s_targetSize w)
    (s_updateFlags w) (s_indexBuffer w) (s_target w) (s_shader w)
    (s_vertexBuffer w) (s_capabilities w) (s_instancing w)
    (s_useSamplerObjects w) (s_useVertexArrayObjects w) (s_maxTextureUnit w)
    (s_moduleReferenceCounter w) (current_context w) (gl_vertexArrays w)
    (gl_hasVertexAttribLPointer w) (gl_hasVertexAttribIPointer w) (trace w)
    (log w).

Definition set_s_dirtyTextureUnits v (w : World) : World :=
  Build_World (s_vaos w) v (s_textureUnits w) (s_currentVAO w)
    (s_instanceBuffer w) (s_matrices w) (s_states w) (s_targetSize w)
    (s_updateFlags w) (s_indexBuffer w) (s_target w) (s_shader w)
    (s_vertexBuffer w) (s_capabilities w) (s_instancing w)
    (s_useSamplerObjects w) (s_useVertexArrayObjects w) (s_maxTextureUnit w)
    (s_moduleReferenceCounter w) (current_context w) (gl_vertexArrays w)
    (gl_hasVertexAttribLPointer w) (gl_hasVertexAttribIPointer w) (trace w)
    (log w).

Definition set_s_textureUnits v (w : World) : World :=
  Build_World (s_vaos w) (s_dirtyTextureUnits w) v (s_currentVAO w)
    (s_instanceBuffer w) (s_matrices w) (s_states w) (s_targetSize w)
    (s_updateFlags w) (s_indexBuffer w) (s_target w) (s_shader w)
    (s_vertexBuffer w) (s_capabilities w) (s_instancing w)
    (s_useSamplerObjects w) (s_useVertexArrayObjects w) (s_maxTextureUnit w)
    (s_moduleReferenceCounter w) (current_context w) (gl_vertexArrays w)
    (gl_hasVertexAttribLPointer w) (gl_hasVertexAttribIPointer w) (trace w)
    (log w).

Definition set_s_currentVAO v (w : World) : World :=
  Build_World (s_vaos w) (s_dirtyTextureUnits w) (s_textureUnits w) v
    (s_instanceBuffer w) (s_matrices w) (s_states w) (s_targetSize w)
    (s_updateFlags w) (s_indexBuffer w) (s_target w) (s_shader w)
    (s_vertexBuffer w) (s_capabilities w) (s_instancing w)
    (s_useSamplerObjects w) (s_useVertexArrayObjects w) (s_maxTextureUnit w)
    (s_moduleReferenceCounter w) (current_context w) (gl_vertexArrays w)
    (gl_hasVertexAttribLPointer w) (gl_hasVertexAttribIPointer w) (trace w)
    (log w).

Definition set_s_instanceBuffer v (w : World) : World :=
  Build_World (s_vaos w) (s_dirtyTextureUnits w) (s_textureUnits w)
    (s_currentVAO w) v (s_matrices w) (s_states w) (s_targetSize w)
    (s_updateFlags w) (s_indexBuffer w) (s_target w) (s_shader w)
    (s_vertexBuffer w) (s_capabilities w) (s_instancing w)
    (s_useSamplerObjects w) (s_useVertexArrayObjects w) (s_maxTextureUnit w)
    (s_moduleReferenceCounter w) (current_context w) (gl_vertexArrays w)
    (gl_hasVertexAttribLPointer w) (gl_hasVertexAttribIPointer w) (trace w)
    (log w).

Definition set_s_matrices v (w : World) : World :=
  Build_World (s_vaos w) (s_dirtyTextureUnits w) (s_textureUnits w)
    (s_currentVAO w) (s_instanceBuffer w) v (s_states w) (s_targetSize w)
    (s_updateFlags w) (s_indexBuffer w) (s_target w) (s_shader w)
    (s_vertexBuffer w) (s_capabilities w) (s_instancing w)
    (s_useSamplerObjects w) (s_useVertexArrayObjects w) (s_maxTextureUnit w)
    (s_moduleReferenceCounter w) (current_context w) (gl_vertexArrays w)
    (gl_hasVertexAttribLPointer w) (gl_hasVertexAttribIPointer w) (trace w)
    (log w).

Definition set_s_targetSize v (w : World) : World :=
  Build_World (s_vaos w) (s_dirtyTextureUnits w) (s_textureUnits w)
    (s_currentVAO w) (s_instanceBuffer w) (s_matrices w) (s_states w) v
    (s_updateFlags w) (s_indexBuffer w) (s_target w) (s_shader w)
    (s_vertexBuffer w) (s_capabilities w) (s_instancing w)
    (s_useSamplerObjects w) (s_useVertexArrayObjects w) (s_maxTextureUnit w)
    (s_moduleReferenceCounter w) (current_context w) (gl_vertexArrays w)
    (gl_hasVertexAttribLPointer w) (gl_hasVertexAttribIPointer w) (trace w)
    (log w).

Definition set_s_updateFlags v (w : World) : World :=
  Build_World (s_vaos w) (s_dirtyTextureUnits w) (s_textureUnits w)
    (s_currentVAO w) (s_instanceBuffer w) (s_matrices w) (s_states w)
    (s_targetSize w) v (s_indexBuffer w) (s_target w) (s_shader w)
    (s_vertexBuffer w) (s_capabilities w) (s_instancing w)
    (s_useSamplerObjects w) (s_useVertexArrayObjects w) (s_maxTextureUnit w)
    (s_moduleReferenceCounter w) (current_context w) (gl_vertexArrays w)
    (gl_hasVertexAttribLPointer w) (gl_hasVertexAttribIPointer w) (trace w)
    (log w).

Definition set_s_indexBuffer v (w : World) : World :=
  Build_World (s_vaos w) (s_dirtyTextureUnits w) (s_textureUnits w)
    (s_currentVAO w) (s_instanceBuffer w) (s_matrices w) (s_states w)
    (s_targetSize w) (s_updateFlags w) v (s_target w) (s_shader w)
    (s_vertexBuffer w) (s_capabilities w) (s_instancing w)
    (s_useSamplerObjects w) (s_useVertexArrayObjects w) (s_maxTextureUnit w)
    (s_moduleReferenceCounter w) (current_context w) (gl_vertexArrays w)
    (gl_hasVertexAttribLPointer w) (gl_hasVertexAttribIPointer w) (trace w)
    (log w).

Definition set_s_target v (w : World) : World :=
  Build_World (s_vaos w) (s_dirtyTextureUnits w) (s_textureUnits w)
    (s_currentVAO w) (s_instanceBuffer w) (s_matrices w) (s_states w)
    (s_targetSize w) (s_updateFlags w) (s_indexBuffer w) v (s_shader w)
    (s_vertexBuffer w) (s_capabilities w) (s_instancing w)
    (s_useSamplerObjects w) (s_useVertexArrayObjects w) (s_maxTextureUnit w)
    (s_moduleReferenceCounter w) (current_context w) (gl_vertexArrays w)
    (gl_hasVertexAttribLPointer w) (gl_hasVertexAttribIPointer w) (trace w)
    (log w).

Definition set_s_shader v (w : World) : World :=
  Build_World (s_vaos w) (s_dirtyTextureUnits w) (s_textureUnits w)
    (s_currentVAO w) (s_instanceBuffer w) (s_matrices w) (s_states w)
    (s_targetSize w) (s_updateFlags w) (s_indexBuffer w) (s_target w) v
    (s_vertexBuffer w) (s_capabilities w) (s_instancing w)
    (s_useSamplerObjects w) (s_useVertexArrayObjects w) (s_maxTextureUnit w)
    (s_moduleReferenceCounter w) (current_context w) (gl_vertexArrays w)
    (gl_hasVertexAttribLPointer w) (gl_hasVertexAttribIPointer w) (trace w)
    (log w).

Definition set_s_vertexBuffer v (w : World) : World :=
  Build_World (s_vaos w) (s_dirtyTextureUnits w) (s_textureUnits w)
    (s_currentVAO w) (s_instanceBuffer w) (s_matrices w) (s_states w)
    (s_targetSize w) (s_updateFlags w) (s_indexBuffer w) (s_target w)
    (s_shader w) v (s_capabilities w) (s_instancing w) (s_useSamplerObjects w)
    (s_useVertexArrayObjects w) (s_maxTextureUnit w) (s_moduleReferenceCounter
    w) (current_context w) (gl_vertexArrays w) (gl_hasVertexAttribLPointer w)
    (gl_hasVertexAttribIPointer w) (trace w) (log w).

Definition set_s_capabilities v (w : World) : World :=
  Build_World (s_vaos w) (s_dirtyTextureUnits w) (s_textureUnits w)
    (s_currentVAO w) (s_instanceBuffer w) (s_matrices w) (s_states w)
    (s_targetSize w) (s_updateFlags w) (s_indexBuffer w) (s_target w)
    (s_shader w) (s_vertexBuffer w) v (s_instancing w) (s_useSamplerObjects w)
    (s_useVertexArrayObjects w) (s_maxTextureUnit w) (s_moduleReferenceCounter
    w) (current_context w) (gl_vertexArrays w) (gl_hasVertexAttribLPointer w)
    (gl_hasVertexAttribIPointer w) (trace w) (log w).

Definition set_s_instancing v (w : World) : World :=
  Build_World (s_vaos w) (s_dirtyTextureUnits w) (s_textureUnits w)
    (s_currentVAO w) (s_instanceBuffer w) (s_matrices w) (s_states w)
    (s_targetSize w) (s_updateFlags w) (s_indexBuffer w) (s_target w)
    (s_shader w) (s_vertexBuffer w) (s_capabilities w) v (s_useSamplerObjects
    w) (s_useVertexArrayObjects w) (s_maxTextureUnit w)
    (s_moduleReferenceCounter w) (current_context w) (gl_vertexArrays w)
    (gl_hasVertexAttribLPointer w) (gl_hasVertexAttribIPointer w) (trace w)
    (log w).

Definition set_s_moduleReferenceCounter v (w : World) : World :=
  Build_World (s_vaos w) (s_dirtyTextureUnits w) (s_textureUnits w)
    (s_currentVAO w) (s_instanceBuffer w) (s_matrices w) (s_states w)
    (s_targetSize w) (s_updateFlags w) (s_indexBuffer w) (s_target w)
    (s_shader w) (s_vertexBuffer w) (s_capabilities w) (s_instancing w)
    (s_useSamplerObjects w) (s_useVertexArrayObjects w) (s_maxTextureUnit w) v
    (current_context w) (gl_vertexArrays w) (gl_hasVertexAttribLPointer w)
    (gl_hasVertexAttribIPointer w) (trace w) (log w).

Definition set_gl_vertexArrays v (w : World) : World :=
  Build_World (s_vaos w) (s_dirtyTextureUnits w) (s_textureUnits w)
    (s_currentVAO w) (s_instanceBuffer w) (s_matrices w) (s_states w)
    (s_targetSize w) (s_updateFlags w) (s_indexBuffer w) (s_target w)
    (s_shader w) (s_vertexBuffer w) (s_capabilities w) (s_instancing w)
    (s_useSamplerObjects w) (s_useVertexArrayObjects w) (s_maxTextureUnit w)
    (s_moduleReferenceCounter w) (current_context w) v
    (gl_hasVertexAttribLPointer w) (gl_hasVertexAttribIPointer w) (trace w)
    (log w).

Definition set_trace v (w : World) : World :=
  Build_World (s_vaos w) (s_dirtyTextureUnits w) (s_textureUnits w)
    (s_currentVAO w) (s_instanceBuffer w) (s_matrices w) (s_states w)
    (s_targetSize w) (s_updateFlags w) (s_indexBuffer w) (s_target w)
    (s_shader w) (s_vertexBuffer w) (s_capabilities w) (s_instancing w)
    (s_useSamplerObjects w) (s_useVertexArrayObjects w) (s_maxTextureUnit w)
    (s_moduleReferenceCounter w) (current_context w) (gl_vertexArrays w)
    (gl_hasVertexAttribLPointer w) (gl_hasVertexAttribIPointer w) v (log w).

Definition set_log v (w : World) : World :=
  Build_World (s_vaos w) (s_dirtyTextureUnits w) (s_textureUnits w)
    (s_currentVAO w) (s_instanceBuffer w) (s_matrices w) (s_states w)
    (s_targetSize w) (s_updateFlags w) (s_indexBuffer w) (s_target w)
    (s_shader w) (s_vertexBuffer w) (s_capabilities w) (s_instancing w)
    (s_useSamplerObjects w) (s_useVertexArrayObjects w) (s_maxTextureUnit w)
    (s_moduleReferenceCounter w) (current_context w) (gl_vertexArrays w)
    (gl_hasVertexAttribLPointer w) (gl_hasVertexAttribIPointer w) (trace w) v.

Definition emit (c : Command) (w : World) : World :=
  set_trace (trace w ++ [c]) w.

Definition report (e : LogEntry) (w : World) : World :=
  set_log (log w ++ [e]) w.

(** Writes to one slot of [s_matrices]. *)
Definition set_matrix (type : MatrixType) (m : Matrix4f) (w : World) : World :=
  let u := s_matrices w type in
  set_s_matrices (<[type := Build_MatrixUnit m (updated u) (location u)]> (s_matrices w)) w.

Definition set_updated (type : MatrixType) (b : bool) (w : World) : World :=
  let u := s_matrices w type in
  set_s_matrices (<[type := Build_MatrixUnit (matrix u) b (location u)]> (s_matrices w)) w.

Definition set_location (type : MatrixType) (l : Z) (w : World) : World :=
  let u := s_matrices w type in
  set_s_matrices (<[type := Build_MatrixUnit (matrix u) (updated u) l]> (s_matrices w)) w.

(** ** The matrix cache *)

(** [Renderer::SetMatrix].  The debug check [type > MatrixType_Max] cannot
    fire on a value of the enumeration. *)
Definition SetMatrix (type : MatrixType) (m : Matrix4f) (w : World) : World :=
  let w := set_matrix type m w in
  let w := set_updated type true w in
  let w :=
    match type with
    | MatrixType_Projection =>
        let w := set_updated MatrixType_InvProjection false w in
        let w := set_updated MatrixType_InvViewProj false w in
        let w := set_updated MatrixType_InvWorldViewProj false w in
        let w := set_updated MatrixType_ViewProj false w in
        set_updated MatrixType_WorldViewProj false w
    | MatrixType_View =>
        let w := set_updated MatrixType_InvView false w in
        let w := set_updated MatrixType_InvViewProj false w in
        let w := set_updated MatrixType_InvWorld false w in
        let w := set_updated MatrixType_InvWorldViewProj false w in
        let w := set_updated MatrixType_ViewProj false w in
        let w := set_updated MatrixType_World false w in
        set_updated MatrixType_WorldViewProj false w
    | MatrixType_World =>
        let w := set_updated MatrixType_InvWorld false w in
        let w := set_updated MatrixType_InvWorldView false w in
        let w := set_updated MatrixType_InvWorldViewProj false w in
        let w := set_updated MatrixType_WorldView false w in
        set_updated MatrixType_WorldViewProj false w
    | MatrixType_ViewProj =>
        set_updated MatrixType_InvViewProj false w
    | MatrixType_WorldView =>
        let w := set_updated MatrixType_InvWorldView false w in
        set_updated MatrixType_WorldViewProj false w
    | MatrixType_WorldViewProj =>
        set_updated MatrixType_InvWorldViewProj false w
    | MatrixType_InvProjection
    | MatrixType_InvView
    | MatrixType_InvViewProj
    | MatrixType_InvWorld
    | MatrixType_InvWorldView
    | MatrixType_InvWorldViewProj => w
    end in
  set_s_updateFlags (add_flag (s_updateFlags w) Update_Matrices) w.

(** [if (!src.GetInverse(&s_matrices[dest].matrix)) NazaraWarning(text);] *)
Definition inverse_into (src dest : MatrixType) (text : string) (w : World) : World :=
  match GetInverse (matrix (s_matrices w src)) with
  | Some inv => set_matrix dest inv w
  | None => report (NazaraWarning (Msg text)) w
  end.

(** [Renderer::UpdateMatrix].  The function calls itself on the source of
    the slot it recomputes; [fuel] bounds the depth of these calls, which is
    at most two (see [UpdateMatrix_fuel_enough]). *)
Fixpoint UpdateMatrix_fuel (fuel : nat) (type : MatrixType) (w : World) : World :=
  match fuel with
  | O => w
  | S fuel =>
      let ensure src (w : World) :=
        if updated (s_matrices w src) then w else UpdateMatrix_fuel fuel src w in
      match type with
      | MatrixType_Projection
      | MatrixType_View
      | MatrixType_World =>
          set_updated type true w
      | MatrixType_ViewProj =>
          let w := set_matrix MatrixType_ViewProj (matrix (s_matrices w MatrixType_View)) w in
          let w := set_matrix MatrixType_ViewProj
                     (Concatenate (matrix (s_matrices w MatrixType_ViewProj))
                                  (matrix (s_matrices w MatrixType_Projection))) w in
          set_updated MatrixType_ViewProj true w
      | MatrixType_WorldView =>
          let w := set_matrix MatrixType_WorldView (matrix (s_matrices w MatrixType_World)) w in
          let w := set_matrix MatrixType_WorldView
                     (ConcatenateAffine (matrix (s_matrices w MatrixType_WorldView))
                                        (matrix (s_matrices w MatrixType_View))) w in
          set_updated MatrixType_WorldView true w
      | MatrixType_WorldViewProj =>
          let w := ensure MatrixType_WorldView w in
          let w := set_matrix MatrixType_WorldViewProj
                     (matrix (s_matrices w MatrixType_WorldView)) w in
          let w := set_matrix MatrixType_WorldViewProj
                     (Concatenate (matrix (s_matrices w MatrixType_WorldViewProj))
                                  (matrix (s_matrices w MatrixType_Projection))) w in
          set_updated MatrixType_WorldViewProj true w
      | MatrixType_InvProjection =>
          let w := ensure MatrixType_Projection w in
          let w := inverse_into MatrixType_Projection MatrixType_InvProjection
                     "Failed to inverse Proj matrix" w in
          set_updated MatrixType_InvProjection true w
      | MatrixType_InvView =>
          let w := ensure MatrixType_View w in
          let w := inverse_into MatrixType_View MatrixType_InvView
                     "Failed to inverse View matrix" w in
          set_updated MatrixType_InvView true w
      | MatrixType_InvViewProj =>
          let w := ensure MatrixType_ViewProj w in
          let w := inverse_into MatrixType_ViewProj MatrixType_InvViewProj
                     "Failed to inverse ViewProj matrix" w in
          set_updated MatrixType_InvViewProj true w
      | MatrixType_InvWorld =>
          let w := ensure MatrixType_World w in
          let w := inverse_into MatrixType_World MatrixType_InvWorld
                     "Failed to inverse World matrix" w in
          set_updated MatrixType_InvWorld true w
      | MatrixType_InvWorldView =>
          let w := ensure MatrixType_WorldView w in
          let w := inverse_into MatrixType_WorldView MatrixType_InvWorldView
                     "Failed to inverse WorldView matrix" w in
          set_updated MatrixType_InvWorldView true w
      | MatrixType_InvWorldViewProj =>
          let w := ensure MatrixType_WorldViewProj w in
          let w := inverse_into MatrixType_WorldViewProj MatrixType_InvWorldViewProj
                     "Failed to inverse WorldViewProj matrix" w in
          set_updated MatrixType_InvWorldViewProj true w
      end
  end.

Definition UpdateMatrix (type : MatrixType) (w : World) : World :=
  UpdateMatrix_fuel 3 type w.

(** [if (!s_matrices[type].updated) UpdateMatrix(type);] *)
Definition ensure_updated (type : MatrixType) (w : World) : World :=
  if updated (s_matrices w type) then w else UpdateMatrix type w.

(** [Renderer::GetMatrix]: the value returned and the state left behind. *)
Definition GetMatrix (type : MatrixType) (w : World) : Matrix4f * World :=
  let w := ensure_updated type w in
  (matrix (s_matrices w type), w).

(** A run of [SetMatrix] calls, first call first. *)
Definition SetMatrices (calls : list (MatrixType * Matrix4f)) (w : World) : World :=
  fold_left (fun w call => SetMatrix call.1 call.2 w) calls w.

(** The value most recently given to a slot by a run of calls that starts
    where the slot holds [m]. *)
Definition latest (type : MatrixType) (calls : list (MatrixType * Matrix4f))
    (m : Matrix4f) : Matrix4f :=
  fold_left (fun m call => if decide (call.1 = type) then call.2 else m) calls m.

(** ** Setters of the bound resources *)

(** [Renderer::SetIndexBuffer] *)
Definition SetIndexBuffer (indexBuffer : option IndexBuffer) (w : World) : World :=
  if NAZARA_RENDERER_SAFE cfg
     && match indexBuffer with Some b => negb (ib_hardware b) | None => false end
  then report (NazaraError (Msg "Buffer must be hardware")) w
  else if negb (same_ptr ib_ptr (s_indexBuffer w) indexBuffer) then
    let w := set_s_indexBuffer indexBuffer w in
    set_s_updateFlags (add_flag (s_updateFlags w) Update_VAO) w
  else w.

(** [Renderer::SetVertexBuffer] *)
Definition SetVertexBuffer (vertexBuffer : option VertexBuffer) (w : World) : World :=
  if NAZARA_RENDERER_SAFE cfg
     && match vertexBuffer with Some b => negb (vb_hardware b) | None => false end
  then report (NazaraError (Msg "Buffer must be hardware")) w
  else if bool_decide (is_Some vertexBuffer)
          && negb (same_ptr vb_ptr (s_vertexBuffer w) vertexBuffer) then
    let w := set_s_vertexBuffer vertexBuffer w in
    set_s_updateFlags (add_flag (s_updateFlags w) Update_VAO) w
  else w.

(** [Renderer::SetShader] *)
Definition SetShader (shader : option Shader) (w : World) : World :=
  if NAZARA_RENDERER_SAFE cfg
     && match shader with
        | Some s => negb (sh_valid s) || negb (sh_linked s)
        | None => false
        end
  then report (NazaraError (Msg "Invalid shader")) w
  else if negb (same_ptr sh_ptr (s_shader w) shader) then
    let w := set_s_shader shader w in
    set_s_updateFlags (add_flag (s_updateFlags w) Update_Shader) w
  else w.

(** [Renderer::SetTarget] *)
Definition SetTarget (target : option RenderTarget) (w : World) : bool * World :=
  if same_ptr rt_ptr (s_target w) target then (true, w)
  else
    let w :=
      match s_target w with
      | Some old =>
          let w := if negb (rt_hasContext old)
                   then emit (RenderTarget_Desactivate (rt_ptr old)) w else w in
          set_s_target None w
      | None => w
      end in
    match target with
    | Some t =>
        if NAZARA_RENDERER_SAFE cfg && negb (rt_renderable t)
        then (false, report (NazaraError (Msg "Target not renderable")) w)
        else
          let w := emit (RenderTarget_Activate (rt_ptr t)) w in
          if negb (rt_activate t)
          then (false, report (NazaraError (Msg "Failed to activate target")) w)
          else
            let w := set_s_target (Some t) w in
            (true, emit (OpenGL_SetTarget (rt_ptr <$> s_target w)) w)
    | None => (true, emit (OpenGL_SetTarget (rt_ptr <$> s_target w)) w)
    end.

(** [Renderer::EnableInstancing] *)
Definition EnableInstancing (instancing : bool) (w : World) : World :=
  if negb (eqb (s_instancing w) instancing) then
    let w := set_s_updateFlags (add_flag (s_updateFlags w) Update_VAO) w in
    set_s_instancing instancing w
  else w.

(** [Renderer::GetInstanceBuffer] *)
Definition GetInstanceBuffer (w : World) : option VertexBuffer * World :=
  if NAZARA_RENDERER_SAFE cfg && negb (s_capabilities w RendererCap_Instancing)
  then (None, report (NazaraError (Msg "Instancing not supported")) w)
  else (Some (s_instanceBuffer w),
        set_s_updateFlags (add_flag (s_updateFlags w) Update_VAO) w).

(** [Renderer::IsComponentTypeSupported] *)
Definition IsComponentTypeSupported (type : ComponentType) (w : World) : bool :=
  match type with
  | ComponentType_Color
  | ComponentType_Float1 | ComponentType_Float2
  | ComponentType_Float3 | ComponentType_Float4 => true
  | ComponentType_Double1 | ComponentType_Double2
  | ComponentType_Double3 | ComponentType_Double4 => gl_hasVertexAttribLPointer w
  | ComponentType_Int1 | ComponentType_Int2
  | ComponentType_Int3 | ComponentType_Int4 => gl_hasVertexAttribIPointer w
  | ComponentType_Quaternion => false
  end.

(** ** The driver's vertex array names *)

(** [glGenVertexArrays(1, &s_currentVAO); glBindVertexArray(s_currentVAO);] *)
Definition gen_vertex_array (context : Context) (w : World) : World :=
  let names := gl_vertexArrays w !!! context in
  let name := glGenVertexArrays_name names in
  let w := set_gl_vertexArrays (<[context := name :: names]> (gl_vertexArrays w)) w in
  let w := emit (glGenVertexArrays name) w in
  let w := set_s_currentVAO name w in
  emit (glBindVertexArray name) w.

Definition drop_vertex_array (context : Context) (name : GLuint) (w : World) : World :=
  let names := gl_vertexArrays w !!! context in
  set_gl_vertexArrays
    (<[context := filter (fun n => n <> name) names]> (gl_vertexArrays w)) w.

(** [glDeleteVertexArrays(1, &name)], which acts on the current context. *)
Definition delete_vertex_array (name : GLuint) (w : World) : World :=
  let w := emit (glDeleteVertexArrays name) w in
  match current_context w with
  | Some context => drop_vertex_array context name w
  | None => w
  end.

(** Modelled from the spec: [OpenGL::DeleteVertexArray(context, name)]
    belongs to the [OpenGL] class, outside the sources.  A vertex array is
    local to the context that created it: the name is deleted at once when
    that context is current and the deletion is queued otherwise. *)
Definition OpenGL_DeleteVertexArray_call (context : Context) (name : GLuint)
    (w : World) : World :=
  let w := emit (OpenGL_DeleteVertexArray context name) w in
  if bool_decide (current_context w = Some context)
  then drop_vertex_array context name w
  else w.

(** ** Release notifications *)

(** The loop shared by the three handlers: in every context, each entry
    whose key satisfies [hit] is handed to [OpenGL::DeleteVertexArray] and
    erased.  The deletions do not read the maps, so they are listed first
    and the maps are filtered afterwards. *)
Definition evicted (hit : VAO_Key -> bool) (w : World) : list (Context * GLuint) :=
  '(context, entry) ← map_to_list (s_vaos w);
  '(key, e) ← map_to_list (vaoMap entry);
  if hit key then [(context, vao e)] else [].

Definition keep (hit : VAO_Key -> bool) (entry : Context_Entry) : Context_Entry :=
  {| vaoMap := filter (fun kv => hit kv.1 = false) (vaoMap entry);
     onReleaseSlot := onReleaseSlot entry |}.

Definition release (hit : VAO_Key -> bool) (w : World) : World :=
  let w' := fold_left (fun w d => OpenGL_DeleteVertexArray_call d.1 d.2 w)
                      (evicted hit w) w in
  set_s_vaos (keep hit <$> s_vaos w) w'.

(** [Renderer::OnIndexBufferRelease] *)
Definition OnIndexBufferRelease (indexBuffer : ptr) (w : World) : World :=
  release (fun key => bool_decide (key.1.1.1 = Some indexBuffer)) w.

(** [Renderer::OnVertexBufferRelease] *)
Definition OnVertexBufferRelease (vertexBuffer : ptr) (w : World) : World :=
  release (fun key => bool_decide (key.1.1.2 = Some vertexBuffer)) w.

(** [Renderer::OnVertexDeclarationRelease] *)
Definition OnVertexDeclarationRelease (vertexDeclaration : ptr) (w : World) : World :=
  release (fun key => bool_decide (key.1.2 = Some vertexDeclaration)
                      || bool_decide (key.2 = Some vertexDeclaration)) w.

(** [Renderer::OnContextRelease] *)
Definition OnContextRelease (context : Context) (w : World) : World :=
  set_s_vaos (delete context (s_vaos w)) w.

(** [Renderer::OnShaderReleased] *)
Definition OnShaderReleased (shader : ptr) (w : World) : World :=
  if bool_decide (sh_ptr <$> s_shader w = Some shader) then
    let w := set_s_shader None w in
    set_s_updateFlags (add_flag (s_updateFlags w) Update_Shader) w
  else w.

(** ** Texture units *)

Context {Smp : Samplers}.

Definition MsgTextureUnit (unit max : N) : Message :=
  Msg ("Texture unit out of range (" ++ String_Number unit ++ " >= "
       ++ String_Number max ++ ")").

(** [Renderer::SetTexture].  Without the range check an index past the
    vector is undefined. *)
Definition SetTexture (unit : N) (tex : option Texture) (w : World) : option World :=
  if NAZARA_RENDERER_SAFE cfg && (s_maxTextureUnit w <=? unit)%N
  then Some (report (NazaraError (MsgTextureUnit unit (s_maxTextureUnit w))) w)
  else
    match s_textureUnits w !! N.to_nat unit with
    | None => None
    | Some u =>
        if negb (same_ptr tex_ptr (texture u) tex) then
          let u :=
            match tex with
            | Some t =>
                let r := TextureSampler_UseMipmaps (sampler u) (Texture_HasMipmaps t) in
                {| sampler := r.1; texture := tex;
                   samplerUpdated := if r.2 then false else samplerUpdated u |}
            | None =>
                {| sampler := sampler u; texture := tex;
                   samplerUpdated := samplerUpdated u |}
            end in
          let w := set_s_textureUnits (<[N.to_nat unit := u]> (s_textureUnits w)) w in
          let w := set_s_dirtyTextureUnits (s_dirtyTextureUnits w ++ [N.to_nat unit]) w in
          Some (set_s_updateFlags (add_flag (s_updateFlags w) Update_Textures) w)
        else Some w
    end.

(** [Renderer::SetTextureSampler] *)
Definition SetTextureSampler (unit : N) (smp : N) (w : World) : option World :=
  if NAZARA_RENDERER_SAFE cfg && (s_maxTextureUnit w <=? unit)%N
  then Some (report (NazaraError (MsgTextureUnit unit (s_maxTextureUnit w))) w)
  else
    match s_textureUnits w !! N.to_nat unit with
    | None => None
    | Some u =>
        let smp :=
          match texture u with
          | Some t => (TextureSampler_UseMipmaps smp (Texture_HasMipmaps t)).1
          | None => smp
          end in
        let u := {| sampler := smp; texture := texture u; samplerUpdated := false |} in
        let w := set_s_textureUnits (<[N.to_nat unit := u]> (s_textureUnits w)) w in
        let w := set_s_dirtyTextureUnits (s_dirtyTextureUnits w ++ [N.to_nat unit]) w in
        Some (set_s_updateFlags (add_flag (s_updateFlags w) Update_Textures) w)
    end.

(** [Renderer::OnTextureReleased] *)
Definition OnTextureReleased (tex : ptr) (w : World) : World :=
  set_s_textureUnits
    (map (fun u =>
            if bool_decide (tex_ptr <$> texture u = Some tex)
            then {| sampler := sampler u; texture := None;
                    samplerUpdated := samplerUpdated u |}
            else u)
         (s_textureUnits w)) w.

(** ** Reconciliation *)

(** The uniform behind each matrix slot, as paired by [EnsureStateUpdate]. *)
Definition matrix_uniform (type : MatrixType) : ShaderUniform :=
  match type with
  | MatrixType_Projection => ShaderUniform_ProjMatrix
  | MatrixType_View => ShaderUniform_ViewMatrix
  | MatrixType_World => ShaderUniform_WorldMatrix
  | MatrixType_ViewProj => ShaderUniform_ViewProjMatrix
  | MatrixType_WorldView => ShaderUniform_WorldViewMatrix
  | MatrixType_WorldViewProj => ShaderUniform_WorldViewProjMatrix
  | MatrixType_InvProjection => ShaderUniform_InvProjMatrix
  | MatrixType_InvView => ShaderUniform_InvViewMatrix
  | MatrixType_InvViewProj => ShaderUniform_InvViewProjMatrix
  | MatrixType_InvWorld => ShaderUniform_InvWorldMatrix
  | MatrixType_InvWorldView => ShaderUniform_InvWorldViewMatrix
  | MatrixType_InvWorldViewProj => ShaderUniform_InvWorldViewProjMatrix
  end.

(** The block run when [Update_Shader] is set: every location is read
    again from the program (-1 when the uniform does not exist). *)
Definition resolve_locations (shader : Shader) (w : World) : World :=
  let w := fold_left
             (fun w type =>
                set_location type (sh_uniformLocation shader (matrix_uniform type)) w)
             MatrixType_all w in
  let w := set_s_targetSize (0%N, 0%N) w in
  let w := set_s_updateFlags (add_flag (s_updateFlags w) Update_Matrices) w in
  set_s_updateFlags (clear_flag (s_updateFlags w) Update_Shader) w.

(** The uniforms tied to the size of the target. *)
Definition send_target_size (shader : Shader) (target : RenderTarget) (w : World) : World :=
  let targetSize := (rt_width target, rt_height target) in
  if bool_decide (s_targetSize w <> targetSize) then
    let l := sh_uniformLocation shader ShaderUniform_InvTargetSize in
    let w := if bool_decide (l <> -1)
             then emit (Shader_SendInvTargetSize l targetSize.1 targetSize.2) w else w in
    let l := sh_uniformLocation shader ShaderUniform_TargetSize in
    let w := if bool_decide (l <> -1)
             then emit (Shader_SendTargetSize l targetSize.1 targetSize.2) w else w in
    set_s_targetSize targetSize w
  else w.

(** A loop whose body may index out of range or go through a null pointer:
    [None] is the undefined behaviour of the source. *)
Fixpoint for_each {A} (body : A -> World -> option World) (l : list A) (w : World)
  : option World :=
  match l with
  | [] => Some w
  | a :: l =>
      match body a w with
      | Some w => for_each body l w
      | None => None
      end
  end.

(** Body of the loops over [s_dirtyTextureUnits]. *)
Definition update_sampler (i : nat) (w : World) : option World :=
  match s_textureUnits w !! i with
  | None => None
  | Some unit =>
      match texture unit with
      | Some tex =>
          if negb (samplerUpdated unit) then
            let w :=
              if s_useSamplerObjects w then emit (TextureSampler_Bind (sampler unit) i) w
              else
                let w := emit (OpenGL_BindTextureUnit i) w in
                emit (TextureSampler_Apply (sampler unit) (tex_ptr tex)) w in
            Some (set_s_textureUnits
                    (<[i := {| sampler := sampler unit; texture := texture unit;
                               samplerUpdated := true |}]> (s_textureUnits w)) w)
          else Some w
      | None => Some w
      end
  end.

Definition update_textures (w : World) : option World :=
  match for_each update_sampler (s_dirtyTextureUnits w) w with
  | None => None
  | Some w =>
      let w := set_s_dirtyTextureUnits [] w in
      Some (set_s_updateFlags (clear_flag (s_updateFlags w) Update_Textures) w)
  end.

(** Body of the loop over [s_matrices]: only slots that exist in the
    program are brought up to date and sent. *)
Definition send_matrix (type : MatrixType) (w : World) : World :=
  if bool_decide (location (s_matrices w type) <> -1) then
    let w := ensure_updated type w in
    emit (Shader_SendMatrix (location (s_matrices w type)) (matrix (s_matrices w type))) w
  else w.

Definition update_matrices (w : World) : World :=
  let w := fold_left (fun w type => send_matrix type w) MatrixType_all w in
  set_s_updateFlags (clear_flag (s_updateFlags w) Update_Matrices) w.

(** The key of the vertex array wanted by the current bindings. *)
Definition current_key (vertexBuffer : VertexBuffer) (w : World) : VAO_Key :=
  let vertexDeclaration := vb_declaration vertexBuffer in
  let instancingDeclaration :=
    if s_instancing w then vb_declaration (s_instanceBuffer w) else None in
  (ib_ptr <$> s_indexBuffer w, Some (vb_ptr vertexBuffer),
   vd_ptr <$> vertexDeclaration, vd_ptr <$> instancingDeclaration).

Definition context_vaoMap (context : Context) (w : World) : gmap VAO_Key VAO_Entry :=
  match s_vaos w !! context with
  | Some entry => vaoMap entry
  | None => ∅
  end.

Definition set_context_vaoMap (context : Context) (m : gmap VAO_Key VAO_Entry)
    (w : World) : World :=
  set_s_vaos
    (alter (fun entry => {| vaoMap := m; onReleaseSlot := onReleaseSlot entry |})
           context (s_vaos w)) w.

(** Search of the map of [context] for [key], and creation of the entry on a
    miss.  Answers the state and [update], whether the vertex array has to be
    programmed; [s_currentVAO] holds the name found or made.  Undefined when
    a new entry is connected to the release signal of a null declaration. *)
Definition find_or_create_vao (context : Context) (vertexBuffer : VertexBuffer)
    (w : World) : option (World * bool) :=
  let w :=
    match s_vaos w !! context with
    | None => set_s_vaos (<[context := {| vaoMap := ∅; onReleaseSlot := context |}]>
                            (s_vaos w)) w
    | Some _ => w
    end in
  let key := current_key vertexBuffer w in
  match context_vaoMap context w !! key with
  | None =>
      let w := gen_vertex_array context w in
      match vb_declaration vertexBuffer with
      | None => None
      | Some vertexDeclaration =>
          let entry :=
            {| vao := s_currentVAO w;
               onIndexBufferReleaseSlot := key.1.1.1;
               onVertexBufferReleaseSlot := Some (vb_ptr vertexBuffer);
               onInstancingDeclarationReleaseSlot := key.2;
               onVertexDeclarationReleaseSlot := Some (vd_ptr vertexDeclaration) |} in
          Some (set_context_vaoMap context
                  (<[key := entry]> (context_vaoMap context w)) w, true)
      end
  | Some entry =>
      Some (set_s_currentVAO (vao entry) w, false)
  end.

(** One attribute of the declaration being programmed; [i] tells the vertex
    buffer (0) from the instance buffer (1).  The boolean is the [break]. *)
Definition declare_component (i : nat) (declaration : VertexDeclaration)
    (bufferOffset stride : N) (j : nat) (w : World) : World * bool :=
  let '(enabled, type, offset) := vd_component declaration j in
  if enabled then
    if negb (IsComponentTypeSupported type w) then
      (report (NazaraError (MsgInvalidDeclaration (vd_ptr declaration) j type)) w, true)
    else
      let w := emit (glEnableVertexAttribArray j) w in
      let pointer := (bufferOffset + offset)%N in
      let w :=
        match type with
        | ComponentType_Color =>
            emit (glVertexAttribPointer j type true stride pointer) w
        | ComponentType_Double1 | ComponentType_Double2
        | ComponentType_Double3 | ComponentType_Double4 =>
            emit (glVertexAttribLPointer j type stride pointer) w
        | ComponentType_Float1 | ComponentType_Float2
        | ComponentType_Float3 | ComponentType_Float4 =>
            emit (glVertexAttribPointer j type false stride pointer) w
        | ComponentType_Int1 | ComponentType_Int2
        | ComponentType_Int3 | ComponentType_Int4 =>
            emit (glVertexAttribIPointer j type stride pointer) w
        | _ =>
            report (NazaraInternalError (Msg "Unsupported component type")) w
        end in
      let w := if (i =? 1)%nat then emit (glVertexAttribDivisor j 1) w else w in
      (w, false)
  else (emit (glDisableVertexAttribArray j) w, false).

(** The loop [for (j = start; j <= end; ++j)] over the components, left at
    the first enabled component of an unsupported type. *)
Fixpoint declare_components (i : nat) (declaration : VertexDeclaration)
    (bufferOffset stride : N) (js : list nat) (w : World) : World * bool :=
  match js with
  | [] => (w, false)
  | j :: js =>
      let r := declare_component i declaration bufferOffset stride j w in
      if r.2 then (r.1, true)
      else declare_components i declaration bufferOffset stride js r.1
  end.

(** The indices [start .. stop], both included. *)
Definition range (start stop : nat) : list nat := seq start (S stop - start).

(** One turn of the outer loop: binds the buffer and walks its declaration.
    Undefined when the buffer has no declaration. *)
Definition declare_buffer (i : nat) (vertexBuffer : VertexBuffer) (w : World)
  : option (World * bool) :=
  let w := emit (glBindBuffer BufferType_Vertex (vb_glid vertexBuffer)) w in
  let bufferOffset := vb_startOffset vertexBuffer in
  match vb_declaration vertexBuffer with
  | None => None
  | Some vertexDeclaration =>
      let stride := vd_stride vertexDeclaration in
      let start := if (i =? 0)%nat then VertexComponent_FirstVertexData cfg
                   else VertexComponent_FirstInstanceData cfg in
      let stop := if (i =? 0)%nat then VertexComponent_LastVertexData cfg
                  else VertexComponent_LastInstanceData cfg in
      Some (declare_components i vertexDeclaration bufferOffset stride
              (range start stop) w)
  end.

(** The block under [if (update)]: answers the state and [updateFailed].  A
    failure on the vertex buffer leaves the inner loop only; the instance
    buffer, when instancing is on, is still walked. *)
Definition program_vao (vertexBuffer : VertexBuffer) (w : World) : option (World * bool) :=
  match declare_buffer 0 vertexBuffer w with
  | None => None
  | Some (w, failed0) =>
      match (if s_instancing w then declare_buffer 1 (s_instanceBuffer w) w
             else Some (w, false)) with
      | None => None
      | Some (w, failed1) =>
          let updateFailed := failed0 || failed1 in
          let w :=
            if negb (s_instancing w) then
              fold_left (fun w i => emit (glDisableVertexAttribArray i) w)
                        (range (VertexComponent_FirstInstanceData cfg)
                               (VertexComponent_LastInstanceData cfg)) w
            else w in
          let w :=
            match s_indexBuffer w with
            | Some indexBuffer =>
                emit (glBindBuffer BufferType_Index (ib_glid indexBuffer)) w
            | None => emit (glBindBuffer BufferType_Index 0%N) w
            end in
          let w := emit (OpenGL_SetBuffer BufferType_Index 0%N) w in
          let w := emit (OpenGL_SetBuffer BufferType_Vertex 0%N) w in
          Some (w, updateFailed)
      end
  end.

(** The branch taken when programming failed: the vertex array is deleted
    and the entry, which stays in the map, is marked with the null name. *)
Definition discard_vao (context : Context) (vertexBuffer : VertexBuffer) (w : World)
  : option World :=
  let key := current_key vertexBuffer w in
  match context_vaoMap context w !! key with
  | None => None
  | Some entry =>
      let w := delete_vertex_array (vao entry) w in
      let w := set_context_vaoMap context
                 (<[key := {| vao := 0%N;
                              onIndexBufferReleaseSlot := onIndexBufferReleaseSlot entry;
                              onVertexBufferReleaseSlot := onVertexBufferReleaseSlot entry;
                              onInstancingDeclarationReleaseSlot :=
                                onInstancingDeclarationReleaseSlot entry;
                              onVertexDeclarationReleaseSlot :=
                                onVertexDeclarationReleaseSlot entry |}]>
                    (context_vaoMap context w)) w in
      Some (set_s_currentVAO 0%N w)
  end.

(** The block under [if (s_updateFlags & Update_VAO)], once a vertex buffer
    is known to be bound.  With vertex array objects the cache is searched
    in the map of the current context, and following a null context is
    undefined; without them the attributes are declared again each time and
    the flag stays set. *)
Definition update_vao (vertexBuffer : VertexBuffer) (w : World) : option World :=
  if s_useVertexArrayObjects w then
    match current_context w with
    | None => None
    | Some context =>
        match find_or_create_vao context vertexBuffer w with
        | None => None
        | Some (w, update) =>
            match (if update then program_vao vertexBuffer w else Some (w, false)) with
            | None => None
            | Some (w, updateFailed) =>
                match (if update then
                         if updateFailed then discard_vao context vertexBuffer w
                         else Some (emit (glBindVertexArray 0%N) w)
                       else Some w) with
                | None => None
                | Some w =>
                    Some (set_s_updateFlags (clear_flag (s_updateFlags w) Update_VAO) w)
                end
            end
        end
    end
  else
    match program_vao vertexBuffer w with
    | None => None
    | Some (w, _) => Some w
    end.

(** The last loop: the textures of all units are bound again. *)
Definition bind_texture (i : nat) (w : World) : option World :=
  match s_textureUnits w !! i with
  | None => None
  | Some unit =>
      match texture unit with
      | Some tex =>
          let w := emit (OpenGL_BindTexture i (tex_type tex) (tex_glid tex)) w in
          Some (emit (Texture_EnsureMipmapsUpdate (tex_ptr tex)) w)
      | None => Some w
      end
  end.

(** The debug check that closes the block of the dirty flags. *)
Definition check_flags_cleared (w : World) : World :=
  if NAZARA_DEBUG cfg
     && bool_decide (s_updateFlags w <> Update_None)
     && negb (s_useVertexArrayObjects w)
     && bool_decide (s_updateFlags w <> Update_VAO)
  then report (NazaraWarning (Msg "Update flags not fully cleared")) w
  else w.

(** What follows the block of the dirty flags: the vertex array is bound,
    the textures are checked and the render states are applied. *)
Definition finish_update (w : World) : option (bool * World) :=
  if s_useVertexArrayObjects w && (s_currentVAO w =? 0)%N
  then Some (false, report (NazaraError (Msg "Failed to create VAO")) w)
  else
    let w := if s_useVertexArrayObjects w
             then emit (glBindVertexArray (s_currentVAO w)) w else w in
    match for_each bind_texture (seq 0 (N.to_nat (s_maxTextureUnit w))) w with
    | None => None
    | Some w => Some (true, emit (OpenGL_ApplyStates (s_states w)) w)
    end.

(** The end of the block under [if (s_updateFlags != Update_None)], from
    the test of [Update_VAO] on, with what follows the block. *)
Definition update_layout (w : World) : option (bool * World) :=
  if has_flag (s_updateFlags w) Update_VAO then
    match s_vertexBuffer w with
    | None =>
        if NAZARA_RENDERER_SAFE cfg
        then Some (false, report (NazaraError (Msg "No vertex buffer")) w)
        else None
    | Some vertexBuffer =>
        match update_vao vertexBuffer w with
        | None => None
        | Some w => finish_update (check_flags_cleared w)
        end
    end
  else finish_update (check_flags_cleared w).

(** The block under [if (s_updateFlags != Update_None)]. *)
Definition update_dirty (w : World) : option (bool * World) :=
  match (if has_flag (s_updateFlags w) Update_Textures
         then update_textures w else Some w) with
  | None => None
  | Some w =>
      update_layout (if has_flag (s_updateFlags w) Update_Matrices
                     then update_matrices w else w)
  end.

(** [Renderer::EnsureStateUpdate].  [Some (b, w)] is a return of [b] in
    state [w]; [None] is undefined behaviour (a null pointer followed or an
    index out of range), which the checks under [NAZARA_RENDERER_SAFE] and
    [NAZARA_DEBUG] are there to exclude. *)
Definition EnsureStateUpdate (w : World) : option (bool * World) :=
  if NAZARA_DEBUG cfg && bool_decide (current_context w = None)
  then Some (false, report (NazaraError (Msg "No active context")) w)
  else
    match s_shader w, s_target w with
    | None, _ =>
        if NAZARA_RENDERER_SAFE cfg
        then Some (false, report (NazaraError (Msg "No shader")) w)
        else None
    | Some _, None =>
        if NAZARA_RENDERER_SAFE cfg
        then Some (false, report (NazaraError (Msg "No target")) w)
        else None
    | Some shader, Some target =>
        let w := emit (RenderTarget_EnsureTargetUpdated (rt_ptr target)) w in
        let w := emit (Shader_Bind (sh_ptr shader)) w in
        let w := if has_flag (s_updateFlags w) Update_Shader
                 then resolve_locations shader w else w in
        let w := send_target_size shader target w in
        if bool_decide (s_updateFlags w <> Update_None)
        then update_dirty w
        else finish_update w
    end.

(** ** Draw calls *)

Definition is_draw (c : Command) : bool :=
  match c with
  | glDrawArrays _ _ _ | glDrawArraysInstanced _ _ _ _ => true
  | _ => false
  end.

(** [Renderer::DrawPrimitives] *)
Definition DrawPrimitives (mode firstVertex vertexCount : N) (w : World) : option World :=
  if NAZARA_DEBUG cfg && bool_decide (current_context w = None)
  then Some (report (NazaraError (Msg "No active context")) w)
  else if NAZARA_DEBUG cfg && (PrimitiveMode_Max cfg <? mode)%N
  then Some (report (NazaraError (Msg "Primitive mode out of enum")) w)
  else
    let w := EnableInstancing false w in
    match EnsureStateUpdate w with
    | None => None
    | Some (false, w) =>
        Some (report (NazaraError (MsgFailedToUpdateStates (Error_GetLastError (log w)))) w)
    | Some (true, w) =>
        let w := emit (glDrawArrays mode firstVertex vertexCount) w in
        Some (if s_useVertexArrayObjects w then emit (glBindVertexArray 0%N) w else w)
    end.

(** [Renderer::DrawPrimitivesInstanced] *)
Definition DrawPrimitivesInstanced (instanceCount mode firstVertex vertexCount : N)
    (w : World) : option World :=
  if NAZARA_DEBUG cfg && bool_decide (current_context w = None)
  then Some (report (NazaraError (Msg "No active context")) w)
  else if NAZARA_DEBUG cfg && (PrimitiveMode_Max cfg <? mode)%N
  then Some (report (NazaraError (Msg "Primitive mode out of enum")) w)
  else if NAZARA_RENDERER_SAFE cfg && negb (s_capabilities w RendererCap_Instancing)
  then Some (report (NazaraError (Msg "Instancing not supported")) w)
  else if NAZARA_RENDERER_SAFE cfg && (instanceCount =? 0)%N
  then Some (report (NazaraError (Msg "Instance count must be over zero")) w)
  else if NAZARA_RENDERER_SAFE cfg
          && (vb_vertexCount (s_instanceBuffer w) <? instanceCount)%N
  then Some (report (NazaraError (MsgInstanceCount instanceCount)) w)
  else
    let w := EnableInstancing true w in
    match EnsureStateUpdate w with
    | None => None
    | Some (false, w) =>
        Some (report (NazaraError (MsgFailedToUpdateStates (Error_GetLastError (log w)))) w)
    | Some (true, w) =>
        let w := emit (glDrawArraysInstanced mode firstVertex vertexCount instanceCount) w in
        Some (if s_useVertexArrayObjects w then emit (glBindVertexArray 0%N) w else w)
    end.

(** ** Module start and stop *)

Inductive OpenGLExtension :=
| OpenGLExtension_AnisotropicFilter
| OpenGLExtension_ConditionalRender
| OpenGLExtension_DrawInstanced
| OpenGLExtension_FP64
| OpenGLExtension_FrameBufferObject
| OpenGLExtension_InstancedArray
| OpenGLExtension_PixelBufferObject
| OpenGLExtension_SamplerObjects
| OpenGLExtension_VertexArrayObjects.

(** What [Initialize] learns from its collaborators: the answer of each
    call it makes, in the order of the calls. *)
Record InitEnv := {
  Utility_Initialize : bool;
  OpenGL_Initialize : bool;
  OpenGL_IsSupported : OpenGLExtension -> bool;
  has_glBindFragDataLocation : bool;
  GL_MAX_COMBINED_TEXTURE_IMAGE_UNITS : N;
  RenderStates_default : RenderStates;
  fullscreenQuadBuffer_Fill : bool;
  (** [s_instanceBuffer.Reset(nullptr, NAZARA_RENDERER_INSTANCE_BUFFER_SIZE,
      ...)]: the buffer obtained, or the text [e.what()] of the exception
      when the call throws *)
  instanceBuffer_Reset : VertexBuffer + string;
  RenderBuffer_Initialize : bool;
  Shader_Initialize : bool;
  Texture_Initialize : bool;
  TextureSampler_Initialize : bool;
  UberShader_Initialize : bool;
  debugShader_Create : bool;
  debugShader_AttachFragment : bool;
  debugShader_AttachVertex : bool;
  debugShader_Link : bool
}.

Definition TextureUnit_default : TextureUnit :=
  {| sampler := 0%N; texture := None; samplerUpdated := false |}.

(** A vertex buffer after [Reset()]. *)
Definition VertexBuffer_reset (b : VertexBuffer) : VertexBuffer :=
  {| vb_ptr := vb_ptr b; vb_hardware := false; vb_glid := 0%N;
     vb_startOffset := 0%N; vb_vertexCount := 0%N; vb_declaration := None |}.

(** The reference counter is an [unsigned int]: [++] wraps from [UINT_MAX]
    to zero.  [--] is only reached above one, where it cannot wrap. *)
Definition UINT_MAX : N := 4294967295.

Definition UInt_incr (n : N) : N := ((n + 1) mod (UINT_MAX + 1))%N.

(** [Renderer::Uninitialize] *)
Definition Uninitialize (w : World) : World :=
  if bool_decide (s_moduleReferenceCounter w <> 1%N) then
    if (1 <? s_moduleReferenceCounter w)%N
    then set_s_moduleReferenceCounter (s_moduleReferenceCounter w - 1)%N w
    else w
  else
    let w := set_s_moduleReferenceCounter 0%N w in
    let w := set_s_textureUnits [] w in
    let w := set_s_instanceBuffer (VertexBuffer_reset (s_instanceBuffer w)) w in
    let w := fold_left (fun w d => OpenGL_DeleteVertexArray_call d.1 d.2 w)
                       (evicted (fun _ => true) w) w in
    set_s_vaos ∅ w.

(** The assignments of [Initialize] between the start of OpenGL and the
    filling of the full-screen quad.  State that no operation below reads
    ([s_maxAnisotropyLevel], [s_maxColorAttachments], [s_maxRenderTarget],
    [s_maxTextureSize], [s_maxVertexAttribs], [s_fullscreenQuadBuffer]) is
    not carried. *)
Definition Initialize_state (env : InitEnv) (w : World) : World :=
  let capabilities (cap : RendererCap) : bool :=
    match cap with
    | RendererCap_AnisotropicFilter =>
        OpenGL_IsSupported env OpenGLExtension_AnisotropicFilter
    | RendererCap_ConditionalRendering =>
        OpenGL_IsSupported env OpenGLExtension_ConditionalRender
    | RendererCap_FP64 => OpenGL_IsSupported env OpenGLExtension_FP64
    | RendererCap_HardwareBuffer => true
    | RendererCap_Instancing =>
        OpenGL_IsSupported env OpenGLExtension_DrawInstanced
        && OpenGL_IsSupported env OpenGLExtension_InstancedArray
    | RendererCap_MultipleRenderTargets => has_glBindFragDataLocation env
    | RendererCap_OcclusionQuery => true
    | RendererCap_PixelBufferObject =>
        OpenGL_IsSupported env OpenGLExtension_PixelBufferObject
    | RendererCap_RenderTexture =>
        OpenGL_IsSupported env OpenGLExtension_FrameBufferObject
    | RendererCap_Texture3D => true
    | RendererCap_TextureCubemap => true
    | RendererCap_TextureMulti => true
    | RendererCap_TextureNPOT => true
    end in
  let maxTextureUnit :=
    if capabilities RendererCap_TextureMulti
    then GL_MAX_COMBINED_TEXTURE_IMAGE_UNITS env else 1%N in
  {| s_vaos := s_vaos w;
     s_dirtyTextureUnits := s_dirtyTextureUnits w;
     s_textureUnits :=
       resize (N.to_nat maxTextureUnit) TextureUnit_default (s_textureUnits w);
     s_currentVAO := s_currentVAO w;
     s_instanceBuffer := s_instanceBuffer w;
     s_matrices := fun _ => Build_MatrixUnit MakeIdentity true (-1);
     s_states := RenderStates_default env;
     s_targetSize := (0%N, 0%N);
     s_updateFlags := Z.lor (Z.lor Update_Matrices Update_Shader) Update_VAO;
     s_indexBuffer := None;
     s_target := None;
     s_shader := None;
     s_vertexBuffer := None;
     s_capabilities := capabilities;
     s_instancing := s_instancing w;
     s_useSamplerObjects := OpenGL_IsSupported env OpenGLExtension_SamplerObjects;
     s_useVertexArrayObjects := OpenGL_IsSupported env OpenGLExtension_VertexArrayObjects;
     s_maxTextureUnit := maxTextureUnit;
     s_moduleReferenceCounter := s_moduleReferenceCounter w;
     current_context := current_context w;
     gl_vertexArrays := gl_vertexArrays w;
     gl_hasVertexAttribLPointer := gl_hasVertexAttribLPointer w;
     gl_hasVertexAttribIPointer := gl_hasVertexAttribIPointer w;
     trace := trace w;
     log := log w |}.

(** The creation of the instance buffer, guarded by the capability; a
    thrown exception withdraws the capability. *)
Definition Initialize_instanceBuffer (env : InitEnv) (w : World) : World :=
  if s_capabilities w RendererCap_Instancing then
    match instanceBuffer_Reset env with
    | inl b => set_s_instanceBuffer b w
    | inr what =>
        let w := set_s_capabilities
                   (<[RendererCap_Instancing := false]> (s_capabilities w)) w in
        report (NazaraError (Msg ("Failed to create instancing buffer: " ++ what))) w
    end
  else w.

(** The remaining steps, each with the message of its failure. *)
Definition Initialize_steps (env : InitEnv) : list (bool * string) :=
  [ (RenderBuffer_Initialize env, "Failed to initialize render buffers");
    (Shader_Initialize env, "Failed to initialize shaders");
    (Texture_Initialize env, "Failed to initialize textures");
    (TextureSampler_Initialize env, "Failed to initialize texture samplers");
    (UberShader_Initialize env, "Failed to initialize uber shaders");
    (debugShader_Create env, "Failed to create debug shader");
    (debugShader_AttachFragment env, "Failed to attach fragment stage");
    (debugShader_AttachVertex env, "Failed to attach vertex stage");
    (debugShader_Link env, "Failed to link shader") ].

Definition first_failure (steps : list (bool * string)) : option string :=
  snd <$> head (filter (fun step => step.1 = false) steps).

(** [Renderer::Initialize].  Every [return false] after the counter has been
    raised runs [Uninitialize] on the way out ([CallOnExit]). *)
Definition Initialize (env : InitEnv) (w : World) : bool * World :=
  if (0 <? s_moduleReferenceCounter w)%N then
    (true, set_s_moduleReferenceCounter (UInt_incr (s_moduleReferenceCounter w)) w)
  else if negb (Utility_Initialize env) then
    (false, report (NazaraError (Msg "Failed to initialize Utility module")) w)
  else
    let w := set_s_moduleReferenceCounter (UInt_incr (s_moduleReferenceCounter w)) w in
    let fail (text : string) (w : World) :=
      (false, Uninitialize (report (NazaraError (Msg text)) w)) in
    if negb (OpenGL_Initialize env) then fail "Failed to initialize OpenGL" w
    else
      let w := Initialize_state env w in
      if negb (fullscreenQuadBuffer_Fill env)
      then fail "Failed to fill fullscreen quad buffer" w
      else
        let w := Initialize_instanceBuffer env w in
        match first_failure (Initialize_steps env) with
        | Some text => fail text w
        | None => (true, w)
        end.

End Renderer.

(** ** The dependency table of the matrix slots

    The slots that [UpdateMatrix] reads to recompute a slot, and the slots
    derived from a given one through any number of such steps. *)
Definition sources (type : MatrixType) : list MatrixType :=
  match type with
  | MatrixType_Projection | MatrixType_View | MatrixType_World => []
  | MatrixType_ViewProj => [MatrixType_View; MatrixType_Projection]
  | MatrixType_WorldView => [MatrixType_World; MatrixType_View]
  | MatrixType_WorldViewProj => [MatrixType_WorldView; MatrixType_Projection]
  | MatrixType_InvProjection => [MatrixType_Projection]
  | MatrixType_InvView => [MatrixType_View]
  | MatrixType_InvViewProj => [MatrixType_ViewProj]
  | MatrixType_InvWorld => [MatrixType_World]
  | MatrixType_InvWorldView => [MatrixType_WorldView]
  | MatrixType_InvWorldViewProj => [MatrixType_WorldViewProj]
  end.

Fixpoint reaches (depth : nat) (base type : MatrixType) : bool :=
  match depth with
  | O => false
  | S depth =>
      existsb (fun s => bool_decide (s = base) || reaches depth base s) (sources type)
  end.

(** No chain of sources is longer than three steps. *)
Definition derived_from (base type : MatrixType) : bool := reaches 3 base type.

(** The slot inverted into an inverse slot. *)
Definition inverse_source (type : MatrixType) : option MatrixType :=
  match type with
  | MatrixType_InvProjection => Some MatrixType_Projection
  | MatrixType_InvView => Some MatrixType_View
  | MatrixType_InvViewProj => Some MatrixType_ViewProj
  | MatrixType_InvWorld => Some MatrixType_World
  | MatrixType_InvWorldView => Some MatrixType_WorldView
  | MatrixType_InvWorldViewProj => Some MatrixType_WorldViewProj
  | _ => None
  end.

(** ** Released resources

    The resources whose release notification reaches the renderer, the
    handler each notification runs, and the keys an entry can hold the
    resource in: first component for an index buffer, second for a vertex
    buffer, third or fourth for a declaration. *)
Inductive Resource :=
| IndexBufferResource (p : ptr)
| VertexBufferResource (p : ptr)
| VertexDeclarationResource (p : ptr).

Definition keyed_on (r : Resource) (key : VAO_Key) : bool :=
  match r with
  | IndexBufferResource p => bool_decide (key.1.1.1 = Some p)
  | VertexBufferResource p => bool_decide (key.1.1.2 = Some p)
  | VertexDeclarationResource p =>
      bool_decide (key.1.2 = Some p) || bool_decide (key.2 = Some p)
  end.

Definition on_release {Matrix4f RenderStates : Type} (r : Resource)
    (w : @World Matrix4f RenderStates) : @World Matrix4f RenderStates :=
  match r with
  | IndexBufferResource p => OnIndexBufferRelease p w
  | VertexBufferResource p => OnVertexBufferRelease p w
  | VertexDeclarationResource p => OnVertexDeclarationRelease p w
  end.

(** ** Unsupported components

    Whether the walk of a declaration over the components [js] meets an
    enabled component whose type the backend cannot take, and whether the
    programming of the vertex array wanted by the bindings does. *)
Definition has_unsupported {Matrix4f RenderStates : Type}
    (declaration : VertexDeclaration) (js : list nat)
    (w : @World Matrix4f RenderStates) : bool :=
  existsb (fun j => (vd_component declaration j).1.1
                    && negb (IsComponentTypeSupported (vd_component declaration j).1.2 w))
          js.

Definition build_fails {Matrix4f RenderStates : Type} (cfg : Config)
    (vertexDeclaration : VertexDeclaration)
    (instancingDeclaration : option VertexDeclaration)
    (w : @World Matrix4f RenderStates) : bool :=
  has_unsupported vertexDeclaration
    (range (VertexComponent_FirstVertexData cfg) (VertexComponent_LastVertexData cfg)) w
  || match instancingDeclaration with
     | Some d =>
         has_unsupported d
           (range (VertexComponent_FirstInstanceData cfg)
                  (VertexComponent_LastInstanceData cfg)) w
     | None => false
     end.

(** The commands that draw, and the matrices sent to the program. *)
Definition draws {Matrix4f RenderStates : Type}
    (w : @World Matrix4f RenderStates) : list (@Command Matrix4f RenderStates) :=
  filter (fun c => is_draw c = true) (trace w).

Definition is_send_matrix {Matrix4f RenderStates : Type}
    (c : @Command Matrix4f RenderStates) : bool :=
  match c with
  | Shader_SendMatrix _ _ => true
  | _ => false
  end.

Definition sends {Matrix4f RenderStates : Type}
    (w : @World Matrix4f RenderStates) : list (@Command Matrix4f RenderStates) :=
  filter (fun c => is_send_matrix c = true) (trace w).

(** ** Well-formed caches

    In the map of [context], the names that are not null are in use in the
    context and no two keys share one. *)
Definition cache_ok {Matrix4f RenderStates : Type} (context : Context)
    (w : @World Matrix4f RenderStates) : Prop :=
  (forall key e,
     context_vaoMap context w !! key = Some e ->
     vao e <> 0%N -> vao e ∈ gl_vertexArrays w !!! context)
  /\ (forall key1 key2 e1 e2,
        context_vaoMap context w !! key1 = Some e1 ->
        context_vaoMap context w !! key2 = Some e2 ->
        vao e1 = vao e2 -> vao e1 <> 0%N -> key1 = key2).

(** No entry of the map of [context] records a failed build, which leaves
    the null name. *)
Definition cache_built {Matrix4f RenderStates : Type} (context : Context)
    (w : @World Matrix4f RenderStates) : Prop :=
  forall key e, context_vaoMap context w !! key = Some e -> vao e <> 0%N.

(** The declarations walked to program a vertex array for [vertexBuffer]
    hold no enabled component of a type the backend cannot take. *)
Definition layout_supported {Matrix4f RenderStates : Type} (cfg : Config)
    (vertexBuffer : VertexBuffer) (w : @World Matrix4f RenderStates) : bool :=
  match vb_declaration vertexBuffer with
  | Some d =>
      negb (build_fails cfg d
              (if s_instancing w then vb_declaration (s_instanceBuffer w) else None) w)
  | None => false
  end.

(** What a search of the cache dereferences. *)
Definition lookup_ready {Matrix4f RenderStates : Type} (context : Context)
    (vertexBuffer : VertexBuffer) (w : @World Matrix4f RenderStates) : Prop :=
  s_useVertexArrayObjects w = true
  /\ current_context w = Some context
  /\ is_Some (vb_declaration vertexBuffer)
  /\ (s_instancing w = true -> is_Some (vb_declaration (s_instanceBuffer w))).

(** Two states with the same cache and the same names in use. *)
Definition same_cache {Matrix4f RenderStates : Type}
    (w w' : @World Matrix4f RenderStates) : Prop :=
  s_vaos w' = s_vaos w /\ gl_vertexArrays w' = gl_vertexArrays w.

(** ** Reconciliation

    The slots that exist in the program, in the order of the loop that
    sends them. *)
Definition referenced {Matrix4f RenderStates : Type}
    (w : @World Matrix4f RenderStates) : list MatrixType :=
  filter (fun type => location (s_matrices w type) <> -1) MatrixType_all.

(** What the vertex layout stage and the texture loops dereference: the
    current context, a unit for each index they visit, the vertex buffer
    (unless its absence is checked) and the declarations of the buffers
    walked. *)
Definition reconcile_ready {Matrix4f RenderStates : Type} (cfg : Config)
    (w : @World Matrix4f RenderStates) : Prop :=
  is_Some (current_context w)
  /\ Forall (fun i => (i < length (s_textureUnits w))%nat) (s_dirtyTextureUnits w)
  /\ (N.to_nat (s_maxTextureUnit w) <= length (s_textureUnits w))%nat
  /\ (NAZARA_RENDERER_SAFE cfg = true \/ is_Some (s_vertexBuffer w))
  /\ (forall vertexBuffer,
        s_vertexBuffer w = Some vertexBuffer -> is_Some (vb_declaration vertexBuffer))
  /\ (s_instancing w = true -> is_Some (vb_declaration (s_instanceBuffer w))).

(** ** The start of the program

    The statics the module start does not assign hold their initial values:
    the module is not initialised, no vertex array is cached, instancing is
    off and no texture unit awaits an update. *)
Definition at_start {Matrix4f RenderStates : Type}
    (w : @World Matrix4f RenderStates) : Prop :=
  s_moduleReferenceCounter w = 0%N
  /\ s_vaos w = ∅
  /\ s_instancing w = false
  /\ s_dirtyTextureUnits w = [].

(** ** Texture units

    The vector of units has one unit for each index below
    [s_maxTextureUnit] and the queue of dirty units holds indices of the
    vector. *)
Definition units_ok {Matrix4f RenderStates : Type}
    (w : @World Matrix4f RenderStates) : Prop :=
  length (s_textureUnits w) = N.to_nat (s_maxTextureUnit w)
  /\ Forall (fun i => (i < length (s_textureUnits w))%nat) (s_dirtyTextureUnits w).

(** The commands that hand a vertex array to [OpenGL::DeleteVertexArray],
    one for each pair of a context and a name. *)
Definition deletions {Matrix4f RenderStates : Type} (ds : list (Context * GLuint))
  : list (@Command Matrix4f RenderStates) :=
  map (fun d => OpenGL_DeleteVertexArray d.1 d.2) ds.

(** ** A model to run the operations on

    Modelled from the spec: the Math module is not among the sources, so the
    runs below use 4x4 matrices with rational entries, rows first.
    Concatenation is the matrix product, inversion divides the adjugate by
    the determinant and fails exactly when the determinant is zero. *)
Module Model.

Local Open Scope N_scope.

Definition Matrix4Q : Type := list (list Q).

Definition Q_sum (l : list Q) : Q := fold_right Qplus 0%Q l.

Definition column (M : Matrix4Q) (j : nat) : list Q :=
  map (fun row => nth j row 0%Q) M.

Definition product (A B : Matrix4Q) : Matrix4Q :=
  map (fun row =>
         map (fun j => Qred (Q_sum (zip_with Qmult row (column B j)))) (seq 0 4))
      A.

Definition minor (i j : nat) (M : Matrix4Q) : Matrix4Q :=
  map (delete j) (delete i M).

Definition sign (k : nat) : Q := if Nat.even k then 1%Q else (-1)%Q.

(** Expansion along the first row of an [n]x[n] matrix. *)
Fixpoint determinant (n : nat) (M : Matrix4Q) : Q :=
  match n with
  | O => 1%Q
  | S n =>
      Q_sum (map (fun j =>
                    (sign j * nth j (hd [] M) 0%Q * determinant n (minor 0 j M))%Q)
                 (seq 0 (S n)))
  end.

Definition inverse (M : Matrix4Q) : option Matrix4Q :=
  let d := Qred (determinant 4 M) in
  if Qeq_bool d 0%Q then None
  else Some (map (fun i =>
                    map (fun j =>
                           Qred (sign (i + j) * determinant 3 (minor j i M) / d)%Q)
                        (seq 0 4))
                 (seq 0 4)).

Definition diagonal (a b c d : Q) : Matrix4Q :=
  [ [a; 0; 0; 0]; [0; b; 0; 0]; [0; 0; c; 0]; [0; 0; 0; d] ]%Q.

Definition identity : Matrix4Q := diagonal 1%Q 1%Q 1%Q 1%Q.

#[global] Instance Matrix4Q_ops : Matrix4Ops Matrix4Q :=
  {| MakeIdentity := identity;
     Concatenate := product;
     ConcatenateAffine := product;
     GetInverse := inverse |}.

(** A driver that hands out the successor of the largest name in use. *)
#[global] Instance next_name : Driver :=
  {| glGenVertexArrays_name := fun names => N.succ (foldr N.max 0%N names) |}.

(** A build with both families of checks compiled in.  The component
    indices and primitive modes follow their order of declaration in
    [Utility/Enums.hpp]. *)
Definition cfg : Config :=
  {| NAZARA_DEBUG := true;
     NAZARA_RENDERER_SAFE := true;
     NAZARA_RENDERER_INSTANCE_BUFFER_SIZE := 8192;
     PrimitiveMode_TriangleStrip := 4;
     PrimitiveMode_Max := 5;
     VertexComponent_FirstVertexData := 6;
     VertexComponent_LastVertexData := 15;
     VertexComponent_FirstInstanceData := 0;
     VertexComponent_LastInstanceData := 5 |}.

Definition W : Type := @World Matrix4Q unit.

(** The globals before the first call: zero-initialised storage. *)
Definition instanceBuffer_static : VertexBuffer :=
  {| vb_ptr := 1%positive; vb_hardware := false; vb_glid := 0;
     vb_startOffset := 0; vb_vertexCount := 0; vb_declaration := None |}.

Definition world_static : W :=
  {| s_vaos := ∅;
     s_dirtyTextureUnits := [];
     s_textureUnits := [];
     s_currentVAO := 0;
     s_instanceBuffer := instanceBuffer_static;
     s_matrices := fun _ => Build_MatrixUnit (diagonal 0%Q 0%Q 0%Q 0%Q) false 0%Z;
     s_states := tt;
     s_targetSize := (0%N, 0%N);
     s_updateFlags := 0%Z;
     s_indexBuffer := None;
     s_target := None;
     s_shader := None;
     s_vertexBuffer := None;
     s_capabilities := fun _ => false;
     s_instancing := false;
     s_useSamplerObjects := false;
     s_useVertexArrayObjects := false;
     s_maxTextureUnit := 0;
     s_moduleReferenceCounter := 0;
     current_context := Some 100%positive;
     gl_vertexArrays := ∅;
     gl_hasVertexAttribLPointer := false;
     gl_hasVertexAttribIPointer := true;
     trace := [];
     log := [] |}.

(** A driver with every extension of interest and four texture units. *)
Definition env : InitEnv (RenderStates := unit) :=
  {| Utility_Initialize := true;
     OpenGL_Initialize := true;
     OpenGL_IsSupported := fun _ => true;
     has_glBindFragDataLocation := true;
     GL_MAX_COMBINED_TEXTURE_IMAGE_UNITS := 4;
     RenderStates_default := tt;
     fullscreenQuadBuffer_Fill := true;
     instanceBuffer_Reset :=
       inl {| vb_ptr := 1%positive; vb_hardware := true; vb_glid := 7;
               vb_startOffset := 0; vb_vertexCount := 0; vb_declaration := None |};
     RenderBuffer_Initialize := true;
     Shader_Initialize := true;
     Texture_Initialize := true;
     TextureSampler_Initialize := true;
     UberShader_Initialize := true;
     debugShader_Create := true;
     debugShader_AttachFragment := true;
     debugShader_AttachVertex := true;
     debugShader_Link := true |}.

(** The state after a successful [Initialize]. *)
Definition world_initialized : W := (Initialize env world_static).2.

(** A window, a program that declares the projection, the view-projection
    and the inverse view matrices, and two declarations: positions and
    colours, and one with a quaternion, which no backend accepts. *)
Definition T : RenderTarget :=
  {| rt_ptr := 10%positive; rt_renderable := true; rt_hasContext := true;
     rt_activate := true; rt_width := 800; rt_height := 600 |}.

Definition S : Shader :=
  {| sh_ptr := 20%positive; sh_valid := true; sh_linked := true;
     sh_uniformLocation := fun u =>
       match u with
       | ShaderUniform_ProjMatrix => 0%Z
       | ShaderUniform_ViewProjMatrix => 1%Z
       | ShaderUniform_InvViewMatrix => 2%Z
       | _ => (-1)%Z
       end |}.

Definition S' : Shader :=
  {| sh_ptr := 21%positive; sh_valid := true; sh_linked := true;
     sh_uniformLocation := fun u =>
       match u with
       | ShaderUniform_WorldViewProjMatrix => 5%Z
       | _ => (-1)%Z
       end |}.

Definition declaration_XYZ_Color : VertexDeclaration :=
  {| vd_ptr := 30%positive; vd_stride := 16;
     vd_component := fun j =>
       match j with
       | 6%nat => (true, ComponentType_Color, 12%N)
       | 8%nat => (true, ComponentType_Float3, 0%N)
       | _ => (false, ComponentType_Float1, 0%N)
       end |}.

Definition declaration_Quaternion : VertexDeclaration :=
  {| vd_ptr := 31%positive; vd_stride := 28;
     vd_component := fun j =>
       match j with
       | 8%nat => (true, ComponentType_Float3, 0%N)
       | 11%nat => (true, ComponentType_Quaternion, 12%N)
       | _ => (false, ComponentType_Float1, 0%N)
       end |}.

Definition V : VertexBuffer :=
  {| vb_ptr := 40%positive; vb_hardware := true; vb_glid := 3;
     vb_startOffset := 0; vb_vertexCount := 4;
     vb_declaration := Some declaration_XYZ_Color |}.

Definition V_quaternion : VertexBuffer :=
  {| vb_ptr := 41%positive; vb_hardware := true; vb_glid := 4;
     vb_startOffset := 0; vb_vertexCount := 4;
     vb_declaration := Some declaration_Quaternion |}.

(** A second buffer for each declaration. *)
Definition V_second : VertexBuffer :=
  {| vb_ptr := 42%positive; vb_hardware := true; vb_glid := 5;
     vb_startOffset := 0; vb_vertexCount := 4;
     vb_declaration := Some declaration_XYZ_Color |}.

Definition V_quaternion_second : VertexBuffer :=
  {| vb_ptr := 43%positive; vb_hardware := true; vb_glid := 6;
     vb_startOffset := 0; vb_vertexCount := 4;
     vb_declaration := Some declaration_Quaternion |}.

Definition I : IndexBuffer :=
  {| ib_ptr := 50%positive; ib_hardware := true; ib_glid := 9;
     ib_startOffset := 0; ib_largeIndices := false |}.

(** The state before a draw: target, program and vertex buffer bound. *)
Definition world_bound (shader : option Shader) (vertexBuffer : VertexBuffer) : W :=
  SetVertexBuffer cfg (Some vertexBuffer)
    (SetShader cfg shader (SetTarget cfg (Some T) world_initialized).2).

(** The state a successful draw leaves, and the calls of a run that sets
    the view between two projections. *)
Definition world_drawn : W :=
  default world_static (DrawPrimitives cfg 4 0 4 (world_bound (Some S) V)).

Definition calls_View_Projection : list (MatrixType * Matrix4Q) :=
  [ (MatrixType_Projection, diagonal 2 2 2 1);
    (MatrixType_View, diagonal 1 3 1 1);
    (MatrixType_Projection, diagonal 5 1 1 1) ]%Q.

(** A view that cannot be inverted. *)
Definition world_singular : W :=
  SetMatrix MatrixType_View (diagonal 1 0 1 1)%Q world_initialized.

(** *** Further inputs

    Drivers that fail to link the debug program, that cannot create the
    instance buffer and that lack vertex array objects. *)
Definition env_with (link : bool) (reset : VertexBuffer + string)
    (supported : OpenGLExtension -> bool) : InitEnv (RenderStates := unit) :=
  {| Utility_Initialize := Utility_Initialize env;
     OpenGL_Initialize := OpenGL_Initialize env;
     OpenGL_IsSupported := supported;
     has_glBindFragDataLocation := has_glBindFragDataLocation env;
     GL_MAX_COMBINED_TEXTURE_IMAGE_UNITS := GL_MAX_COMBINED_TEXTURE_IMAGE_UNITS env;
     RenderStates_default := tt;
     fullscreenQuadBuffer_Fill := fullscreenQuadBuffer_Fill env;
     instanceBuffer_Reset := reset;
     RenderBuffer_Initialize := RenderBuffer_Initialize env;
     Shader_Initialize := Shader_Initialize env;
     Texture_Initialize := Texture_Initialize env;
     TextureSampler_Initialize := TextureSampler_Initialize env;
     UberShader_Initialize := UberShader_Initialize env;
     debugShader_Create := debugShader_Create env;
     debugShader_AttachFragment := debugShader_AttachFragment env;
     debugShader_AttachVertex := debugShader_AttachVertex env;
     debugShader_Link := link |}.

Definition env_no_link : InitEnv (RenderStates := unit) :=
  env_with false (instanceBuffer_Reset env) (OpenGL_IsSupported env).

Definition env_no_instances : InitEnv (RenderStates := unit) :=
  env_with true (inr "Failed to create buffer") (OpenGL_IsSupported env).

Definition env_no_vertex_arrays : InitEnv (RenderStates := unit) :=
  env_with true (instanceBuffer_Reset env)
    (fun e => match e with OpenGLExtension_VertexArrayObjects => false | _ => true end).

Definition world_no_instances : W := (Initialize env_no_instances world_static).2.

(** The quaternion declaration bound on a driver without vertex array
    objects. *)
Definition world_plain : W :=
  SetVertexBuffer cfg (Some V_quaternion)
    (SetShader cfg (Some S)
       (SetTarget cfg (Some T) (Initialize env_no_vertex_arrays world_static).2).2).

(** The state a failed draw with the quaternion declaration leaves, with
    the vertex layout marked dirty again. *)
Definition world_failed : W :=
  (GetInstanceBuffer cfg
     (default world_static
        (DrawPrimitives cfg 4 0 4 (world_bound (Some S) V_quaternion)))).2.

(** A program and a target, but no vertex buffer; a program only. *)
Definition world_no_buffer : W :=
  SetShader cfg (Some S) (SetTarget cfg (Some T) world_initialized).2.

Definition world_no_target : W := SetShader cfg (Some S) world_initialized.

(** Resources that the safety checks refuse. *)
Definition S_unlinked : Shader :=
  {| sh_ptr := 22%positive; sh_valid := true; sh_linked := false;
     sh_uniformLocation := fun _ => (-1)%Z |}.

Definition V_software : VertexBuffer :=
  {| vb_ptr := 42%positive; vb_hardware := false; vb_glid := 0;
     vb_startOffset := 0; vb_vertexCount := 4;
     vb_declaration := Some declaration_XYZ_Color |}.

Definition I_software : IndexBuffer :=
  {| ib_ptr := 51%positive; ib_hardware := false; ib_glid := 0;
     ib_startOffset := 0; ib_largeIndices := false |}.

(** Samplers whose lowest bit tells whether mipmaps are used. *)
#[global] Instance mipmap_bit : Samplers :=
  {| Texture_HasMipmaps := fun t => N.odd (tex_type t);
     TextureSampler_UseMipmaps := fun s mipmaps =>
       (N.double (N.div2 s) + (if mipmaps then 1 else 0),
        negb (eqb (N.odd s) mipmaps)) |}.

Definition texture_A : Texture :=
  {| tex_ptr := 60%positive; tex_glid := 11; tex_type := 1 |}.

Definition world_textured : W :=
  default world_static (SetTexture cfg 2 (Some texture_A) world_initialized).

(** A world matrix set after the start, and a view that can be inverted. *)
Definition world_moved : W :=
  SetMatrix MatrixType_World (diagonal 2 2 2 1)%Q world_initialized.

(** The components of the vertex data before and after the quaternion of
    [declaration_Quaternion]. *)
Definition components_before : list nat := [6; 7; 8; 9; 10]%nat.
Definition components_after : list nat := [12; 13; 14; 15]%nat.

Definition world_viewed : W :=
  SetMatrix MatrixType_View (diagonal 1 4 1 1)%Q world_initialized.

End Model.

(** * Verification *)

(** ** Update flags *)

Lemma has_flag_testbit (flags : Z) (k : Z) :
  0 <= k -> has_flag flags (2 ^ k) = Z.testbit flags k.
Proof.
  intros Hk. unfold has_flag.
  destruct (Z.testbit flags k) eqn:Hb.
  - apply negb_true_iff, Z.eqb_neq. intros H0.
    assert (Hbit : Z.testbit (Z.land flags (2 ^ k)) k = true)
      by (rewrite Z.land_spec, Hb, Z.pow2_bits_true; auto).
    rewrite H0, Z.bits_0 in Hbit. discriminate.
  - apply negb_false_iff, Z.eqb_eq. apply Z.bits_inj'. intros n Hn.
    rewrite Z.land_spec, Z.bits_0, Z.pow2_bits_eqb by assumption.
    destruct (Z.eqb_spec k n) as [->|]; [rewrite Hb|]; auto using andb_false_r.
Qed.

Lemma testbit_add_flag (flags k n : Z) :
  0 <= k -> Z.testbit (add_flag flags (2 ^ k)) n = Z.testbit flags n || (k =? n).
Proof. intros Hk. unfold add_flag. now rewrite Z.lor_spec, Z.pow2_bits_eqb. Qed.

Lemma testbit_clear_flag (flags k n : Z) :
  0 <= k -> 0 <= n ->
  Z.testbit (clear_flag flags (2 ^ k)) n = Z.testbit flags n && negb (k =? n).
Proof.
  intros Hk Hn. unfold clear_flag.
  now rewrite Z.land_spec, Z.lnot_spec, Z.pow2_bits_eqb.
Qed.

Lemma Update_flags_VAO :
  Update_VAO ∈ [Update_Matrices; Update_Shader; Update_Textures; Update_VAO].
Proof. do 3 apply list_elem_of_further. apply list_elem_of_here. Qed.

Lemma Update_flags_Textures :
  Update_Textures ∈ [Update_Matrices; Update_Shader; Update_Textures; Update_VAO].
Proof. do 2 apply list_elem_of_further. apply list_elem_of_here. Qed.

Lemma Update_flags_Shader :
  Update_Shader ∈ [Update_Matrices; Update_Shader; Update_Textures; Update_VAO].
Proof. apply list_elem_of_further. apply list_elem_of_here. Qed.

Lemma Update_flags_Matrices :
  Update_Matrices ∈ [Update_Matrices; Update_Shader; Update_Textures; Update_VAO].
Proof. apply list_elem_of_here. Qed.

Lemma has_flag_add (flags bit : Z) :
  bit ∈ [Update_Matrices; Update_Shader; Update_Textures; Update_VAO] ->
  has_flag (add_flag flags bit) bit = true.
Proof.
  intros Hbit. repeat (apply elem_of_cons in Hbit as [->|Hbit]);
    [| | | | by apply elem_of_nil in Hbit].
  - change Update_Matrices with (2 ^ 0).
    rewrite has_flag_testbit, testbit_add_flag by lia. apply orb_true_r.
  - change Update_Shader with (2 ^ 1).
    rewrite has_flag_testbit, testbit_add_flag by lia. apply orb_true_r.
  - change Update_Textures with (2 ^ 2).
    rewrite has_flag_testbit, testbit_add_flag by lia. apply orb_true_r.
  - change Update_VAO with (2 ^ 3).
    rewrite has_flag_testbit, testbit_add_flag by lia. apply orb_true_r.
Qed.

Lemma add_flag_nonzero (flags bit : Z) :
  bit ∈ [Update_Matrices; Update_Shader; Update_Textures; Update_VAO] ->
  add_flag flags bit <> Update_None.
Proof.
  intros Hbit Hz. pose proof (has_flag_add flags bit Hbit) as H.
  rewrite Hz in H. unfold has_flag, Update_None in H.
  rewrite Z.land_0_l in H. discriminate.
Qed.

Lemma has_flag_clear (flags bit : Z) :
  bit ∈ [Update_Matrices; Update_Shader; Update_Textures; Update_VAO] ->
  has_flag (clear_flag flags bit) bit = false.
Proof.
  intros Hbit. repeat (apply elem_of_cons in Hbit as [->|Hbit]);
    [| | | | by apply elem_of_nil in Hbit].
  - change Update_Matrices with (2 ^ 0).
    rewrite has_flag_testbit, testbit_clear_flag by lia. apply andb_false_r.
  - change Update_Shader with (2 ^ 1).
    rewrite has_flag_testbit, testbit_clear_flag by lia. apply andb_false_r.
  - change Update_Textures with (2 ^ 2).
    rewrite has_flag_testbit, testbit_clear_flag by lia. apply andb_false_r.
  - change Update_VAO with (2 ^ 3).
    rewrite has_flag_testbit, testbit_clear_flag by lia. apply andb_false_r.
Qed.

Section SlotReads.

Context {Matrix4f : Type} {MOps : Matrix4Ops Matrix4f}.
Context {RenderStates : Type}.

Implicit Types (w : @World Matrix4f RenderStates).
Implicit Types (type base src inv : MatrixType) (m : Matrix4f).

(** *** Reading a slot after a write *)

Lemma matrix_set_matrix type m w type' :
  matrix (s_matrices (set_matrix type m w) type')
  = if decide (type = type') then m else matrix (s_matrices w type').
Proof.
  unfold set_matrix; simpl. case_decide as E.
  - subst. by rewrite fn_lookup_insert.
  - by rewrite fn_lookup_insert_ne.
Qed.

Lemma updated_set_matrix type m w type' :
  updated (s_matrices (set_matrix type m w) type') = updated (s_matrices w type').
Proof.
  unfold set_matrix; simpl. destruct (decide (type = type')) as [->|E].
  - by rewrite fn_lookup_insert.
  - by rewrite fn_lookup_insert_ne.
Qed.

Lemma matrix_set_updated type b w type' :
  matrix (s_matrices (set_updated type b w) type') = matrix (s_matrices w type').
Proof.
  unfold set_updated; simpl. destruct (decide (type = type')) as [->|E].
  - by rewrite fn_lookup_insert.
  - by rewrite fn_lookup_insert_ne.
Qed.

Lemma updated_set_updated type b w type' :
  updated (s_matrices (set_updated type b w) type')
  = if decide (type = type') then b else updated (s_matrices w type').
Proof.
  unfold set_updated; simpl. case_decide as E.
  - subst. by rewrite fn_lookup_insert.
  - by rewrite fn_lookup_insert_ne.
Qed.

Lemma location_set_matrix type m w type' :
  location (s_matrices (set_matrix type m w) type') = location (s_matrices w type').
Proof.
  unfold set_matrix; simpl. destruct (decide (type = type')) as [->|E].
  - by rewrite fn_lookup_insert.
  - by rewrite fn_lookup_insert_ne.
Qed.

Lemma location_set_updated type b w type' :
  location (s_matrices (set_updated type b w) type') = location (s_matrices w type').
Proof.
  unfold set_updated; simpl. destruct (decide (type = type')) as [->|E].
  - by rewrite fn_lookup_insert.
  - by rewrite fn_lookup_insert_ne.
Qed.

Lemma s_matrices_report e w : s_matrices (report e w) = s_matrices w.
Proof. reflexivity. Qed.

Lemma s_matrices_set_s_updateFlags f w :
  s_matrices (set_s_updateFlags f w) = s_matrices w.
Proof. reflexivity. Qed.

Lemma log_set_matrix type m w : log (set_matrix type m w) = log w.
Proof. reflexivity. Qed.

Lemma log_set_updated type b w : log (set_updated type b w) = log w.
Proof. reflexivity. Qed.

Lemma trace_set_matrix type m w : trace (set_matrix type m w) = trace w.
Proof. reflexivity. Qed.

Lemma trace_set_updated type b w : trace (set_updated type b w) = trace w.
Proof. reflexivity. Qed.

Lemma matrix_set_location type l w type' :
  matrix (s_matrices (set_location type l w) type') = matrix (s_matrices w type').
Proof.
  unfold set_location; simpl. destruct (decide (type = type')) as [->|E].
  - by rewrite fn_lookup_insert.
  - by rewrite fn_lookup_insert_ne.
Qed.

Lemma updated_set_location type l w type' :
  updated (s_matrices (set_location type l w) type') = updated (s_matrices w type').
Proof.
  unfold set_location; simpl. destruct (decide (type = type')) as [->|E].
  - by rewrite fn_lookup_insert.
  - by rewrite fn_lookup_insert_ne.
Qed.

Lemma location_set_location type l w type' :
  location (s_matrices (set_location type l w) type')
  = if decide (type = type') then l else location (s_matrices w type').
Proof.
  unfold set_location; simpl. case_decide as E.
  - subst. by rewrite fn_lookup_insert.
  - by rewrite fn_lookup_insert_ne.
Qed.

Lemma s_matrices_emit c w : s_matrices (emit c w) = s_matrices w.
Proof. reflexivity. Qed.

End SlotReads.

Create Rewrite HintDb slots.

#[global] Hint Rewrite @matrix_set_matrix @updated_set_matrix @matrix_set_updated
  @updated_set_updated @location_set_matrix @location_set_updated
  @matrix_set_location @updated_set_location @location_set_location
  @s_matrices_report @s_matrices_emit @s_matrices_set_s_updateFlags
  @log_set_matrix @log_set_updated @trace_set_matrix @trace_set_updated : slots.

(** Rewrites the reads, then settles the comparisons of slot names. *)
Ltac slots :=
  autorewrite with slots;
  repeat (case_decide; try discriminate; try congruence);
  try reflexivity.

Section MatrixCache.

Context {Matrix4f : Type} {MOps : Matrix4Ops Matrix4f}.
Context {RenderStates : Type}.

Implicit Types (w : @World Matrix4f RenderStates).
Implicit Types (type base src inv : MatrixType) (m : Matrix4f).

(** *** [SetMatrix] *)

Lemma SetMatrix_matrix type m w type' :
  matrix (s_matrices (SetMatrix type m w) type')
  = if decide (type = type') then m else matrix (s_matrices w type').
Proof. unfold SetMatrix. destruct type; slots. Qed.

Lemma SetMatrix_trace type m w : trace (SetMatrix type m w) = trace w.
Proof. unfold SetMatrix. destruct type; reflexivity. Qed.

Lemma SetMatrix_log type m w : log (SetMatrix type m w) = log w.
Proof. unfold SetMatrix. destruct type; reflexivity. Qed.

(** For the projection and the world matrix the cascade is complete: the
    slot holds the value and is up to date, every slot derived from it is
    stale, and nothing is recomputed or sent. *)
Lemma SetMatrix_Projection_World base m w :
  base = MatrixType_Projection \/ base = MatrixType_World ->
  let w' := SetMatrix base m w in
  matrix (s_matrices w' base) = m
  /\ updated (s_matrices w' base) = true
  /\ (forall type, derived_from base type = true ->
        updated (s_matrices w' type) = false
        /\ matrix (s_matrices w' type) = matrix (s_matrices w type))
  /\ trace w' = trace w.
Proof.
  intros [-> | ->]; cbv zeta; (split; [|split; [|split]]);
    try (unfold SetMatrix; slots; fail); try reflexivity;
    intros [] Hd; try discriminate Hd; (split; [unfold SetMatrix|]; slots);
    rewrite SetMatrix_matrix; slots.
Qed.

(** C1, at the input where the code departs from it.  [SetMatrix] on the
    view slot stores the matrix and marks the slot, yet the cascade leaves
    two slots derived from the view matrix, WorldView and InvWorldView, as
    they were, and marks the world matrix and its inverse stale in their
    place. *)
Theorem SetMatrix_View_skips_WorldView m w :
  let w' := SetMatrix MatrixType_View m w in
  derived_from MatrixType_View MatrixType_WorldView = true
  /\ derived_from MatrixType_View MatrixType_InvWorldView = true
  /\ updated (s_matrices w' MatrixType_WorldView)
     = updated (s_matrices w MatrixType_WorldView)
  /\ updated (s_matrices w' MatrixType_InvWorldView)
     = updated (s_matrices w MatrixType_InvWorldView)
  /\ derived_from MatrixType_View MatrixType_World = false
  /\ updated (s_matrices w' MatrixType_World) = false.
Proof. cbv zeta. unfold SetMatrix. repeat split; slots. Qed.

(** *** [UpdateMatrix] *)

(** Three levels of calls are all that [UpdateMatrix] ever uses. *)
Lemma UpdateMatrix_fuel_enough n type w :
  (3 <= n)%nat -> UpdateMatrix_fuel n type w = UpdateMatrix type w.
Proof.
  intros Hn. destruct n as [|[|[|n]]]; try lia.
  unfold UpdateMatrix. destruct type; reflexivity.
Qed.

(** Two are enough for a slot that is not an inverse. *)
Lemma UpdateMatrix_fuel_source src w :
  inverse_source src = None -> UpdateMatrix_fuel 2 src w = UpdateMatrix src w.
Proof. destruct src; intros H; try discriminate H; reflexivity. Qed.

(** The equation of the six inverse cases. *)
Lemma UpdateMatrix_inverse inv src w :
  inverse_source inv = Some src ->
  exists text,
    UpdateMatrix inv w
    = set_updated inv true (inverse_into src inv text (ensure_updated src w)).
Proof.
  intros H. destruct inv; try discriminate H; injection H as <-;
    eexists; unfold UpdateMatrix, ensure_updated; cbn [UpdateMatrix_fuel];
    rewrite ?UpdateMatrix_fuel_source by reflexivity; reflexivity.
Qed.

(** Recomputing a slot that is not an inverse reports nothing and leaves
    the inverse slots alone. *)
Lemma UpdateMatrix_source_frame src w :
  inverse_source src = None ->
  log (UpdateMatrix src w) = log w
  /\ forall inv, is_Some (inverse_source inv) ->
       matrix (s_matrices (UpdateMatrix src w) inv) = matrix (s_matrices w inv).
Proof.
  intros H. split.
  - destruct src; try discriminate H; unfold UpdateMatrix; cbn [UpdateMatrix_fuel];
      repeat case_match; reflexivity.
  - intros inv [s Hs].
    destruct src; try discriminate H; destruct inv; try discriminate Hs;
      unfold UpdateMatrix; cbn [UpdateMatrix_fuel]; repeat case_match; slots.
Qed.

Lemma ensure_updated_source_frame src w :
  inverse_source src = None ->
  log (ensure_updated src w) = log w
  /\ forall inv, is_Some (inverse_source inv) ->
       matrix (s_matrices (ensure_updated src w) inv) = matrix (s_matrices w inv).
Proof.
  intros H. unfold ensure_updated. case_match; [done|].
  by apply UpdateMatrix_source_frame.
Qed.

Lemma inverse_source_not_inverse inv src :
  inverse_source inv = Some src -> inverse_source src = None.
Proof. destruct inv; intros H; try discriminate H; by injection H as <-. Qed.

(** C3.  When the source of an inverse slot, once brought up to date, is
    singular, recomputing the inverse slot keeps the matrix the slot held,
    marks the slot up to date and reports one warning and nothing else;
    [GetMatrix] answers the matrix the slot held, before and after. *)
Theorem UpdateMatrix_singular_keeps_inverse inv src w :
  inverse_source inv = Some src ->
  GetInverse (matrix (s_matrices (ensure_updated src w) src)) = None ->
  let w' := UpdateMatrix inv w in
  matrix (s_matrices w' inv) = matrix (s_matrices w inv)
  /\ updated (s_matrices w' inv) = true
  /\ (exists text, log w' = (log w ++ [NazaraWarning (Msg text)])%list)
  /\ (GetMatrix inv w).1 = matrix (s_matrices w inv)
  /\ (GetMatrix inv w').1 = matrix (s_matrices w inv).
Proof.
  intros Hinv Hsing. cbv zeta.
  destruct (UpdateMatrix_inverse inv src w Hinv) as [text Heq].
  destruct (ensure_updated_source_frame src w
              (inverse_source_not_inverse _ _ Hinv)) as [Hlog Hframe].
  assert (Hm : matrix (s_matrices (UpdateMatrix inv w) inv) = matrix (s_matrices w inv)).
  { rewrite Heq. unfold inverse_into. rewrite Hsing. slots.
    apply Hframe. by exists src. }
  assert (Hu : updated (s_matrices (UpdateMatrix inv w) inv) = true).
  { rewrite Heq. slots. }
  split; [exact Hm|]. split; [exact Hu|]. split; [|split].
  - exists text. rewrite Heq. unfold inverse_into. rewrite Hsing.
    rewrite log_set_updated. simpl. by rewrite Hlog.
  - unfold GetMatrix, ensure_updated; simpl. case_match; [done | exact Hm].
  - unfold GetMatrix, ensure_updated; simpl. rewrite Hu. exact Hm.
Qed.

(** *** [GetMatrix] on the view-projection slot *)

(** The slot, when marked up to date, holds the product of the two bases. *)
Definition ViewProj_consistent w : Prop :=
  updated (s_matrices w MatrixType_ViewProj) = true ->
  matrix (s_matrices w MatrixType_ViewProj)
  = Concatenate (matrix (s_matrices w MatrixType_View))
                (matrix (s_matrices w MatrixType_Projection)).

Lemma GetMatrix_ViewProj w :
  ViewProj_consistent w ->
  (GetMatrix MatrixType_ViewProj w).1
  = Concatenate (matrix (s_matrices w MatrixType_View))
                (matrix (s_matrices w MatrixType_Projection)).
Proof.
  intros Hc. unfold GetMatrix, ensure_updated; simpl.
  destruct (updated (s_matrices w MatrixType_ViewProj)) eqn:Hu; [by apply Hc|].
  unfold UpdateMatrix; cbn [UpdateMatrix_fuel]. slots.
Qed.

Lemma SetMatrix_ViewProj_stale base m w :
  base = MatrixType_Projection \/ base = MatrixType_View ->
  updated (s_matrices (SetMatrix base m w) MatrixType_ViewProj) = false.
Proof. intros [-> | ->]; unfold SetMatrix; slots. Qed.

Lemma SetMatrices_latest calls : forall w type,
  matrix (s_matrices (SetMatrices calls w) type)
  = latest type calls (matrix (s_matrices w type)).
Proof.
  induction calls as [|[t m] calls IH]; intros w type; [reflexivity|].
  unfold SetMatrices, latest in *. cbn [fold_left fst snd].
  by rewrite IH, SetMatrix_matrix.
Qed.

Lemma SetMatrices_consistent calls : forall w,
  ViewProj_consistent w ->
  Forall (fun call => call.1 = MatrixType_Projection \/ call.1 = MatrixType_View) calls ->
  ViewProj_consistent (SetMatrices calls w).
Proof.
  induction calls as [|[t m] calls IH]; intros w Hc Hcalls; [exact Hc|].
  apply Forall_cons in Hcalls as [Ht Hcalls].
  unfold SetMatrices in *. cbn [fold_left fst snd]. apply IH; [|exact Hcalls].
  intros Hu. by rewrite SetMatrix_ViewProj_stale in Hu.
Qed.

(** C2.  After any run of [SetMatrix] calls on the projection and view
    slots, [GetMatrix] on the view-projection slot answers the product of
    the latest view matrix with the latest projection matrix. *)
Theorem GetMatrix_ViewProj_latest calls w :
  ViewProj_consistent w ->
  Forall (fun call => call.1 = MatrixType_Projection \/ call.1 = MatrixType_View) calls ->
  (GetMatrix MatrixType_ViewProj (SetMatrices calls w)).1
  = Concatenate
      (latest MatrixType_View calls (matrix (s_matrices w MatrixType_View)))
      (latest MatrixType_Projection calls (matrix (s_matrices w MatrixType_Projection))).
Proof.
  intros Hc Hcalls.
  rewrite GetMatrix_ViewProj by by apply SetMatrices_consistent.
  by rewrite !SetMatrices_latest.
Qed.

End MatrixCache.

Section Bindings.

Context {Matrix4f : Type} {MOps : Matrix4Ops Matrix4f}.
Context {RenderStates : Type}.
Context {Drv : Driver}.
Variable cfg : Config.

Implicit Types (w : @World Matrix4f RenderStates).

(** *** Null buffers *)

Lemma SetVertexBuffer_null w : SetVertexBuffer cfg None w = w.
Proof. unfold SetVertexBuffer. by rewrite andb_false_r. Qed.

Lemma SetIndexBuffer_null_unbound w :
  s_indexBuffer w = None -> SetIndexBuffer cfg None w = w.
Proof.
  intros H. unfold SetIndexBuffer, same_ptr. rewrite andb_false_r, H. reflexivity.
Qed.

Lemma SetIndexBuffer_null_bound w :
  s_indexBuffer w <> None ->
  SetIndexBuffer cfg None w
  = set_s_updateFlags (add_flag (s_updateFlags w) Update_VAO) (set_s_indexBuffer None w).
Proof.
  intros H. unfold SetIndexBuffer, same_ptr. rewrite andb_false_r.
  destruct (s_indexBuffer w) as [b|]; [|done]. reflexivity.
Qed.

(** C10, amended.  [SetVertexBuffer] with a null pointer changes nothing:
    the tracked vertex buffer stays and no flag is set.  [SetIndexBuffer]
    with a null pointer leaves no index buffer tracked; it marks the vertex
    layout dirty when an index buffer was tracked before the call, and
    changes nothing when none was. *)
Theorem SetBuffer_null w :
  SetVertexBuffer cfg None w = w
  /\ s_indexBuffer (SetIndexBuffer cfg None w) = None
  /\ (s_indexBuffer w <> None ->
      has_flag (s_updateFlags (SetIndexBuffer cfg None w)) Update_VAO = true)
  /\ (s_indexBuffer w = None -> SetIndexBuffer cfg None w = w).
Proof.
  split; [apply SetVertexBuffer_null|]. split; [|split].
  - destruct (s_indexBuffer w) as [b|] eqn:E.
    + rewrite SetIndexBuffer_null_bound by congruence. reflexivity.
    + by rewrite SetIndexBuffer_null_unbound.
  - intros H. rewrite SetIndexBuffer_null_bound by done. simpl.
    apply has_flag_add, Update_flags_VAO.
  - apply SetIndexBuffer_null_unbound.
Qed.

(** *** Instance count over the capacity *)

(** C8.  With the safety checks compiled in, [DrawPrimitivesInstanced] with
    more instances than the instance buffer has vertices returns after
    reporting one error: the state it leaves is the state it found with
    that error added to the log, so no command reached the backend. *)
Theorem DrawPrimitivesInstanced_over_capacity instanceCount mode firstVertex vertexCount w :
  NAZARA_RENDERER_SAFE cfg = true ->
  (vb_vertexCount (s_instanceBuffer w) < instanceCount)%N ->
  exists m,
    DrawPrimitivesInstanced cfg instanceCount mode firstVertex vertexCount w
    = Some (report (NazaraError m) w)
    /\ trace (report (NazaraError m) w) = trace w
    /\ set_log (log w) (report (NazaraError m) w) = w.
Proof.
  intros Hsafe Hover. unfold DrawPrimitivesInstanced. rewrite Hsafe.
  apply N.ltb_lt in Hover. rewrite Hover. cbn [andb].
  repeat case_match; eexists; (split; [reflexivity|]); split; try reflexivity;
    by destruct w.
Qed.

End Bindings.

Section Cache.

Context {Matrix4f : Type} {MOps : Matrix4Ops Matrix4f}.
Context {RenderStates : Type}.
Context {Drv : Driver}.
Variable cfg : Config.

Implicit Types (w : @World Matrix4f RenderStates).
Implicit Types (context : Context) (key : VAO_Key) (m : gmap VAO_Key VAO_Entry).

(** *** Reading the map of a context *)

Lemma context_vaoMap_set context m w :
  is_Some (s_vaos w !! context) ->
  context_vaoMap context (set_context_vaoMap context m w) = m.
Proof.
  intros [entry H]. unfold context_vaoMap, set_context_vaoMap; simpl.
  by rewrite lookup_alter_eq, H.
Qed.

Lemma context_vaoMap_set_ne context context' m w :
  context <> context' ->
  context_vaoMap context' (set_context_vaoMap context m w) = context_vaoMap context' w.
Proof.
  intros H. unfold context_vaoMap, set_context_vaoMap; simpl.
  by rewrite lookup_alter_ne.
Qed.

(** *** Release notifications *)

Lemma context_vaoMap_release hit w context key :
  context_vaoMap context (release hit w) !! key
  = if hit key then None else context_vaoMap context w !! key.
Proof.
  unfold release, context_vaoMap; simpl. rewrite lookup_fmap.
  destruct (s_vaos w !! context) as [entry|]; simpl.
  - destruct (hit key) eqn:Hhit.
    + apply map_lookup_filter_None. right. intros e _ Hkeep. simpl in Hkeep. congruence.
    + destruct (vaoMap entry !! key) as [e|] eqn:He.
      * by apply map_lookup_filter_Some.
      * apply map_lookup_filter_None. by left.
  - rewrite lookup_empty. by destruct (hit key).
Qed.

Lemma on_release_release r w : on_release r w = release (keyed_on r) w.
Proof. by destruct r. Qed.

Lemma release_s_instancing hit w : s_instancing (release hit w) = s_instancing w.
Proof.
  unfold release; simpl. generalize (evicted hit w). intros l. revert w.
  induction l as [|d l IH]; intros w; [done|]. cbn [fold_left]. rewrite IH.
  unfold OpenGL_DeleteVertexArray_call. by case_match.
Qed.

Lemma release_s_instanceBuffer hit w :
  s_instanceBuffer (release hit w) = s_instanceBuffer w.
Proof.
  unfold release; simpl. generalize (evicted hit w). intros l. revert w.
  induction l as [|d l IH]; intros w; [done|]. cbn [fold_left]. rewrite IH.
  unfold OpenGL_DeleteVertexArray_call. by case_match.
Qed.

Lemma release_s_indexBuffer hit w : s_indexBuffer (release hit w) = s_indexBuffer w.
Proof.
  unfold release; simpl. generalize (evicted hit w). intros l. revert w.
  induction l as [|d l IH]; intros w; [done|]. cbn [fold_left]. rewrite IH.
  unfold OpenGL_DeleteVertexArray_call. by case_match.
Qed.

(** A search for a key that the map of the context does not hold makes a
    vertex array and enters it under the key. *)
Lemma find_or_create_vao_miss context vertexBuffer d w :
  context_vaoMap context w !! current_key vertexBuffer w = None ->
  vb_declaration vertexBuffer = Some d ->
  exists w',
    find_or_create_vao context vertexBuffer w = Some (w', true)
    /\ s_currentVAO w' = glGenVertexArrays_name (gl_vertexArrays w !!! context)
    /\ exists e, context_vaoMap context w' !! current_key vertexBuffer w = Some e
                 /\ vao e = s_currentVAO w'.
Proof.
  intros Hmiss Hd. unfold find_or_create_vao.
  set (w1 := match s_vaos w !! context with
             | Some _ => w
             | None => set_s_vaos
                         (<[context := {| vaoMap := ∅; onReleaseSlot := context |}]>
                            (s_vaos w)) w
             end).
  assert (Hkey : current_key vertexBuffer w1 = current_key vertexBuffer w)
    by (subst w1; by case_match).
  assert (Hnames : gl_vertexArrays w1 = gl_vertexArrays w)
    by (subst w1; by case_match).
  assert (Hsome : is_Some (s_vaos w1 !! context)).
  { subst w1. destruct (s_vaos w !! context) eqn:E; [by rewrite E|].
    simpl. rewrite lookup_insert_eq. by eexists. }
  assert (Hmiss1 : context_vaoMap context w1 !! current_key vertexBuffer w = None).
  { subst w1. unfold context_vaoMap in *.
    destruct (s_vaos w !! context) eqn:E; [by rewrite E|].
    simpl. by rewrite lookup_insert_eq. }
  rewrite Hkey, Hmiss1, Hd. eexists. split; [reflexivity|]. split.
  - simpl. by rewrite Hnames.
  - rewrite context_vaoMap_set by exact Hsome.
    eexists. split; [apply lookup_insert_eq|]. reflexivity.
Qed.


End Cache.

Section Reconciliation.

Context {Matrix4f : Type} {MOps : Matrix4Ops Matrix4f}.
Context {RenderStates : Type}.
Context {Drv : Driver}.
Variable cfg : Config.

Implicit Types (w : @World Matrix4f RenderStates).
Implicit Types (c : @Command Matrix4f RenderStates).

Lemma filter_none {A} (P : A -> Prop) `{forall x, Decision (P x)} (l : list A) :
  Forall (fun x => ~ P x) l -> filter P l = [].
Proof. induction 1 as [|x l Hx _ IH]; [done|]. by rewrite filter_cons_False. Qed.

Lemma existsb_pointwise {A} (f g : A -> bool) (l : list A) :
  (forall x, f x = g x) -> existsb f l = existsb g l.
Proof. intros Hfg. induction l as [|x l IH]; [done|]. simpl. by rewrite Hfg, IH. Qed.

(** *** Steps that only write to the trace and the log

    [quiet w w']: [w'] is [w] with commands and log entries appended, none
    of the commands a draw or a matrix upload. *)
Definition quiet w w' : Prop :=
  exists t l,
    w' = set_trace (trace w ++ t)%list (set_log (log w ++ l)%list w)
    /\ Forall (fun c => is_draw c = false /\ is_send_matrix c = false) t.

Lemma quiet_refl w : quiet w w.
Proof.
  exists [], []. split; [|constructor]. rewrite !app_nil_r. by destruct w.
Qed.

Lemma quiet_trans w1 w2 w3 : quiet w1 w2 -> quiet w2 w3 -> quiet w1 w3.
Proof.
  intros (t1 & l1 & -> & H1) (t2 & l2 & -> & H2).
  exists (t1 ++ t2)%list, (l1 ++ l2)%list. split.
  - simpl. by rewrite !app_assoc.
  - by apply Forall_app.
Qed.

Lemma quiet_emit c w :
  is_draw c = false -> is_send_matrix c = false -> quiet w (emit c w).
Proof.
  intros Hd Hs. exists [c], []. split; [|by repeat constructor].
  rewrite app_nil_r. by destruct w.
Qed.

Lemma quiet_report e w : quiet w (report e w).
Proof.
  exists [], [e]. split; [|constructor]. rewrite app_nil_r. by destruct w.
Qed.

Lemma quiet_field {A} (f : @World Matrix4f RenderStates -> A) w w' :
  (forall t l w, f (set_trace t (set_log l w)) = f w) ->
  quiet w w' -> f w' = f w.
Proof. intros Hf (t & l & -> & _). apply Hf. Qed.

Lemma quiet_draws w w' : quiet w w' -> draws w' = draws w.
Proof.
  intros (t & l & -> & Ht). unfold draws; simpl. rewrite filter_app.
  rewrite (filter_none _ t); [by rewrite app_nil_r|].
  eapply Forall_impl; [exact Ht|]. intros c [Hc _]. by rewrite Hc.
Qed.

Lemma quiet_sends w w' : quiet w w' -> sends w' = sends w.
Proof.
  intros (t & l & -> & Ht). unfold sends; simpl. rewrite filter_app.
  rewrite (filter_none _ t); [by rewrite app_nil_r|].
  eapply Forall_impl; [exact Ht|]. intros c [_ Hc]. by rewrite Hc.
Qed.

Lemma quiet_log w w' e : quiet w w' -> e ∈ log w -> e ∈ log w'.
Proof. intros (t & l & -> & _) He. simpl. apply elem_of_app. by left. Qed.

Lemma quiet_supported type w w' :
  quiet w w' -> IsComponentTypeSupported type w' = IsComponentTypeSupported type w.
Proof. intros (t & l & -> & _). by destruct type. Qed.

Lemma quiet_current_key vertexBuffer w w' :
  quiet w w' -> current_key vertexBuffer w' = current_key vertexBuffer w.
Proof. intros (t & l & -> & _). reflexivity. Qed.

(** Closes a goal [quiet w (op w)] for a straight-line [op]. *)
Ltac quiet :=
  repeat first
    [ apply quiet_refl
    | apply quiet_report
    | apply quiet_emit; reflexivity
    | eapply quiet_trans; [|apply quiet_report]
    | eapply quiet_trans; [|apply quiet_emit; reflexivity] ].

(** *** Declaring the attributes *)

Lemma declare_component_spec i d bufferOffset stride j w :
  let r := declare_component i d bufferOffset stride j w in
  quiet w r.1
  /\ r.2 = (vd_component d j).1.1
           && negb (IsComponentTypeSupported (vd_component d j).1.2 w)
  /\ (r.2 = true ->
      NazaraError (MsgInvalidDeclaration (vd_ptr d) j (vd_component d j).1.2) ∈ log r.1).
Proof.
  cbv zeta. unfold declare_component.
  destruct (vd_component d j) as [[enabled type] offset]; simpl.
  destruct enabled; simpl.
  - destruct (IsComponentTypeSupported type w) eqn:Hs; simpl.
    + split; [|by split].
      destruct type, (i =? 1)%nat; quiet.
    + split; [quiet|]. split; [done|]. intros _. apply elem_of_app. right. by left.
  - split; [quiet|]. by split.
Qed.

Lemma declare_components_spec i d bufferOffset stride js : forall w,
  let r := declare_components i d bufferOffset stride js w in
  quiet w r.1
  /\ r.2 = has_unsupported d js w
  /\ (r.2 = true ->
      exists j type, NazaraError (MsgInvalidDeclaration (vd_ptr d) j type) ∈ log r.1).
Proof.
  induction js as [|j js IH]; intros w; cbv zeta.
  - split; [apply quiet_refl|]. by split.
  - cbn [declare_components has_unsupported existsb].
    destruct (declare_component_spec i d bufferOffset stride j w) as (Hq & Hb & He).
    destruct (declare_component i d bufferOffset stride j w) as [w1 stop]; simpl in *.
    destruct stop; simpl.
    + split; [exact Hq|]. split; [by rewrite <- Hb|]. intros _. eauto.
    + destruct (IH w1) as (Hq' & Hb' & He'). split; [by eapply quiet_trans|]. split.
      * rewrite <- Hb. simpl. rewrite Hb'. unfold has_unsupported.
        apply existsb_pointwise.
        intros j'. by rewrite (quiet_supported _ _ _ Hq).
      * exact He'.
Qed.

Lemma declare_buffer_spec i vertexBuffer d w :
  vb_declaration vertexBuffer = Some d ->
  let js := if (i =? 0)%nat
            then range (VertexComponent_FirstVertexData cfg)
                       (VertexComponent_LastVertexData cfg)
            else range (VertexComponent_FirstInstanceData cfg)
                       (VertexComponent_LastInstanceData cfg) in
  exists w',
    declare_buffer cfg i vertexBuffer w = Some (w', has_unsupported d js w)
    /\ quiet w w'
    /\ (has_unsupported d js w = true ->
        exists j type, NazaraError (MsgInvalidDeclaration (vd_ptr d) j type) ∈ log w').
Proof.
  intros Hd. cbv zeta. unfold declare_buffer. rewrite Hd.
  set (w0 := emit _ w).
  assert (Hq0 : quiet w w0) by (subst w0; quiet).
  assert (Hsame : forall js, has_unsupported d js w0 = has_unsupported d js w).
  { intros js. apply existsb_pointwise. intros j.
    by rewrite (quiet_supported _ _ _ Hq0). }
  destruct (i =? 0)%nat;
    match goal with
    | |- context [declare_components i d ?o ?s ?js w0] =>
        destruct (declare_components_spec i d o s js w0) as (Hq & Hb & He);
        destruct (declare_components i d o s js w0) as [w' failed] eqn:E
    end;
    simpl in *; exists w'; rewrite Hsame in Hb; subst failed;
    (split; [reflexivity|]); (split; [by eapply quiet_trans|]); exact He.
Qed.

Lemma quiet_disable_all js : forall w,
  quiet w (fold_left (fun w i => emit (glDisableVertexAttribArray i) w) js w).
Proof.
  induction js as [|j js IH]; intros w; [apply quiet_refl|].
  cbn [fold_left]. eapply quiet_trans; [|apply IH]. quiet.
Qed.

(** The instancing declaration walked when the vertex array is programmed. *)
Definition instancing_declaration w : option VertexDeclaration :=
  if s_instancing w then vb_declaration (s_instanceBuffer w) else None.

Lemma program_vao_spec vertexBuffer d w :
  vb_declaration vertexBuffer = Some d ->
  (s_instancing w = true -> is_Some (vb_declaration (s_instanceBuffer w))) ->
  exists w',
    program_vao cfg vertexBuffer w
    = Some (w', build_fails cfg d (instancing_declaration w) w)
    /\ quiet w w'
    /\ (build_fails cfg d (instancing_declaration w) w = true ->
        exists p j type, NazaraError (MsgInvalidDeclaration p j type) ∈ log w').
Proof.
  intros Hd Hinst. unfold program_vao, build_fails, instancing_declaration.
  destruct (declare_buffer_spec 0 vertexBuffer d w Hd) as (w1 & -> & Hq1 & He1).
  cbn [Nat.eqb] in *.
  pose proof (quiet_field s_instancing _ _ (fun _ _ _ => eq_refl) Hq1) as Hi1.
  pose proof (quiet_field s_instanceBuffer _ _ (fun _ _ _ => eq_refl) Hq1) as Hb1.
  rewrite Hi1, Hb1.
  destruct (s_instancing w) eqn:Hi.
  - destruct (Hinst eq_refl) as [d1 Hd1]. rewrite Hd1.
    destruct (declare_buffer_spec 1 (s_instanceBuffer w) d1 w1 Hd1)
      as (w2 & -> & Hq2 & He2).
    cbn [Nat.eqb] in *.
    pose proof (quiet_field s_instancing _ _ (fun _ _ _ => eq_refl) Hq2) as Hi2.
    rewrite Hi2, Hi1. cbn [negb].
    assert (Hsame : forall js, has_unsupported d1 js w1 = has_unsupported d1 js w).
    { intros js. apply existsb_pointwise. intros j.
      by rewrite (quiet_supported _ _ _ Hq1). }
    rewrite Hsame in *.
    eexists. split; [reflexivity|]. split.
    + eapply quiet_trans; [exact Hq1|]. eapply quiet_trans; [exact Hq2|].
      destruct (s_indexBuffer w2); quiet.
    + intros Hf. apply orb_true_iff in Hf as [Hf|Hf].
      * destruct (He1 Hf) as (j & type & He). exists (vd_ptr d), j, type.
        eapply quiet_log; [|exact He]. eapply quiet_trans; [exact Hq2|].
        destruct (s_indexBuffer w2); quiet.
      * destruct (He2 Hf) as (j & type & He). exists (vd_ptr d1), j, type.
        eapply quiet_log; [|exact He]. destruct (s_indexBuffer w2); quiet.
  - rewrite Hi1. cbn [negb]. rewrite orb_false_r.
    eexists. split; [reflexivity|]. split.
    + eapply quiet_trans; [exact Hq1|].
      eapply quiet_trans; [apply quiet_disable_all|].
      match goal with |- context [s_indexBuffer ?x] => destruct (s_indexBuffer x) end; quiet.
    + intros Hf.
      destruct (He1 Hf) as (j & type & He). exists (vd_ptr d), j, type.
      eapply quiet_log; [|exact He].
      eapply quiet_trans; [apply quiet_disable_all|].
      match goal with |- context [s_indexBuffer ?x] => destruct (s_indexBuffer x) end; quiet.
Qed.

(** *** Steps of the vertex array stage

    [vao_step w w']: besides the trace and the log, [w'] differs from [w]
    at most in the cache, the names in use, the current vertex array and
    the flags; no draw and no matrix upload is among the commands. *)
Definition vao_step w w' : Prop :=
  exists v cur names fl t l,
    w' = set_s_vaos v (set_s_currentVAO cur (set_gl_vertexArrays names
           (set_s_updateFlags fl
              (set_trace (trace w ++ t)%list (set_log (log w ++ l)%list w)))))
    /\ Forall (fun c => is_draw c = false /\ is_send_matrix c = false) t.

Lemma vao_step_quiet w w' : quiet w w' -> vao_step w w'.
Proof.
  intros (t & l & -> & Ht).
  exists (s_vaos w), (s_currentVAO w), (gl_vertexArrays w), (s_updateFlags w), t, l.
  split; [by destruct w|exact Ht].
Qed.

Lemma vao_step_refl w : vao_step w w.
Proof. apply vao_step_quiet, quiet_refl. Qed.

Lemma vao_step_trans w1 w2 w3 : vao_step w1 w2 -> vao_step w2 w3 -> vao_step w1 w3.
Proof.
  intros (v1 & c1 & n1 & f1 & t1 & l1 & -> & H1) (v2 & c2 & n2 & f2 & t2 & l2 & -> & H2).
  exists v2, c2, n2, f2, (t1 ++ t2)%list, (l1 ++ l2)%list. split.
  - simpl. by rewrite !app_assoc.
  - by apply Forall_app.
Qed.

Lemma vao_step_set_s_vaos v w : vao_step w (set_s_vaos v w).
Proof.
  exists v, (s_currentVAO w), (gl_vertexArrays w), (s_updateFlags w), [], [].
  split; [|constructor]. rewrite !app_nil_r. by destruct w.
Qed.

Lemma vao_step_set_s_currentVAO cur w : vao_step w (set_s_currentVAO cur w).
Proof.
  exists (s_vaos w), cur, (gl_vertexArrays w), (s_updateFlags w), [], [].
  split; [|constructor]. rewrite !app_nil_r. by destruct w.
Qed.

Lemma vao_step_set_gl_vertexArrays names w : vao_step w (set_gl_vertexArrays names w).
Proof.
  exists (s_vaos w), (s_currentVAO w), names, (s_updateFlags w), [], [].
  split; [|constructor]. rewrite !app_nil_r. by destruct w.
Qed.

Lemma vao_step_set_s_updateFlags fl w : vao_step w (set_s_updateFlags fl w).
Proof.
  exists (s_vaos w), (s_currentVAO w), (gl_vertexArrays w), fl, [], [].
  split; [|constructor]. rewrite !app_nil_r. by destruct w.
Qed.

Lemma vao_step_field {A} (f : @World Matrix4f RenderStates -> A) w w' :
  (forall v cur names fl t l w,
     f (set_s_vaos v (set_s_currentVAO cur (set_gl_vertexArrays names
          (set_s_updateFlags fl (set_trace t (set_log l w)))))) = f w) ->
  vao_step w w' -> f w' = f w.
Proof. intros Hf (v & cur & names & fl & t & l & -> & _). apply Hf. Qed.

Lemma vao_step_draws w w' : vao_step w w' -> draws w' = draws w.
Proof.
  intros (v & cur & names & fl & t & l & -> & Ht). unfold draws; simpl.
  rewrite filter_app, (filter_none _ t); [by rewrite app_nil_r|].
  eapply Forall_impl; [exact Ht|]. intros c [Hc _]. by rewrite Hc.
Qed.

Lemma vao_step_sends w w' : vao_step w w' -> sends w' = sends w.
Proof.
  intros (v & cur & names & fl & t & l & -> & Ht). unfold sends; simpl.
  rewrite filter_app, (filter_none _ t); [by rewrite app_nil_r|].
  eapply Forall_impl; [exact Ht|]. intros c [_ Hc]. by rewrite Hc.
Qed.

(** Chains [vao_step] through a straight-line sequence of writes. *)
Ltac vao_step :=
  repeat first
    [ apply vao_step_refl
    | apply vao_step_quiet; quiet; fail
    | eapply vao_step_trans; [|apply vao_step_set_s_vaos]
    | eapply vao_step_trans; [|apply vao_step_set_s_currentVAO]
    | eapply vao_step_trans; [|apply vao_step_set_gl_vertexArrays]
    | eapply vao_step_trans; [|apply vao_step_set_s_updateFlags]
    | eapply vao_step_trans; [|apply vao_step_quiet; apply quiet_emit; reflexivity]
    | eapply vao_step_trans; [|apply vao_step_quiet; apply quiet_report] ].

(** *** Searching the cache *)

Lemma find_or_create_vao_hit context vertexBuffer e w :
  context_vaoMap context w !! current_key vertexBuffer w = Some e ->
  find_or_create_vao context vertexBuffer w = Some (set_s_currentVAO (vao e) w, false).
Proof.
  intros Hhit. unfold find_or_create_vao.
  assert (Hsome : is_Some (s_vaos w !! context)).
  { unfold context_vaoMap in Hhit. destruct (s_vaos w !! context); [by eexists|].
    by rewrite lookup_empty in Hhit. }
  destruct Hsome as [entry Hentry]. rewrite Hentry. by rewrite Hhit.
Qed.

(** The state a search leaves on a miss. *)
Definition created context vertexBuffer (d : VertexDeclaration) w :=
  let w0 :=
    match s_vaos w !! context with
    | None => set_s_vaos (<[context := {| vaoMap := ∅; onReleaseSlot := context |}]>
                            (s_vaos w)) w
    | Some _ => w
    end in
  let key := current_key vertexBuffer w in
  let w1 := gen_vertex_array context w0 in
  set_context_vaoMap context
    (<[key := {| vao := s_currentVAO w1;
                 onIndexBufferReleaseSlot := key.1.1.1;
                 onVertexBufferReleaseSlot := Some (vb_ptr vertexBuffer);
                 onInstancingDeclarationReleaseSlot := key.2;
                 onVertexDeclarationReleaseSlot := Some (vd_ptr d) |}]>
       (context_vaoMap context w1)) w1.

Lemma find_or_create_vao_created context vertexBuffer d w :
  context_vaoMap context w !! current_key vertexBuffer w = None ->
  vb_declaration vertexBuffer = Some d ->
  find_or_create_vao context vertexBuffer w = Some (created context vertexBuffer d w, true).
Proof.
  intros Hmiss Hd. unfold find_or_create_vao, created.
  set (w0 := match s_vaos w !! context with Some _ => w | None => _ end).
  assert (Hkey : current_key vertexBuffer w0 = current_key vertexBuffer w)
    by (subst w0; by case_match).
  assert (Hmiss0 : context_vaoMap context w0 !! current_key vertexBuffer w = None).
  { subst w0. unfold context_vaoMap in *.
    destruct (s_vaos w !! context) eqn:E; [by rewrite E|].
    simpl. by rewrite lookup_insert_eq. }
  by rewrite Hkey, Hmiss0, Hd.
Qed.

Lemma created_spec context vertexBuffer d w :
  let name := glGenVertexArrays_name (gl_vertexArrays w !!! context) in
  let w' := created context vertexBuffer d w in
  vao_step w w'
  /\ s_currentVAO w' = name
  /\ gl_vertexArrays w' !!! context = name :: gl_vertexArrays w !!! context
  /\ is_Some (s_vaos w' !! context)
  /\ (exists e, context_vaoMap context w'
                = <[current_key vertexBuffer w := e]> (context_vaoMap context w)
                /\ vao e = name)
  /\ s_updateFlags w' = s_updateFlags w
  /\ glGenVertexArrays name ∈ trace w'.
Proof.
  cbv zeta. unfold created.
  set (w0 := match s_vaos w !! context with Some _ => w | None => _ end).
  assert (H0 : vao_step w w0 /\ gl_vertexArrays w0 = gl_vertexArrays w
               /\ is_Some (s_vaos w0 !! context)
               /\ context_vaoMap context w0 = context_vaoMap context w
               /\ s_updateFlags w0 = s_updateFlags w).
  { subst w0. unfold context_vaoMap.
    destruct (s_vaos w !! context) eqn:E.
    - rewrite E. repeat split; [apply vao_step_refl | by eexists].
    - simpl. rewrite lookup_insert_eq.
      repeat split; [apply vao_step_set_s_vaos | by eexists]. }
  destruct H0 as (Hstep & Hnames & Hsome & Hmap & Hflags).
  split; [|split; [|split; [|split; [|split; [|split]]]]].
  - eapply vao_step_trans; [exact Hstep|]. unfold set_context_vaoMap, gen_vertex_array.
    vao_step.
  - simpl. by rewrite Hnames.
  - simpl. rewrite Hnames. by rewrite lookup_total_insert_eq.
  - unfold set_context_vaoMap; simpl. rewrite lookup_alter_eq.
    destruct Hsome as [x ->]. by eexists.
  - rewrite context_vaoMap_set by exact Hsome.
    change (context_vaoMap context (gen_vertex_array context w0))
      with (context_vaoMap context w0).
    rewrite Hmap. eexists. split; [reflexivity|]. simpl. by rewrite Hnames.
  - simpl. exact Hflags.
  - simpl. rewrite Hnames. apply elem_of_app. left. apply elem_of_app. right. by left.
Qed.

Lemma vao_step_supported type w w' :
  vao_step w w' -> IsComponentTypeSupported type w' = IsComponentTypeSupported type w.
Proof. intros (v & cur & names & fl & t & l & -> & _). by destruct type. Qed.

Lemma vao_step_build_fails d w w' :
  vao_step w w' ->
  build_fails cfg d (instancing_declaration w') w'
  = build_fails cfg d (instancing_declaration w) w.
Proof.
  intros Hstep.
  assert (Hu : forall d' js, has_unsupported d' js w' = has_unsupported d' js w).
  { intros d' js. apply existsb_pointwise. intros j.
    by rewrite (vao_step_supported _ _ _ Hstep). }
  assert (Hi : instancing_declaration w' = instancing_declaration w).
  { destruct Hstep as (v & cur & names & fl & t & l & -> & _). reflexivity. }
  unfold build_fails. rewrite Hi. destruct (instancing_declaration w); by rewrite !Hu.
Qed.

(** A search that finds the key answers the name of the entry and builds
    nothing. *)
Lemma update_vao_hit context vertexBuffer e w :
  lookup_ready context vertexBuffer w ->
  context_vaoMap context w !! current_key vertexBuffer w = Some e ->
  update_vao cfg vertexBuffer w
  = Some (set_s_updateFlags (clear_flag (s_updateFlags w) Update_VAO)
            (set_s_currentVAO (vao e) w)).
Proof.
  intros (Huse & Hctx & _ & _) Hhit. unfold update_vao.
  by rewrite Huse, Hctx, (find_or_create_vao_hit _ _ e) by exact Hhit.
Qed.

Lemma quiet_trace w w' c : quiet w w' -> c ∈ trace w -> c ∈ trace w'.
Proof. intros (t & l & -> & _) Hc. simpl. apply elem_of_app. by left. Qed.

Lemma vao_step_trace w w' c : vao_step w w' -> c ∈ trace w -> c ∈ trace w'.
Proof.
  intros (v & cur & names & fl & t & l & -> & _) Hc. simpl. apply elem_of_app. by left.
Qed.

Lemma vao_step_log w w' e : vao_step w w' -> e ∈ log w -> e ∈ log w'.
Proof.
  intros (v & cur & names & fl & t & l & -> & _) He. simpl. apply elem_of_app. by left.
Qed.

(** The entry of a vertex array that could not be programmed. *)
Lemma discard_vao_spec context vertexBuffer e w :
  current_context w = Some context ->
  is_Some (s_vaos w !! context) ->
  context_vaoMap context w !! current_key vertexBuffer w = Some e ->
  exists w',
    discard_vao context vertexBuffer w = Some w'
    /\ vao_step w w'
    /\ s_updateFlags w' = s_updateFlags w
    /\ s_currentVAO w' = 0%N
    /\ gl_vertexArrays w' !!! context
       = filter (fun n => n <> vao e) (gl_vertexArrays w !!! context)
    /\ (exists e0,
          context_vaoMap context w'
          = <[current_key vertexBuffer w := e0]> (context_vaoMap context w)
          /\ vao e0 = 0%N)
    /\ glDeleteVertexArrays (vao e) ∈ trace w'.
Proof.
  intros Hctx Hsome Hlook. unfold discard_vao. rewrite Hlook.
  unfold delete_vertex_array.
  replace (current_context (emit (glDeleteVertexArrays (vao e)) w))
    with (Some context) by (symmetry; exact Hctx).
  eexists. split; [reflexivity|].
  split; [|split; [|split; [|split; [|split]]]].
  - unfold set_context_vaoMap, drop_vertex_array. vao_step.
  - reflexivity.
  - reflexivity.
  - cbn [gl_vertexArrays set_s_currentVAO set_context_vaoMap set_s_vaos
         drop_vertex_array set_gl_vertexArrays emit set_trace].
    apply (lookup_total_insert_eq (gl_vertexArrays w) context).
  - eexists. split.
    + exact (context_vaoMap_set context _
               (drop_vertex_array context (vao e) (emit (glDeleteVertexArrays (vao e)) w))
               Hsome).
    + reflexivity.
  - cbn [trace set_s_currentVAO set_context_vaoMap set_s_vaos
         drop_vertex_array set_gl_vertexArrays emit set_trace].
    apply elem_of_app. right. by left.
Qed.

(** A search that misses makes a vertex array, enters it under the key and
    programs it; when the programming fails the array is deleted and the
    entry stays, with the null name. *)
Lemma update_vao_miss context vertexBuffer d w :
  lookup_ready context vertexBuffer w ->
  vb_declaration vertexBuffer = Some d ->
  context_vaoMap context w !! current_key vertexBuffer w = None ->
  let names := gl_vertexArrays w !!! context in
  let name := glGenVertexArrays_name names in
  let failed := build_fails cfg d (instancing_declaration w) w in
  exists w',
    update_vao cfg vertexBuffer w = Some w'
    /\ vao_step w w'
    /\ s_updateFlags w' = clear_flag (s_updateFlags w) Update_VAO
    /\ s_currentVAO w' = (if failed then 0%N else name)
    /\ gl_vertexArrays w' !!! context
       = (if failed then filter (fun n => n <> name) (name :: names) else name :: names)
    /\ (exists e,
          context_vaoMap context w'
          = <[current_key vertexBuffer w := e]> (context_vaoMap context w)
          /\ vao e = if failed then 0%N else name)
    /\ glGenVertexArrays name ∈ trace w'
    /\ (failed = true ->
        glDeleteVertexArrays name ∈ trace w'
        /\ exists p j type, NazaraError (MsgInvalidDeclaration p j type) ∈ log w').
Proof.
  intros (Huse & Hctx & _ & Hinst) Hd Hmiss. cbv zeta. unfold update_vao.
  rewrite Huse, Hctx, (find_or_create_vao_created _ _ d) by done.
  destruct (created_spec context vertexBuffer d w)
    as (Hstep & Hcur & Hnames & Hsome & (e & Hmap & He) & Hflags & Hgen).
  set (w1 := created context vertexBuffer d w) in *. clearbody w1.
  pose proof (vao_step_field s_instancing _ _ (fun _ _ _ _ _ _ _ => eq_refl) Hstep) as Hi1.
  pose proof (vao_step_field s_instanceBuffer _ _ (fun _ _ _ _ _ _ _ => eq_refl) Hstep) as Hb1.
  pose proof (vao_step_field current_context _ _
                (fun _ _ _ _ _ _ _ => eq_refl) Hstep) as Hc1.
  pose proof (vao_step_field (current_key vertexBuffer) _ _
                (fun _ _ _ _ _ _ _ => eq_refl) Hstep) as Hk1.
  assert (Hinst1 : s_instancing w1 = true -> is_Some (vb_declaration (s_instanceBuffer w1)))
    by (rewrite Hi1, Hb1; exact Hinst).
  destruct (program_vao_spec vertexBuffer d w1 Hd Hinst1) as (w2 & -> & Hq & Herr).
  rewrite (vao_step_build_fails d w w1 Hstep) in *.
  pose proof (quiet_field (context_vaoMap context) _ _ (fun _ _ _ => eq_refl) Hq) as Hm2.
  pose proof (quiet_field (current_key vertexBuffer) _ _ (fun _ _ _ => eq_refl) Hq) as Hk2.
  pose proof (quiet_field current_context _ _ (fun _ _ _ => eq_refl) Hq) as Hc2.
  pose proof (quiet_field s_vaos _ _ (fun _ _ _ => eq_refl) Hq) as Hv2.
  pose proof (quiet_field s_updateFlags _ _ (fun _ _ _ => eq_refl) Hq) as Hf2.
  pose proof (quiet_field s_currentVAO _ _ (fun _ _ _ => eq_refl) Hq) as Hcur2.
  pose proof (quiet_field gl_vertexArrays _ _ (fun _ _ _ => eq_refl) Hq) as Hn2.
  clear Hinst1.
  destruct (build_fails cfg d (instancing_declaration w) w) eqn:Hfail.
  - destruct (discard_vao_spec context vertexBuffer e w2)
      as (w3 & -> & Hstep3 & Hf3 & Hcur3 & Hn3 & (e0 & Hm3 & He0) & Hdel).
    { by rewrite Hc2, Hc1. }
    { by rewrite Hv2. }
    { rewrite Hm2, Hk2, Hk1, Hmap. apply lookup_insert_eq. }
    eexists. split; [reflexivity|].
    split; [|split; [|split; [|split; [|split; [|split]]]]].
    + eapply vao_step_trans; [exact Hstep|].
      eapply vao_step_trans; [apply vao_step_quiet; exact Hq|].
      eapply vao_step_trans; [exact Hstep3|]. apply vao_step_set_s_updateFlags.
    + change (clear_flag (s_updateFlags w3) Update_VAO
              = clear_flag (s_updateFlags w) Update_VAO).
      by rewrite Hf3, Hf2, Hflags.
    + exact Hcur3.
    + etrans; [exact Hn3|]. rewrite Hn2, Hnames. by rewrite He.
    + exists e0. split; [|exact He0].
      etrans; [exact Hm3|]. rewrite Hm2, Hk2, Hk1, Hmap. apply insert_insert_eq.
    + cbn [trace set_s_updateFlags].
      eapply vao_step_trace; [exact Hstep3|]. eapply quiet_trace; [exact Hq|exact Hgen].
    + intros _. split.
      * cbn [trace set_s_updateFlags]. by rewrite <- He.
      * destruct (Herr eq_refl) as (p & j & type & Hin). exists p, j, type.
        cbn [log set_s_updateFlags].
        eapply vao_step_log; [exact Hstep3|exact Hin].
  - eexists. split; [reflexivity|].
    split; [|split; [|split; [|split; [|split; [|split]]]]].
    + eapply vao_step_trans; [exact Hstep|].
      eapply vao_step_trans; [apply vao_step_quiet; exact Hq|].
      eapply (vao_step_trans _ (emit (glBindVertexArray 0%N) w2));
        [apply vao_step_quiet, quiet_emit; reflexivity|].
      apply vao_step_set_s_updateFlags.
    + change (clear_flag (s_updateFlags w2) Update_VAO
              = clear_flag (s_updateFlags w) Update_VAO).
      by rewrite Hf2, Hflags.
    + change (s_currentVAO w2 = glGenVertexArrays_name (gl_vertexArrays w !!! context)).
      by rewrite Hcur2.
    + cbn [gl_vertexArrays set_s_updateFlags emit set_trace]. by rewrite Hn2.
    + exists e. split; [|exact He].
      etrans; [exact Hm2|]. exact Hmap.
    + change (glGenVertexArrays (glGenVertexArrays_name (gl_vertexArrays w !!! context))
              ∈ (trace w2 ++ [glBindVertexArray 0%N])%list).
      apply elem_of_app. left. eapply quiet_trace; [exact Hq|exact Hgen].
    + discriminate.
Qed.

(** C6, amended.  When the vertex array made for a new key cannot be
    programmed because an enabled component, of the vertex declaration or of
    the instancing declaration, has a type the backend does not take, the
    error is reported and the vertex array is deleted, but the entry is not
    removed: it stays in the map of the context under its key, with the null
    name, no vertex array is current, the flag is cleared, and what follows
    in the reconciliation fails with "Failed to create VAO". *)
Theorem update_vao_unsupported_component context vertexBuffer d w :
  lookup_ready context vertexBuffer w ->
  vb_declaration vertexBuffer = Some d ->
  context_vaoMap context w !! current_key vertexBuffer w = None ->
  build_fails cfg d (instancing_declaration w) w = true ->
  exists w',
    update_vao cfg vertexBuffer w = Some w'
    /\ (exists e, context_vaoMap context w' !! current_key vertexBuffer w = Some e
                  /\ vao e = 0%N)
    /\ s_currentVAO w' = 0%N
    /\ glDeleteVertexArrays (glGenVertexArrays_name (gl_vertexArrays w !!! context))
       ∈ trace w'
    /\ (exists p j type, NazaraError (MsgInvalidDeclaration p j type) ∈ log w')
    /\ has_flag (s_updateFlags w') Update_VAO = false
    /\ finish_update (check_flags_cleared cfg w')
       = Some (false, report (NazaraError (Msg "Failed to create VAO")) w').
Proof.
  intros Hready Hd Hmiss Hfail.
  destruct (update_vao_miss context vertexBuffer d w Hready Hd Hmiss)
    as (w' & Hrun & Hstep & Hflags & Hcur & _ & (e & Hmap & He) & _ & Hdel).
  rewrite Hfail in *. destruct (Hdel eq_refl) as [Hdeleted Herr].
  pose proof (vao_step_field s_useVertexArrayObjects _ _
                (fun _ _ _ _ _ _ _ => eq_refl) Hstep) as Huse.
  destruct Hready as (Huse0 & _). rewrite Huse0 in Huse.
  exists w'. split; [exact Hrun|]. split; [|split; [|split; [|split; [|split]]]].
  - exists e. split; [|exact He]. rewrite Hmap. apply lookup_insert_eq.
  - exact Hcur.
  - exact Hdeleted.
  - exact Herr.
  - rewrite Hflags. apply has_flag_clear, Update_flags_VAO.
  - unfold check_flags_cleared. rewrite Huse. cbn [negb].
    rewrite andb_false_r. cbn [andb]. unfold finish_update. by rewrite Huse, Hcur.
Qed.

(** *** Names in the cache *)

Lemma cache_ok_ext context w w' :
  context_vaoMap context w' = context_vaoMap context w ->
  gl_vertexArrays w' !!! context = gl_vertexArrays w !!! context ->
  cache_ok context w -> cache_ok context w'.
Proof. intros Hm Hn [H1 H2]. split; rewrite ?Hm, ?Hn; [exact H1|exact H2]. Qed.

Lemma cache_ok_empty context w : s_vaos w = ∅ -> cache_ok context w.
Proof.
  intros H. unfold cache_ok, context_vaoMap. rewrite H, lookup_empty.
  split; intros *; by rewrite lookup_empty.
Qed.

Lemma same_cache_context_vaoMap context w w' :
  same_cache w w' -> context_vaoMap context w' = context_vaoMap context w.
Proof. intros [H _]. unfold context_vaoMap. by rewrite H. Qed.

(** What a search leaves behind, whichever way it went: the entry of the
    key holds the current name, and the cache is still well formed. *)
Lemma update_vao_entry context vertexBuffer w :
  Driver_fresh Drv ->
  cache_ok context w ->
  lookup_ready context vertexBuffer w ->
  exists w',
    update_vao cfg vertexBuffer w = Some w'
    /\ vao_step w w'
    /\ cache_ok context w'
    /\ (exists e, context_vaoMap context w' !! current_key vertexBuffer w = Some e
                  /\ vao e = s_currentVAO w')
    /\ (s_currentVAO w' <> 0%N ->
        match context_vaoMap context w !! current_key vertexBuffer w with
        | Some e => s_currentVAO w' = vao e /\ trace w' = trace w
        | None => (s_currentVAO w' ∉ gl_vertexArrays w !!! context)
                  /\ glGenVertexArrays (s_currentVAO w') ∈ trace w'
        end).
Proof.
  intros Hfresh [Hlive Hinj] Hready.
  destruct (context_vaoMap context w !! current_key vertexBuffer w) as [e|] eqn:Hlook.
  - rewrite (update_vao_hit _ _ e) by done. eexists. split; [reflexivity|].
    split; [vao_step|]. split; [|split].
    + eapply cache_ok_ext; [| |split; [exact Hlive|exact Hinj]]; reflexivity.
    + exists e. by split.
    + by intros _.
  - destruct Hready as (Huse & Hctx & [d Hd] & Hinst).
    destruct (update_vao_miss context vertexBuffer d w) as
      (w' & Hrun & Hstep & _ & Hcur & Hnames & (e & Hmap & He) & Hgen & _);
      [done..|].
    destruct (Hfresh (gl_vertexArrays w !!! context)) as [Hunused Hnonzero].
    set (name := glGenVertexArrays_name (gl_vertexArrays w !!! context)) in *.
    set (failed := build_fails cfg d (instancing_declaration w) w) in *.
    exists w'. split; [exact Hrun|]. split; [exact Hstep|]. split; [|split].
    + split.
      * intros key e' Hk Hnz. rewrite Hmap in Hk. rewrite Hnames.
        destruct (decide (current_key vertexBuffer w = key)) as [<-|Hne].
        -- rewrite lookup_insert_eq in Hk. injection Hk as <-.
           destruct failed; [by rewrite He in Hnz|]. rewrite He. by left.
        -- rewrite lookup_insert_ne in Hk by done.
           pose proof (Hlive key e' Hk Hnz) as Hin.
           assert (vao e' <> name) by (intros Heq; by rewrite Heq in Hin).
           destruct failed.
           ++ apply list_elem_of_filter. split; [done|]. by right.
           ++ by right.
      * intros key1 key2 e1 e2 Hk1 Hk2 Heq Hnz. rewrite Hmap in Hk1, Hk2.
        destruct (decide (current_key vertexBuffer w = key1)) as [E1|E1],
                 (decide (current_key vertexBuffer w = key2)) as [E2|E2];
          [congruence| | |].
        -- subst key1. rewrite lookup_insert_eq in Hk1. injection Hk1 as <-.
           rewrite lookup_insert_ne in Hk2 by done.
           destruct failed; [by rewrite He in Hnz|].
           assert (Hin : vao e2 ∈ gl_vertexArrays w !!! context)
             by (eapply Hlive; [exact Hk2|]; by rewrite <- Heq).
           rewrite <- Heq, He in Hin. done.
        -- subst key2. rewrite lookup_insert_eq in Hk2. injection Hk2 as <-.
           rewrite lookup_insert_ne in Hk1 by done.
           destruct failed; [by rewrite Heq, He in Hnz|].
           assert (Hin : vao e1 ∈ gl_vertexArrays w !!! context)
             by (eapply Hlive; [exact Hk1|done]).
           rewrite Heq, He in Hin. done.
        -- rewrite lookup_insert_ne in Hk1, Hk2 by done. by eapply Hinj.
    + exists e. split; [rewrite Hmap; apply lookup_insert_eq|]. by rewrite He, Hcur.
    + intros Hnz. rewrite Hcur in *. destruct failed; [done|]. by split.
Qed.

Lemma cache_built_empty context w : s_vaos w = ∅ -> cache_built context w.
Proof.
  intros H key e. unfold context_vaoMap. rewrite H, lookup_empty.
  by rewrite lookup_empty.
Qed.

(** With no failed entry in the cache and no component the backend
    refuses, a search answers a vertex array, never the null name, and
    leaves no failed entry. *)
Lemma update_vao_built context vertexBuffer w w' :
  Driver_fresh Drv ->
  lookup_ready context vertexBuffer w ->
  cache_built context w ->
  layout_supported cfg vertexBuffer w = true ->
  update_vao cfg vertexBuffer w = Some w' ->
  s_currentVAO w' <> 0%N /\ cache_built context w'.
Proof.
  intros Hfresh Hready Hbuilt Hsup Hrun.
  destruct (context_vaoMap context w !! current_key vertexBuffer w) as [e|] eqn:Hlook.
  - rewrite (update_vao_hit context vertexBuffer e w Hready Hlook) in Hrun.
    injection Hrun as <-. split.
    + cbn [s_currentVAO set_s_updateFlags set_s_currentVAO]. by eapply Hbuilt.
    + intros key e'. exact (Hbuilt key e').
  - pose proof Hready as (_ & _ & [d Hd] & _).
    destruct (update_vao_miss context vertexBuffer d w Hready Hd Hlook)
      as (w'' & Hrun' & _ & _ & Hcur & _ & (e & Hmap & He) & _).
    rewrite Hrun' in Hrun. injection Hrun as <-.
    unfold layout_supported in Hsup. rewrite Hd in Hsup.
    apply negb_true_iff in Hsup. fold (instancing_declaration w) in Hsup.
    rewrite Hsup in Hcur, He.
    destruct (Hfresh (gl_vertexArrays w !!! context)) as [_ Hnonzero].
    split; [by rewrite Hcur|].
    intros key e' Hk. rewrite Hmap in Hk.
    destruct (decide (current_key vertexBuffer w = key)) as [<-|Hne].
    + rewrite lookup_insert_eq in Hk. injection Hk as <-. by rewrite He.
    + rewrite lookup_insert_ne in Hk by done. by eapply Hbuilt.
Qed.



(** *** Flags, one bit at a time *)

Lemma has_flag_nonzero (flags bit : Z) : has_flag flags bit = true -> flags <> Update_None.
Proof.
  intros H Hz. rewrite Hz in H. unfold has_flag, Update_None in H.
  rewrite Z.land_0_l in H. discriminate.
Qed.

Lemma has_flag_add_bit (flags j k : Z) :
  0 <= j -> 0 <= k ->
  has_flag (add_flag flags (2 ^ j)) (2 ^ k) = has_flag flags (2 ^ k) || (j =? k).
Proof. intros Hj Hk. by rewrite !has_flag_testbit, testbit_add_flag. Qed.

Lemma has_flag_clear_bit (flags j k : Z) :
  0 <= j -> 0 <= k ->
  has_flag (clear_flag flags (2 ^ j)) (2 ^ k) = has_flag flags (2 ^ k) && negb (j =? k).
Proof. intros Hj Hk. by rewrite !has_flag_testbit, testbit_clear_flag. Qed.

(** Rewrites [has_flag] through the updates of the flags. *)
Ltac flags :=
  change Update_Matrices with (2 ^ 0) in *;
  change Update_Shader with (2 ^ 1) in *;
  change Update_Textures with (2 ^ 2) in *;
  change Update_VAO with (2 ^ 3) in *;
  repeat first [rewrite has_flag_add_bit by lia | rewrite has_flag_clear_bit by lia];
  cbn [Z.eqb Pos.eqb negb];
  rewrite ?orb_true_r, ?orb_false_r, ?andb_true_r, ?andb_false_r.

(** *** What reconciliation never writes

    The bindings, the capabilities, the current context, the number of
    texture units and the draw commands issued so far. *)
Record Bound := {
  b_instanceBuffer : VertexBuffer;
  b_states : RenderStates;
  b_indexBuffer : option IndexBuffer;
  b_target : option RenderTarget;
  b_shader : option Shader;
  b_vertexBuffer : option VertexBuffer;
  b_instancing : bool;
  b_useSamplerObjects : bool;
  b_useVertexArrayObjects : bool;
  b_maxTextureUnit : N;
  b_context : option Context;
  b_hasVertexAttribLPointer : bool;
  b_hasVertexAttribIPointer : bool;
  b_textureUnits : nat;
  b_draws : list (@Command Matrix4f RenderStates)
}.

Definition bound w : Bound :=
  {| b_instanceBuffer := s_instanceBuffer w;
     b_states := s_states w;
     b_indexBuffer := s_indexBuffer w;
     b_target := s_target w;
     b_shader := s_shader w;
     b_vertexBuffer := s_vertexBuffer w;
     b_instancing := s_instancing w;
     b_useSamplerObjects := s_useSamplerObjects w;
     b_useVertexArrayObjects := s_useVertexArrayObjects w;
     b_maxTextureUnit := s_maxTextureUnit w;
     b_context := current_context w;
     b_hasVertexAttribLPointer := gl_hasVertexAttribLPointer w;
     b_hasVertexAttribIPointer := gl_hasVertexAttribIPointer w;
     b_textureUnits := length (s_textureUnits w);
     b_draws := draws w |}.

Definition steady w w' : Prop := bound w' = bound w.

Lemma steady_trans w1 w2 w3 : steady w1 w2 -> steady w2 w3 -> steady w1 w3.
Proof. unfold steady. congruence. Qed.

Lemma steady_quiet w w' : quiet w w' -> steady w w'.
Proof.
  intros H. pose proof (quiet_draws _ _ H) as Hd.
  destruct H as (t & l & -> & _). unfold steady, bound in *. simpl in *. by rewrite Hd.
Qed.

Lemma steady_vao_step w w' : vao_step w w' -> steady w w'.
Proof.
  intros H. pose proof (vao_step_draws _ _ H) as Hd.
  destruct H as (v & cur & names & fl & t & l & -> & _).
  unfold steady, bound in *. simpl in *. by rewrite Hd.
Qed.

(** *** Steps of the matrix stage

    [mat_step w w']: besides the trace and the log, [w'] differs from [w]
    at most in the matrix slots, the target size and the flags; no draw is
    among the commands. *)
Definition mat_step w w' : Prop :=
  exists ms ts fl t l,
    w' = set_s_matrices ms (set_s_targetSize ts (set_s_updateFlags fl
           (set_trace (trace w ++ t)%list (set_log (log w ++ l)%list w))))
    /\ Forall (fun c => is_draw c = false) t.

Lemma mat_step_refl w : mat_step w w.
Proof.
  exists (s_matrices w), (s_targetSize w), (s_updateFlags w), [], [].
  split; [|constructor]. rewrite !app_nil_r. by destruct w.
Qed.

Lemma mat_step_trans w1 w2 w3 : mat_step w1 w2 -> mat_step w2 w3 -> mat_step w1 w3.
Proof.
  intros (m1 & s1 & f1 & t1 & l1 & -> & H1) (m2 & s2 & f2 & t2 & l2 & -> & H2).
  exists m2, s2, f2, (t1 ++ t2)%list, (l1 ++ l2)%list. split.
  - simpl. by rewrite !app_assoc.
  - by apply Forall_app.
Qed.

Lemma mat_step_emit c w : is_draw c = false -> mat_step w (emit c w).
Proof.
  intros Hc. exists (s_matrices w), (s_targetSize w), (s_updateFlags w), [c], [].
  split; [|by repeat constructor]. rewrite !app_nil_r. by destruct w.
Qed.

Lemma mat_step_report e w : mat_step w (report e w).
Proof.
  exists (s_matrices w), (s_targetSize w), (s_updateFlags w), [], [e].
  split; [|constructor]. rewrite !app_nil_r. by destruct w.
Qed.

Lemma mat_step_set_s_matrices ms w : mat_step w (set_s_matrices ms w).
Proof.
  exists ms, (s_targetSize w), (s_updateFlags w), [], [].
  split; [|constructor]. rewrite !app_nil_r. by destruct w.
Qed.

Lemma mat_step_set_s_targetSize ts w : mat_step w (set_s_targetSize ts w).
Proof.
  exists (s_matrices w), ts, (s_updateFlags w), [], [].
  split; [|constructor]. rewrite !app_nil_r. by destruct w.
Qed.

Lemma mat_step_set_s_updateFlags fl w : mat_step w (set_s_updateFlags fl w).
Proof.
  exists (s_matrices w), (s_targetSize w), fl, [], [].
  split; [|constructor]. rewrite !app_nil_r. by destruct w.
Qed.

Lemma mat_step_field {A} (f : @World Matrix4f RenderStates -> A) w w' :
  (forall ms ts fl t l w,
     f (set_s_matrices ms (set_s_targetSize ts (set_s_updateFlags fl
          (set_trace t (set_log l w))))) = f w) ->
  mat_step w w' -> f w' = f w.
Proof. intros Hf (ms & ts & fl & t & l & -> & _). apply Hf. Qed.

Lemma steady_mat_step w w' : mat_step w w' -> steady w w'.
Proof.
  intros (ms & ts & fl & t & l & -> & Ht). unfold steady, bound, draws. simpl.
  rewrite filter_app, (filter_none _ t); [by rewrite app_nil_r|].
  eapply Forall_impl; [exact Ht|]. intros c Hc. by rewrite Hc.
Qed.

Ltac mat_step :=
  repeat first
    [ apply mat_step_refl
    | eapply mat_step_trans; [|apply mat_step_set_s_matrices]
    | eapply mat_step_trans; [|apply mat_step_set_s_targetSize]
    | eapply mat_step_trans; [|apply mat_step_set_s_updateFlags]
    | eapply mat_step_trans; [|apply mat_step_emit; reflexivity]
    | eapply mat_step_trans; [|apply mat_step_report] ].

Lemma mat_step_set_matrix type m w : mat_step w (set_matrix type m w).
Proof. apply mat_step_set_s_matrices. Qed.

Lemma mat_step_set_updated type b w : mat_step w (set_updated type b w).
Proof. apply mat_step_set_s_matrices. Qed.

Lemma mat_step_set_location type l w : mat_step w (set_location type l w).
Proof. apply mat_step_set_s_matrices. Qed.

Lemma mat_step_inverse_into src dest text w :
  mat_step w (inverse_into src dest text w).
Proof.
  unfold inverse_into. case_match; [apply mat_step_set_matrix|apply mat_step_report].
Qed.

Lemma mat_step_UpdateMatrix_fuel n : forall type w, mat_step w (UpdateMatrix_fuel n type w).
Proof.
  induction n as [|n IH]; intros type w; [apply mat_step_refl|].
  assert (Hens : forall src w,
            mat_step w (if updated (s_matrices w src) then w
                        else UpdateMatrix_fuel n src w)).
  { intros src w0. case_match; [apply mat_step_refl|apply IH]. }
  destruct type; cbn [UpdateMatrix_fuel];
    repeat first
      [ apply mat_step_refl
      | apply mat_step_set_updated
      | apply Hens
      | eapply mat_step_trans; [|apply mat_step_set_updated]
      | eapply mat_step_trans; [|apply mat_step_set_matrix]
      | eapply mat_step_trans; [|apply mat_step_inverse_into] ].
Qed.

Lemma mat_step_ensure_updated type w : mat_step w (ensure_updated type w).
Proof.
  unfold ensure_updated, UpdateMatrix.
  case_match; [apply mat_step_refl|apply mat_step_UpdateMatrix_fuel].
Qed.

Lemma mat_step_send_matrix type w : mat_step w (send_matrix type w).
Proof.
  unfold send_matrix. case_match; [|apply mat_step_refl].
  eapply mat_step_trans; [apply mat_step_ensure_updated|].
  by apply mat_step_emit.
Qed.

Lemma mat_step_send_matrices types : forall w,
  mat_step w (fold_left (fun w type => send_matrix type w) types w).
Proof.
  induction types as [|type types IH]; intros w; [apply mat_step_refl|].
  cbn [fold_left]. eapply mat_step_trans; [apply mat_step_send_matrix|apply IH].
Qed.

Lemma mat_step_update_matrices w : mat_step w (update_matrices w).
Proof.
  unfold update_matrices.
  eapply mat_step_trans; [apply mat_step_send_matrices|apply mat_step_set_s_updateFlags].
Qed.

Lemma mat_step_fold {A} (f : World -> A -> World) (xs : list A) w :
  (forall w x, mat_step w (f w x)) -> mat_step w (fold_left f xs w).
Proof.
  intros Hf. revert w. induction xs as [|x xs IH]; intros w; [apply mat_step_refl|].
  cbn [fold_left]. eapply mat_step_trans; [apply Hf|apply IH].
Qed.

Lemma mat_step_resolve_locations shader w : mat_step w (resolve_locations shader w).
Proof.
  unfold resolve_locations.
  eapply mat_step_trans; [|apply mat_step_set_s_updateFlags].
  eapply mat_step_trans; [|apply mat_step_set_s_updateFlags].
  eapply mat_step_trans; [|apply mat_step_set_s_targetSize].
  apply mat_step_fold. intros. apply mat_step_set_location.
Qed.

Lemma mat_step_send_target_size shader target w :
  mat_step w (send_target_size shader target w).
Proof. unfold send_target_size. repeat case_match; mat_step. Qed.

(** *** Steps of the texture stage

    [tex_step w w']: besides the trace and the log, [w'] differs from [w]
    at most in the state of the texture units, whose number stays, in the
    queue of dirty units and in the flags. *)
Definition tex_step w w' : Prop :=
  exists tus dirty fl t l,
    w' = set_s_textureUnits tus (set_s_dirtyTextureUnits dirty (set_s_updateFlags fl
           (set_trace (trace w ++ t)%list (set_log (log w ++ l)%list w))))
    /\ length tus = length (s_textureUnits w)
    /\ Forall (fun c => is_draw c = false /\ is_send_matrix c = false) t.

Lemma tex_step_refl w : tex_step w w.
Proof.
  exists (s_textureUnits w), (s_dirtyTextureUnits w), (s_updateFlags w), [], [].
  split; [|split; [done|constructor]]. rewrite !app_nil_r. by destruct w.
Qed.

Lemma tex_step_trans w1 w2 w3 : tex_step w1 w2 -> tex_step w2 w3 -> tex_step w1 w3.
Proof.
  intros (u1 & d1 & f1 & t1 & l1 & -> & E1 & H1) (u2 & d2 & f2 & t2 & l2 & -> & E2 & H2).
  exists u2, d2, f2, (t1 ++ t2)%list, (l1 ++ l2)%list. split; [|split].
  - simpl. by rewrite !app_assoc.
  - simpl in E2. congruence.
  - by apply Forall_app.
Qed.

Lemma tex_step_quiet w w' : quiet w w' -> tex_step w w'.
Proof.
  intros (t & l & -> & Ht).
  exists (s_textureUnits w), (s_dirtyTextureUnits w), (s_updateFlags w), t, l.
  split; [by destruct w|]. by split.
Qed.

Lemma tex_step_set_s_textureUnits tus w :
  length tus = length (s_textureUnits w) -> tex_step w (set_s_textureUnits tus w).
Proof.
  intros Hlen. exists tus, (s_dirtyTextureUnits w), (s_updateFlags w), [], [].
  split; [|split; [done|constructor]]. rewrite !app_nil_r. by destruct w.
Qed.

Lemma tex_step_set_s_dirtyTextureUnits dirty w :
  tex_step w (set_s_dirtyTextureUnits dirty w).
Proof.
  exists (s_textureUnits w), dirty, (s_updateFlags w), [], [].
  split; [|split; [done|constructor]]. rewrite !app_nil_r. by destruct w.
Qed.

Lemma tex_step_set_s_updateFlags fl w : tex_step w (set_s_updateFlags fl w).
Proof.
  exists (s_textureUnits w), (s_dirtyTextureUnits w), fl, [], [].
  split; [|split; [done|constructor]]. rewrite !app_nil_r. by destruct w.
Qed.

Lemma tex_step_field {A} (f : @World Matrix4f RenderStates -> A) w w' :
  (forall tus dirty fl t l w,
     f (set_s_textureUnits tus (set_s_dirtyTextureUnits dirty (set_s_updateFlags fl
          (set_trace t (set_log l w))))) = f w) ->
  tex_step w w' -> f w' = f w.
Proof. intros Hf (tus & dirty & fl & t & l & -> & _). apply Hf. Qed.

Lemma tex_step_length w w' :
  tex_step w w' -> length (s_textureUnits w') = length (s_textureUnits w).
Proof. by intros (tus & dirty & fl & t & l & -> & Hlen & _). Qed.

Lemma tex_step_sends w w' : tex_step w w' -> sends w' = sends w.
Proof.
  intros (tus & dirty & fl & t & l & -> & _ & Ht). unfold sends; simpl.
  rewrite filter_app, (filter_none _ t); [by rewrite app_nil_r|].
  eapply Forall_impl; [exact Ht|]. intros c [_ Hc]. by rewrite Hc.
Qed.

Lemma steady_tex_step w w' : tex_step w w' -> steady w w'.
Proof.
  intros (tus & dirty & fl & t & l & -> & Hlen & Ht). unfold steady, bound, draws. simpl.
  rewrite Hlen, filter_app, (filter_none _ t); [by rewrite app_nil_r|].
  eapply Forall_impl; [exact Ht|]. intros c [Hc _]. by rewrite Hc.
Qed.

(** A unit in range is updated without a fault. *)
Lemma update_sampler_spec i w :
  (i < length (s_textureUnits w))%nat ->
  exists w',
    update_sampler i w = Some w' /\ tex_step w w'
    /\ s_updateFlags w' = s_updateFlags w.
Proof.
  intros Hi. unfold update_sampler.
  destruct (lookup_lt_is_Some_2 _ _ Hi) as [unit ->].
  destruct (texture unit);
    [|eexists; split; [reflexivity|split; [apply tex_step_refl|reflexivity]]].
  destruct (samplerUpdated unit); cbn [negb];
    [eexists; split; [reflexivity|split; [apply tex_step_refl|reflexivity]]|].
  eexists. split; [reflexivity|]. split.
  - eapply tex_step_trans; [|apply tex_step_set_s_textureUnits].
    + apply tex_step_quiet. destruct (s_useSamplerObjects w); quiet.
    + rewrite length_insert. by destruct (s_useSamplerObjects w).
  - by destruct (s_useSamplerObjects w).
Qed.

Lemma update_samplers_spec units : forall w,
  Forall (fun i => (i < length (s_textureUnits w))%nat) units ->
  exists w',
    for_each update_sampler units w = Some w' /\ tex_step w w'
    /\ s_updateFlags w' = s_updateFlags w.
Proof.
  induction units as [|i units IH]; intros w Hunits.
  - eexists. split; [reflexivity|split; [apply tex_step_refl|reflexivity]].
  - apply Forall_cons in Hunits as [Hi Hunits]. cbn [for_each].
    destruct (update_sampler_spec i w Hi) as (w1 & -> & Hstep1 & Hfl1).
    destruct (IH w1) as (w2 & Hrun & Hstep2 & Hfl2).
    + by rewrite (tex_step_length _ _ Hstep1).
    + exists w2. split; [exact Hrun|]. split; [by eapply tex_step_trans|congruence].
Qed.

Lemma update_textures_spec w :
  Forall (fun i => (i < length (s_textureUnits w))%nat) (s_dirtyTextureUnits w) ->
  exists w',
    update_textures w = Some w'
    /\ tex_step w w'
    /\ s_updateFlags w' = clear_flag (s_updateFlags w) Update_Textures.
Proof.
  intros Hunits. unfold update_textures.
  destruct (update_samplers_spec _ w Hunits) as (w1 & -> & Hstep & Hfl).
  eexists. split; [reflexivity|]. split.
  - eapply tex_step_trans; [exact Hstep|].
    eapply tex_step_trans; [apply tex_step_set_s_dirtyTextureUnits|].
    apply tex_step_set_s_updateFlags.
  - cbn [s_updateFlags set_s_updateFlags set_s_dirtyTextureUnits]. by rewrite Hfl.
Qed.

(** *** The matrices sent *)

Implicit Types (type src : MatrixType).

Lemma UpdateMatrix_fuel_frame n : forall type w,
  trace (UpdateMatrix_fuel n type w) = trace w
  /\ s_updateFlags (UpdateMatrix_fuel n type w) = s_updateFlags w
  /\ forall type', location (s_matrices (UpdateMatrix_fuel n type w) type')
                   = location (s_matrices w type').
Proof.
  induction n as [|n IH]; intros type w; [done|].
  assert (Hens : forall src w,
            let w' := if updated (s_matrices w src) then w
                      else UpdateMatrix_fuel n src w in
            trace w' = trace w
            /\ s_updateFlags w' = s_updateFlags w
            /\ forall type', location (s_matrices w' type') = location (s_matrices w type')).
  { intros src w0. cbv zeta. case_match; [done|apply IH]. }
  destruct type; cbn [UpdateMatrix_fuel]; unfold inverse_into;
    try (split; [reflexivity|split; [reflexivity|intros type'; slots]]; fail);
    match goal with
    | |- context [if updated (s_matrices w ?src) then w else _] =>
        destruct (Hens src w) as (Ht & Hf & Hl);
        set (w1 := if updated (s_matrices w src) then w else _) in *; clearbody w1
    end;
    (split; [|split; [|intros type']]); repeat case_match; slots; simpl; congruence.
Qed.

Lemma ensure_updated_trace type w : trace (ensure_updated type w) = trace w.
Proof.
  unfold ensure_updated, UpdateMatrix. case_match; [done|].
  apply UpdateMatrix_fuel_frame.
Qed.

Lemma ensure_updated_location type w type' :
  location (s_matrices (ensure_updated type w) type') = location (s_matrices w type').
Proof.
  unfold ensure_updated, UpdateMatrix. case_match; [done|].
  apply UpdateMatrix_fuel_frame.
Qed.

Lemma ensure_updated_updated type w :
  updated (s_matrices (ensure_updated type w) type) = true.
Proof.
  unfold ensure_updated, UpdateMatrix. destruct (updated (s_matrices w type)) eqn:E; [done|].
  destruct type; cbn [UpdateMatrix_fuel]; slots.
Qed.

(** A slot that is up to date survives the recomputation of any other
    slot: [UpdateMatrix] writes to the slot it is called on and, through its
    calls to itself, to stale slots only. *)
Definition keeps type w w' : Prop :=
  updated (s_matrices w type) = true ->
  matrix (s_matrices w' type) = matrix (s_matrices w type)
  /\ updated (s_matrices w' type) = true.

Lemma keeps_refl type w : keeps type w w.
Proof. by intros H. Qed.

Lemma keeps_trans type w1 w2 w3 : keeps type w1 w2 -> keeps type w2 w3 -> keeps type w1 w3.
Proof.
  intros H12 H23 H1. destruct (H12 H1) as [Hm Hu]. destruct (H23 Hu) as [Hm' Hu'].
  split; [congruence|exact Hu'].
Qed.

Lemma keeps_set_matrix type type' m w : type <> type' -> keeps type w (set_matrix type' m w).
Proof. intros Hne Hu. split; slots; done. Qed.

Lemma keeps_set_updated type type' b w :
  type <> type' -> keeps type w (set_updated type' b w).
Proof. intros Hne Hu. split; slots; done. Qed.

Lemma keeps_inverse_into type src dest text w :
  type <> dest -> keeps type w (inverse_into src dest text w).
Proof.
  intros Hne. unfold inverse_into. case_match; [by apply keeps_set_matrix|by intros Hu].
Qed.

Lemma keeps_UpdateMatrix_fuel type n : forall type' w,
  type <> type' -> keeps type w (UpdateMatrix_fuel n type' w).
Proof.
  induction n as [|n IH]; intros type' w Hne; [apply keeps_refl|].
  assert (Hens : forall src w,
            keeps type w (if updated (s_matrices w src) then w
                          else UpdateMatrix_fuel n src w)).
  { intros src w0 Hu. destruct (updated (s_matrices w0 src)) eqn:E; [done|].
    apply IH; [congruence|exact Hu]. }
  destruct type'; cbn [UpdateMatrix_fuel];
    repeat first
      [ apply keeps_refl
      | apply Hens
      | eapply keeps_trans; [|apply keeps_set_updated; exact Hne]
      | eapply keeps_trans; [|apply keeps_set_matrix; exact Hne]
      | eapply keeps_trans; [|apply keeps_inverse_into; exact Hne] ].
Qed.

Lemma keeps_ensure_updated type type' w : keeps type w (ensure_updated type' w).
Proof.
  intros Hu. unfold ensure_updated, UpdateMatrix.
  destruct (updated (s_matrices w type')) eqn:E; [done|].
  apply keeps_UpdateMatrix_fuel; [congruence|exact Hu].
Qed.

Lemma keeps_send_matrix type type' w : keeps type w (send_matrix type' w).
Proof.
  unfold send_matrix. case_match; [|apply keeps_refl].
  eapply keeps_trans; [apply keeps_ensure_updated|]. by intros Hu.
Qed.

Lemma keeps_send_matrices type types : forall w,
  keeps type w (fold_left (fun w type' => send_matrix type' w) types w).
Proof.
  induction types as [|type' types IH]; intros w; [apply keeps_refl|].
  cbn [fold_left]. eapply keeps_trans; [apply keeps_send_matrix|apply IH].
Qed.

Lemma send_matrix_location type w type' :
  location (s_matrices (send_matrix type w) type') = location (s_matrices w type').
Proof.
  unfold send_matrix. case_match; [|done]. simpl. apply ensure_updated_location.
Qed.

Lemma send_matrices_location types : forall w type',
  location (s_matrices (fold_left (fun w type => send_matrix type w) types w) type')
  = location (s_matrices w type').
Proof.
  induction types as [|type types IH]; intros w type'; [done|].
  cbn [fold_left]. by rewrite IH, send_matrix_location.
Qed.

Lemma send_matrix_flags type w : s_updateFlags (send_matrix type w) = s_updateFlags w.
Proof.
  unfold send_matrix, ensure_updated, UpdateMatrix. repeat case_match; try done;
    cbn [s_updateFlags emit set_trace]; apply UpdateMatrix_fuel_frame.
Qed.

Lemma send_matrices_flags types : forall w,
  s_updateFlags (fold_left (fun w type => send_matrix type w) types w) = s_updateFlags w.
Proof.
  induction types as [|type types IH]; intros w; [done|].
  cbn [fold_left]. by rewrite IH, send_matrix_flags.
Qed.

(** The loop sends, for each slot whose location is known and for no
    other, the value the slot holds when the loop is over. *)
Lemma send_matrices_sends types : forall w,
  let w' := fold_left (fun w type => send_matrix type w) types w in
  sends w'
  = (sends w
     ++ map (fun type => Shader_SendMatrix (location (s_matrices w' type))
                                           (matrix (s_matrices w' type)))
            (filter (fun type => location (s_matrices w' type) <> -1) types))%list.
Proof.
  induction types as [|type types IH]; intros w; cbv zeta.
  - simpl. by rewrite app_nil_r.
  - cbn [fold_left]. rewrite IH.
    set (w' := fold_left (fun w type => send_matrix type w) types (send_matrix type w)).
    assert (Hloc : location (s_matrices w' type) = location (s_matrices w type))
      by (unfold w'; by rewrite send_matrices_location, send_matrix_location).
    destruct (decide (location (s_matrices w type) <> -1)) as [Hin|Hout].
    + rewrite filter_cons_True by (by rewrite Hloc).
      cbn [map]. rewrite cons_middle, app_assoc. f_equal.
      assert (Hsent : send_matrix type w
                      = emit (Shader_SendMatrix
                                (location (s_matrices (ensure_updated type w) type))
                                (matrix (s_matrices (ensure_updated type w) type)))
                             (ensure_updated type w))
        by (unfold send_matrix; by rewrite bool_decide_eq_true_2 by done).
      destruct (keeps_send_matrices type types (send_matrix type w)) as [Hm _].
      { rewrite Hsent. apply ensure_updated_updated. }
      fold w' in Hm. rewrite Hm, Hloc, Hsent.
      unfold sends. cbn [trace emit set_trace s_matrices].
      rewrite filter_app, ensure_updated_trace, ensure_updated_location. reflexivity.
    + rewrite filter_cons_False by (by rewrite Hloc). f_equal.
      unfold send_matrix. by rewrite bool_decide_eq_false_2 by done.
Qed.

Lemma update_matrices_spec w :
  let w' := update_matrices w in
  mat_step w w'
  /\ s_updateFlags w' = clear_flag (s_updateFlags w) Update_Matrices
  /\ (forall type, location (s_matrices w' type) = location (s_matrices w type))
  /\ sends w'
     = (sends w
        ++ map (fun type => Shader_SendMatrix (location (s_matrices w' type))
                                              (matrix (s_matrices w' type)))
               (referenced w'))%list.
Proof.
  cbv zeta. split; [apply mat_step_update_matrices|].
  pose proof (send_matrices_flags MatrixType_all w) as Hflags.
  pose proof (send_matrices_location MatrixType_all w) as Hloc.
  pose proof (send_matrices_sends MatrixType_all w) as Hsends. cbv zeta in Hsends.
  unfold update_matrices.
  generalize dependent (fold_left (fun w type => send_matrix type w) MatrixType_all w).
  intros w' Hflags Hloc Hsends. split; [|split].
  - cbn [s_updateFlags set_s_updateFlags]. by rewrite Hflags.
  - exact Hloc.
  - exact Hsends.
Qed.

(** *** The end of a reconciliation *)

Lemma bind_texture_spec i w :
  (i < length (s_textureUnits w))%nat ->
  exists w', bind_texture i w = Some w' /\ quiet w w'.
Proof.
  intros Hi. unfold bind_texture.
  destruct (lookup_lt_is_Some_2 _ _ Hi) as [unit ->].
  destruct (texture unit); eexists; (split; [reflexivity|]); [|apply quiet_refl].
  eapply quiet_trans; apply quiet_emit; reflexivity.
Qed.

Lemma bind_textures_spec units : forall w,
  Forall (fun i => (i < length (s_textureUnits w))%nat) units ->
  exists w', for_each bind_texture units w = Some w' /\ quiet w w'.
Proof.
  induction units as [|i units IH]; intros w Hunits.
  - eexists. split; [reflexivity|apply quiet_refl].
  - apply Forall_cons in Hunits as [Hi Hunits]. cbn [for_each].
    destruct (bind_texture_spec i w Hi) as (w1 & -> & Hq1).
    destruct (IH w1) as (w2 & Hrun & Hq2).
    + by rewrite (quiet_field s_textureUnits _ _ (fun _ _ _ => eq_refl) Hq1).
    + exists w2. split; [exact Hrun|]. by eapply quiet_trans.
Qed.

(** With a unit for every index, the end of a reconciliation returns, and
    fails exactly when vertex arrays are in use and none is current. *)
Lemma finish_update_spec w :
  (N.to_nat (s_maxTextureUnit w) <= length (s_textureUnits w))%nat ->
  exists w',
    finish_update w
    = Some (negb (s_useVertexArrayObjects w && (s_currentVAO w =? 0)%N), w')
    /\ quiet w w'.
Proof.
  intros Hunits. unfold finish_update.
  destruct (s_useVertexArrayObjects w && (s_currentVAO w =? 0)%N) eqn:Hnull.
  { eexists. split; [reflexivity|apply quiet_report]. }
  set (w1 := if s_useVertexArrayObjects w
             then emit (glBindVertexArray (s_currentVAO w)) w else w).
  assert (Hq1 : quiet w w1).
  { unfold w1. case_match; [apply quiet_emit; reflexivity|apply quiet_refl]. }
  clearbody w1.
  destruct (bind_textures_spec (seq 0 (N.to_nat (s_maxTextureUnit w1))) w1)
    as (w2 & -> & Hq2).
  { apply Forall_seq. intros j Hj.
    rewrite (quiet_field s_textureUnits _ _ (fun _ _ _ => eq_refl) Hq1).
    rewrite (quiet_field s_maxTextureUnit _ _ (fun _ _ _ => eq_refl) Hq1) in Hj. lia. }
  eexists. split; [reflexivity|].
  eapply quiet_trans; [exact Hq1|]. eapply quiet_trans; [exact Hq2|].
  apply quiet_emit; reflexivity.
Qed.

Lemma quiet_check_flags_cleared w : quiet w (check_flags_cleared cfg w).
Proof. unfold check_flags_cleared. case_match; [apply quiet_report|apply quiet_refl]. Qed.

(** The vertex layout stage returns whenever the context and the
    declarations it follows are there. *)
Lemma update_vao_returns vertexBuffer w :
  is_Some (current_context w) ->
  is_Some (vb_declaration vertexBuffer) ->
  (s_instancing w = true -> is_Some (vb_declaration (s_instanceBuffer w))) ->
  exists w', update_vao cfg vertexBuffer w = Some w' /\ vao_step w w'.
Proof.
  intros [context Hctx] [d Hd] Hinst.
  destruct (s_useVertexArrayObjects w) eqn:Huse.
  - assert (Hready : lookup_ready context vertexBuffer w)
      by (unfold lookup_ready; rewrite Hd; eauto).
    destruct (context_vaoMap context w !! current_key vertexBuffer w) as [e|] eqn:Hlook.
    + rewrite (update_vao_hit context vertexBuffer e w Hready Hlook).
      eexists. split; [reflexivity|].
      eapply vao_step_trans; [apply vao_step_set_s_currentVAO|].
      apply vao_step_set_s_updateFlags.
    + destruct (update_vao_miss context vertexBuffer d w Hready Hd Hlook)
        as (w' & Hrun & Hstep & _).
      exists w'. by split.
  - unfold update_vao. rewrite Huse.
    destruct (program_vao_spec vertexBuffer d w Hd Hinst) as (w' & -> & Hq & _).
    exists w'. split; [reflexivity|by apply vao_step_quiet].
Qed.

Lemma steady_field {A} (f : Bound -> A) w w' : steady w w' -> f (bound w') = f (bound w).
Proof. unfold steady. by intros ->. Qed.

Lemma steady_instanceBuffer w w' : steady w w' -> s_instanceBuffer w' = s_instanceBuffer w.
Proof. exact (steady_field b_instanceBuffer w w'). Qed.

Lemma steady_states w w' : steady w w' -> s_states w' = s_states w.
Proof. exact (steady_field b_states w w'). Qed.

Lemma steady_indexBuffer w w' : steady w w' -> s_indexBuffer w' = s_indexBuffer w.
Proof. exact (steady_field b_indexBuffer w w'). Qed.

Lemma steady_target w w' : steady w w' -> s_target w' = s_target w.
Proof. exact (steady_field b_target w w'). Qed.

Lemma steady_shader w w' : steady w w' -> s_shader w' = s_shader w.
Proof. exact (steady_field b_shader w w'). Qed.

Lemma steady_vertexBuffer w w' : steady w w' -> s_vertexBuffer w' = s_vertexBuffer w.
Proof. exact (steady_field b_vertexBuffer w w'). Qed.

Lemma steady_instancing w w' : steady w w' -> s_instancing w' = s_instancing w.
Proof. exact (steady_field b_instancing w w'). Qed.

Lemma steady_useSamplerObjects w w' : steady w w' -> s_useSamplerObjects w' = s_useSamplerObjects w.
Proof. exact (steady_field b_useSamplerObjects w w'). Qed.

Lemma steady_useVertexArrayObjects w w' : steady w w' -> s_useVertexArrayObjects w' = s_useVertexArrayObjects w.
Proof. exact (steady_field b_useVertexArrayObjects w w'). Qed.

Lemma steady_maxTextureUnit w w' : steady w w' -> s_maxTextureUnit w' = s_maxTextureUnit w.
Proof. exact (steady_field b_maxTextureUnit w w'). Qed.

Lemma steady_context w w' : steady w w' -> current_context w' = current_context w.
Proof. exact (steady_field b_context w w'). Qed.

Lemma steady_hasVertexAttribLPointer w w' : steady w w' -> gl_hasVertexAttribLPointer w' = gl_hasVertexAttribLPointer w.
Proof. exact (steady_field b_hasVertexAttribLPointer w w'). Qed.

Lemma steady_hasVertexAttribIPointer w w' : steady w w' -> gl_hasVertexAttribIPointer w' = gl_hasVertexAttribIPointer w.
Proof. exact (steady_field b_hasVertexAttribIPointer w w'). Qed.

Lemma steady_textureUnits w w' :
  steady w w' -> length (s_textureUnits w') = length (s_textureUnits w).
Proof. exact (steady_field b_textureUnits w w'). Qed.

Lemma steady_draws w w' : steady w w' -> draws w' = draws w.
Proof. exact (steady_field b_draws w w'). Qed.

Lemma update_layout_returns w :
  is_Some (current_context w) ->
  (N.to_nat (s_maxTextureUnit w) <= length (s_textureUnits w))%nat ->
  (NAZARA_RENDERER_SAFE cfg = true \/ is_Some (s_vertexBuffer w)) ->
  (forall vertexBuffer,
     s_vertexBuffer w = Some vertexBuffer -> is_Some (vb_declaration vertexBuffer)) ->
  (s_instancing w = true -> is_Some (vb_declaration (s_instanceBuffer w))) ->
  exists ok w', update_layout cfg w = Some (ok, w') /\ vao_step w w'.
Proof.
  intros Hctx Hunits Hvb Hdecl Hinst. unfold update_layout.
  assert (Hend : forall w1, vao_step w w1 ->
            exists ok w', finish_update (check_flags_cleared cfg w1) = Some (ok, w')
                          /\ vao_step w w').
  { intros w1 Hstep.
    pose proof (quiet_check_flags_cleared w1) as Hq.
    assert (Hs : steady w (check_flags_cleared cfg w1))
      by (eapply steady_trans; [apply steady_vao_step, Hstep|apply steady_quiet, Hq]).
    destruct (finish_update_spec (check_flags_cleared cfg w1)) as (w' & Hrun & Hq').
    { pose proof (steady_maxTextureUnit _ _ Hs) as Hmax.
      pose proof (steady_textureUnits _ _ Hs) as Hlen.
      by rewrite Hmax, Hlen. }
    eexists _, w'. split; [exact Hrun|].
    eapply vao_step_trans; [exact Hstep|].
    eapply vao_step_trans; apply vao_step_quiet; eassumption. }
  destruct (has_flag (s_updateFlags w) Update_VAO); [|apply Hend, vao_step_refl].
  destruct (s_vertexBuffer w) as [vertexBuffer|] eqn:Hbuf.
  - destruct (update_vao_returns vertexBuffer w Hctx (Hdecl _ eq_refl) Hinst)
      as (w1 & -> & Hstep).
    by apply Hend.
  - destruct Hvb as [->|[? ?]]; [|done].
    eexists _, _. split; [reflexivity|apply vao_step_quiet, quiet_report].
Qed.

(** *** The locations read from the program *)

Lemma set_locations_spec (f : MatrixType -> Z) types : forall w,
  let w' := fold_left (fun w type => set_location type (f type) w) types w in
  trace w' = trace w
  /\ s_updateFlags w' = s_updateFlags w
  /\ (forall type, matrix (s_matrices w' type) = matrix (s_matrices w type))
  /\ (forall type,
        location (s_matrices w' type)
        = if bool_decide (type ∈ types) then f type else location (s_matrices w type)).
Proof.
  induction types as [|type' types IH]; intros w; cbv zeta.
  - by repeat split.
  - cbn [fold_left].
    destruct (IH (set_location type' (f type') w)) as (Ht & Hf & Hm & Hl).
    split; [by rewrite Ht|]. split; [by rewrite Hf|]. split.
    + intros type. by rewrite Hm, matrix_set_location.
    + intros type. rewrite Hl, location_set_location.
      destruct (decide (type ∈ types)) as [Hin|Hout].
      * rewrite !bool_decide_eq_true_2; [done|by right|done].
      * rewrite (bool_decide_eq_false_2 _ Hout). case_decide as E.
        -- subst. rewrite bool_decide_eq_true_2; [done|by left].
        -- rewrite bool_decide_eq_false_2; [done|].
           intros [?|?]%elem_of_cons; congruence.
Qed.

Lemma MatrixType_all_complete type : type ∈ MatrixType_all.
Proof. destruct type; unfold MatrixType_all; repeat constructor. Qed.

Lemma resolve_locations_spec shader w :
  let w' := resolve_locations shader w in
  trace w' = trace w
  /\ s_updateFlags w'
     = clear_flag (add_flag (s_updateFlags w) Update_Matrices) Update_Shader
  /\ (forall type, matrix (s_matrices w' type) = matrix (s_matrices w type))
  /\ (forall type,
        location (s_matrices w' type) = sh_uniformLocation shader (matrix_uniform type)).
Proof.
  cbv zeta.
  pose proof (set_locations_spec
                (fun type => sh_uniformLocation shader (matrix_uniform type))
                MatrixType_all w) as H.
  cbv beta zeta in H. unfold resolve_locations.
  generalize dependent
    (fold_left
       (fun w type =>
          set_location type (sh_uniformLocation shader (matrix_uniform type)) w)
       MatrixType_all w).
  intros w' (Ht & Hf & Hm & Hl). split; [exact Ht|]. split; [|split].
  - cbn [s_updateFlags set_s_updateFlags set_s_targetSize]. by rewrite Hf.
  - exact Hm.
  - intros type. cbn [s_matrices set_s_updateFlags set_s_targetSize].
    rewrite Hl. by rewrite bool_decide_eq_true_2 by apply MatrixType_all_complete.
Qed.

Lemma send_target_size_spec shader target w :
  let w' := send_target_size shader target w in
  sends w' = sends w
  /\ s_updateFlags w' = s_updateFlags w
  /\ s_matrices w' = s_matrices w.
Proof.
  cbv zeta. unfold send_target_size, sends.
  repeat case_match; cbn [trace s_updateFlags s_matrices set_s_targetSize emit set_trace];
    rewrite ?filter_app; cbn [filter list_filter]; repeat split;
    rewrite ?filter_app, ?app_nil_r; reflexivity.
Qed.

(** *** A reconciliation with the shader flag set *)

Lemma steady_ready w w' :
  steady w w' ->
  reconcile_ready cfg w ->
  is_Some (current_context w')
  /\ (length (s_textureUnits w') = length (s_textureUnits w))
  /\ (N.to_nat (s_maxTextureUnit w') <= length (s_textureUnits w'))%nat
  /\ (NAZARA_RENDERER_SAFE cfg = true \/ is_Some (s_vertexBuffer w'))
  /\ (forall vertexBuffer,
        s_vertexBuffer w' = Some vertexBuffer -> is_Some (vb_declaration vertexBuffer))
  /\ (s_instancing w' = true -> is_Some (vb_declaration (s_instanceBuffer w'))).
Proof.
  intros Hs (Hctx & Hd & Hunits & Hvb & Hdecl & Hinst).
  pose proof (steady_context _ _ Hs) as E1.
  pose proof (steady_textureUnits _ _ Hs) as E2.
  pose proof (steady_maxTextureUnit _ _ Hs) as E3.
  pose proof (steady_vertexBuffer _ _ Hs) as E4.
  pose proof (steady_instancing _ _ Hs) as E5.
  pose proof (steady_instanceBuffer _ _ Hs) as E6.
  by rewrite E1, E2, E3, E4, E5, E6.
Qed.

Lemma referenced_ext w w' : s_matrices w' = s_matrices w -> referenced w' = referenced w.
Proof. unfold referenced. by intros ->. Qed.

(** The block of the dirty flags when the matrices are among them. *)
Lemma update_dirty_matrices w :
  has_flag (s_updateFlags w) Update_Matrices = true ->
  reconcile_ready cfg w ->
  exists ok w',
    update_dirty cfg w = Some (ok, w')
    /\ (forall type, location (s_matrices w' type) = location (s_matrices w type))
    /\ sends w'
       = (sends w
          ++ map (fun type => Shader_SendMatrix (location (s_matrices w' type))
                                                (matrix (s_matrices w' type)))
                 (referenced w'))%list.
Proof.
  intros HM Hready. unfold update_dirty.
  assert (Htex : exists wd,
            (if has_flag (s_updateFlags w) Update_Textures
             then update_textures w else Some w) = Some wd
            /\ tex_step w wd
            /\ has_flag (s_updateFlags wd) Update_Matrices = true).
  { destruct (has_flag (s_updateFlags w) Update_Textures).
    - destruct (update_textures_spec w) as (wd & Hrun & Hstep & Hfd); [apply Hready|].
      exists wd. split; [exact Hrun|]. split; [exact Hstep|].
      rewrite Hfd. flags. by rewrite HM.
    - exists w. split; [reflexivity|]. split; [apply tex_step_refl|exact HM]. }
  destruct Htex as (wd & -> & Hstd & HMd). rewrite HMd.
  destruct (update_matrices_spec wd) as (Hste & _ & Hle & Hsende).
  set (we := update_matrices wd) in *. clearbody we.
  assert (Hsteady : steady w we).
  { eapply steady_trans; [apply steady_tex_step, Hstd|apply steady_mat_step, Hste]. }
  destruct (steady_ready _ _ Hsteady Hready) as (Hctx & _ & Hunits & Hvb & Hdecl & Hinst).
  destruct (update_layout_returns we Hctx Hunits Hvb Hdecl Hinst) as (ok & w' & Hrun & Hst').
  exists ok, w'. split; [exact Hrun|].
  pose proof (vao_step_field s_matrices _ _ (fun _ _ _ _ _ _ _ => eq_refl) Hst') as Hm'.
  pose proof (tex_step_field s_matrices _ _ (fun _ _ _ _ _ _ => eq_refl) Hstd) as Hmd.
  split.
  - intros type. by rewrite Hm', Hle, Hmd.
  - rewrite (referenced_ext _ _ Hm'), Hm', (vao_step_sends _ _ Hst'), Hsende.
    by rewrite (tex_step_sends _ _ Hstd).
Qed.

(** The steps of a reconciliation that come before the block of the dirty
    flags, when the shader is among them. *)
Definition shader_prologue (shader : Shader) (target : RenderTarget) w : World :=
  send_target_size shader target
    (resolve_locations shader
       (emit (Shader_Bind (sh_ptr shader))
          (emit (RenderTarget_EnsureTargetUpdated (rt_ptr target)) w))).

Lemma shader_prologue_spec shader target w :
  let w' := shader_prologue shader target w in
  steady w w'
  /\ s_dirtyTextureUnits w' = s_dirtyTextureUnits w
  /\ s_updateFlags w'
     = clear_flag (add_flag (s_updateFlags w) Update_Matrices) Update_Shader
  /\ sends w' = sends w
  /\ (forall type,
        location (s_matrices w' type) = sh_uniformLocation shader (matrix_uniform type)).
Proof.
  cbv zeta. unfold shader_prologue.
  set (wa := emit (Shader_Bind (sh_ptr shader))
               (emit (RenderTarget_EnsureTargetUpdated (rt_ptr target)) w)).
  assert (Hqa : quiet w wa)
    by (eapply quiet_trans; apply quiet_emit; reflexivity).
  clearbody wa.
  destruct (resolve_locations_spec shader wa) as (Htb & Hfb & _ & Hlb).
  pose proof (mat_step_resolve_locations shader wa) as Hsb.
  set (wb := resolve_locations shader wa) in *. clearbody wb.
  rewrite (quiet_field s_updateFlags _ _ (fun _ _ _ => eq_refl) Hqa) in Hfb.
  destruct (send_target_size_spec shader target wb) as (Hsc & Hfc & Hmc).
  pose proof (mat_step_send_target_size shader target wb) as Hstc.
  set (wc := send_target_size shader target wb) in *. clearbody wc.
  split; [|split; [|split; [|split]]].
  - eapply steady_trans; [apply steady_quiet, Hqa|].
    eapply steady_trans; apply steady_mat_step; eassumption.
  - rewrite (mat_step_field s_dirtyTextureUnits _ _ (fun _ _ _ _ _ _ => eq_refl) Hstc).
    rewrite (mat_step_field s_dirtyTextureUnits _ _ (fun _ _ _ _ _ _ => eq_refl) Hsb).
    apply (quiet_field s_dirtyTextureUnits _ _ (fun _ _ _ => eq_refl) Hqa).
  - by rewrite Hfc.
  - rewrite Hsc. unfold sends. rewrite Htb. apply (quiet_sends _ _ Hqa).
  - intros type. by rewrite Hmc.
Qed.

Lemma EnsureStateUpdate_shader_prologue shader target w :
  s_shader w = Some shader ->
  s_target w = Some target ->
  has_flag (s_updateFlags w) Update_Shader = true ->
  is_Some (current_context w) ->
  EnsureStateUpdate cfg w = update_dirty cfg (shader_prologue shader target w).
Proof.
  intros Hsh Htg Hflag [context Hctx].
  pose proof (proj1 (proj2 (proj2 (shader_prologue_spec shader target w)))) as Hf.
  unfold shader_prologue in *.
  unfold EnsureStateUpdate. rewrite Hsh, Htg, Hctx.
  rewrite (bool_decide_eq_false_2 (Some context = None)) by done.
  rewrite andb_false_r. cbv zeta.
  change (s_updateFlags
            (emit (Shader_Bind (sh_ptr shader))
               (emit (RenderTarget_EnsureTargetUpdated (rt_ptr target)) w)))
    with (s_updateFlags w).
  rewrite Hflag.
  rewrite bool_decide_eq_true_2; [reflexivity|].
  apply (has_flag_nonzero _ Update_Matrices). rewrite Hf. flags. reflexivity.
Qed.

Lemma EnsureStateUpdate_shader_dirty shader target w :
  s_shader w = Some shader ->
  s_target w = Some target ->
  has_flag (s_updateFlags w) Update_Shader = true ->
  reconcile_ready cfg w ->
  exists ok w',
    EnsureStateUpdate cfg w = Some (ok, w')
    /\ (forall type,
          location (s_matrices w' type) = sh_uniformLocation shader (matrix_uniform type))
    /\ sends w'
       = (sends w
          ++ map (fun type => Shader_SendMatrix (location (s_matrices w' type))
                                                (matrix (s_matrices w' type)))
                 (referenced w'))%list.
Proof.
  intros Hsh Htg Hflag Hready.
  rewrite (EnsureStateUpdate_shader_prologue shader target w Hsh Htg Hflag)
    by apply Hready.
  destruct (shader_prologue_spec shader target w) as (Hsteady & Hdirty & Hf & Hsends & Hloc).
  set (wc := shader_prologue shader target w) in *. clearbody wc.
  destruct (update_dirty_matrices wc) as (ok & w' & Hrun & Hloc' & Hsends').
  - rewrite Hf. flags. reflexivity.
  - destruct (steady_ready _ _ Hsteady Hready) as (Hctx & Hlen & Hunits & Hvb & Hdecl & Hinst).
    unfold reconcile_ready. rewrite Hdirty. split_and!; try done.
    destruct Hready as (_ & Hd & _).
    eapply Forall_impl; [exact Hd|]. intros i Hi. by rewrite Hlen.
  - exists ok, w'. split; [exact Hrun|]. split.
    + intros type. by rewrite Hloc'.
    + by rewrite Hsends', Hsends.
Qed.


(** *** A draw after the module start *)

Lemma Initialize_started env w w1 :
  s_moduleReferenceCounter w = 0%N ->
  Initialize env w = (true, w1) ->
  s_shader w1 = None /\ s_target w1 = None
  /\ s_vertexBuffer w1 = None /\ s_indexBuffer w1 = None
  /\ s_updateFlags w1 = Z.lor (Z.lor Update_Matrices Update_Shader) Update_VAO
  /\ length (s_textureUnits w1) = N.to_nat (s_maxTextureUnit w1)
  /\ s_vaos w1 = s_vaos w
  /\ s_instancing w1 = s_instancing w
  /\ s_dirtyTextureUnits w1 = s_dirtyTextureUnits w
  /\ current_context w1 = current_context w
  /\ gl_hasVertexAttribLPointer w1 = gl_hasVertexAttribLPointer w
  /\ gl_hasVertexAttribIPointer w1 = gl_hasVertexAttribIPointer w
  /\ trace w1 = trace w.
Proof.
  intros Hcount. unfold Initialize. rewrite Hcount. cbn [N.ltb N.compare].
  destruct (Utility_Initialize env); cbn [negb]; [|discriminate].
  destruct (OpenGL_Initialize env); cbn [negb]; [|discriminate].
  cbv zeta.
  destruct (fullscreenQuadBuffer_Fill env); cbn [negb]; [|discriminate].
  destruct (first_failure (Initialize_steps env)); [discriminate|].
  intros [= <-]. unfold Initialize_instanceBuffer.
  set (w0 := set_s_moduleReferenceCounter (UInt_incr 0) w).
  destruct (s_capabilities (Initialize_state env w0) RendererCap_Instancing);
    [destruct (instanceBuffer_Reset env)|];
    cbn [Initialize_state s_shader s_target s_vertexBuffer s_indexBuffer s_updateFlags
         s_textureUnits s_maxTextureUnit s_vaos s_instancing s_dirtyTextureUnits
         current_context gl_hasVertexAttribLPointer gl_hasVertexAttribIPointer trace
         set_s_instanceBuffer set_s_capabilities report set_log
         set_s_moduleReferenceCounter w0];
    rewrite length_resize; done.
Qed.

Lemma draws_emit c w :
  draws (emit c w) = (draws w ++ if is_draw c then [c] else [])%list.
Proof.
  unfold draws. cbn [trace emit set_trace]. rewrite filter_app. f_equal.
  destruct (is_draw c) eqn:E.
  - by rewrite filter_cons_True, filter_nil by done.
  - rewrite filter_cons_False, filter_nil; [done|by rewrite E].
Qed.

Lemma has_unsupported_ext d js w w' :
  gl_hasVertexAttribLPointer w' = gl_hasVertexAttribLPointer w ->
  gl_hasVertexAttribIPointer w' = gl_hasVertexAttribIPointer w ->
  has_unsupported d js w' = has_unsupported d js w.
Proof.
  intros HL HI. unfold has_unsupported. apply existsb_pointwise. intros j.
  f_equal. f_equal.
  destruct (vd_component d j).1.2; cbn [IsComponentTypeSupported]; congruence.
Qed.

Lemma build_fails_ext d i w w' :
  gl_hasVertexAttribLPointer w' = gl_hasVertexAttribLPointer w ->
  gl_hasVertexAttribIPointer w' = gl_hasVertexAttribIPointer w ->
  build_fails cfg d i w' = build_fails cfg d i w.
Proof.
  intros HL HI. unfold build_fails.
  rewrite (has_unsupported_ext d _ w w') by done.
  destruct i; [|done]. by rewrite (has_unsupported_ext _ _ w w').
Qed.

Lemma texture_stage_spec w :
  Forall (fun i => (i < length (s_textureUnits w))%nat) (s_dirtyTextureUnits w) ->
  exists wd,
    (if has_flag (s_updateFlags w) Update_Textures
     then update_textures w else Some w) = Some wd
    /\ tex_step w wd
    /\ has_flag (s_updateFlags wd) Update_Matrices
       = has_flag (s_updateFlags w) Update_Matrices
    /\ has_flag (s_updateFlags wd) Update_VAO = has_flag (s_updateFlags w) Update_VAO.
Proof.
  intros Hdirty. destruct (has_flag (s_updateFlags w) Update_Textures).
  - destruct (update_textures_spec w Hdirty) as (wd & Hrun & Hstep & Hfd).
    exists wd. split; [exact Hrun|]. split; [exact Hstep|].
    rewrite Hfd. split; flags; reflexivity.
  - exists w. split; [reflexivity|]. split; [apply tex_step_refl|by split].
Qed.

Lemma finish_update_succeeds w :
  (N.to_nat (s_maxTextureUnit w) <= length (s_textureUnits w))%nat ->
  (s_useVertexArrayObjects w = true -> s_currentVAO w <> 0%N) ->
  exists w', finish_update (check_flags_cleared cfg w) = Some (true, w') /\ quiet w w'.
Proof.
  intros Hunits Hcur.
  pose proof (quiet_check_flags_cleared w) as Hq.
  destruct (finish_update_spec (check_flags_cleared cfg w)) as (w' & Hrun & Hq').
  { rewrite (quiet_field s_maxTextureUnit _ _ (fun _ _ _ => eq_refl) Hq).
    by rewrite (quiet_field s_textureUnits _ _ (fun _ _ _ => eq_refl) Hq). }
  exists w'. split; [|by eapply quiet_trans].
  rewrite Hrun. f_equal. f_equal.
  rewrite (quiet_field s_useVertexArrayObjects _ _ (fun _ _ _ => eq_refl) Hq).
  rewrite (quiet_field s_currentVAO _ _ (fun _ _ _ => eq_refl) Hq).
  destruct (s_useVertexArrayObjects w); [|done].
  cbn [andb]. apply negb_true_iff, N.eqb_neq. by apply Hcur.
Qed.

(** The vertex layout stage for a vertex buffer met for the first time,
    whose declaration the backend can take. *)
Lemma update_vao_first context vertexBuffer d w :
  Driver_fresh Drv ->
  current_context w = Some context ->
  vb_declaration vertexBuffer = Some d ->
  s_instancing w = false ->
  context_vaoMap context w !! current_key vertexBuffer w = None ->
  build_fails cfg d None w = false ->
  exists w',
    update_vao cfg vertexBuffer w = Some w'
    /\ vao_step w w'
    /\ (s_useVertexArrayObjects w = true -> s_currentVAO w' <> 0%N).
Proof.
  intros Hfresh Hctx Hd Hinst Hmiss Hbuild.
  assert (Hdecl : instancing_declaration w = None)
    by (unfold instancing_declaration; by rewrite Hinst).
  destruct (s_useVertexArrayObjects w) eqn:Huse.
  - assert (Hready : lookup_ready context vertexBuffer w).
    { unfold lookup_ready. rewrite Huse, Hctx, Hd, Hinst.
      split_and!; [done|done|eauto|done]. }
    destruct (update_vao_miss context vertexBuffer d w Hready Hd Hmiss)
      as (w' & Hrun & Hstep & _ & Hcur & _).
    exists w'. split; [exact Hrun|]. split; [exact Hstep|]. intros _.
    rewrite Hcur, Hdecl, Hbuild. apply Hfresh.
  - unfold update_vao. rewrite Huse.
    destruct (program_vao_spec vertexBuffer d w Hd) as (w' & -> & Hq & _).
    { rewrite Hinst. discriminate. }
    exists w'. split; [reflexivity|]. split; [by apply vao_step_quiet|discriminate].
Qed.

Lemma update_layout_first context vertexBuffer d w :
  Driver_fresh Drv ->
  has_flag (s_updateFlags w) Update_VAO = true ->
  (N.to_nat (s_maxTextureUnit w) <= length (s_textureUnits w))%nat ->
  current_context w = Some context ->
  s_vertexBuffer w = Some vertexBuffer ->
  vb_declaration vertexBuffer = Some d ->
  s_instancing w = false ->
  context_vaoMap context w !! current_key vertexBuffer w = None ->
  build_fails cfg d None w = false ->
  exists w', update_layout cfg w = Some (true, w') /\ steady w w'.
Proof.
  intros Hfresh HV Hunits Hctx Hbuf Hd Hinst Hmiss Hbuild.
  unfold update_layout. rewrite HV, Hbuf.
  destruct (update_vao_first context vertexBuffer d w)
    as (w1 & -> & Hstep & Hcur); try done.
  pose proof (steady_vao_step _ _ Hstep) as Hs.
  pose proof (steady_maxTextureUnit _ _ Hs) as Hmax.
  pose proof (steady_textureUnits _ _ Hs) as Hlen.
  pose proof (steady_useVertexArrayObjects _ _ Hs) as Huse.
  destruct (finish_update_succeeds w1) as (w' & Hrun & Hq).
  - by rewrite Hmax, Hlen.
  - rewrite Huse. exact Hcur.
  - exists w'. split; [exact Hrun|].
    eapply steady_trans; [exact Hs|by apply steady_quiet].
Qed.

(** The block of the dirty flags for such a vertex buffer. *)
Lemma update_dirty_first_layout context vertexBuffer d w :
  Driver_fresh Drv ->
  has_flag (s_updateFlags w) Update_Matrices = true ->
  has_flag (s_updateFlags w) Update_VAO = true ->
  reconcile_ready cfg w ->
  current_context w = Some context ->
  s_vertexBuffer w = Some vertexBuffer ->
  vb_declaration vertexBuffer = Some d ->
  s_instancing w = false ->
  context_vaoMap context w !! current_key vertexBuffer w = None ->
  build_fails cfg d None w = false ->
  exists w', update_dirty cfg w = Some (true, w') /\ steady w w'.
Proof.
  intros Hfresh HM HV Hready Hctx Hbuf Hd Hinst Hmiss Hbuild. unfold update_dirty.
  destruct (texture_stage_spec w) as (wd & -> & Hstd & HMd & HVd); [apply Hready|].
  rewrite HM in HMd. rewrite HV in HVd. rewrite HMd.
  destruct (update_matrices_spec wd) as (Hste & Hfe & _).
  set (we := update_matrices wd) in *. clearbody we.
  assert (HVe : has_flag (s_updateFlags we) Update_VAO = true)
    by (rewrite Hfe; flags; by rewrite HVd).
  assert (Hsteady : steady w we).
  { eapply steady_trans; [apply steady_tex_step, Hstd|apply steady_mat_step, Hste]. }
  destruct (steady_ready _ _ Hsteady Hready) as (_ & _ & Hunits & _).
  pose proof (steady_vertexBuffer _ _ Hsteady) as Ebuf.
  pose proof (steady_context _ _ Hsteady) as Ectx.
  pose proof (steady_instancing _ _ Hsteady) as Einst.
  pose proof (steady_hasVertexAttribLPointer _ _ Hsteady) as EL.
  pose proof (steady_hasVertexAttribIPointer _ _ Hsteady) as EI.
  assert (Hkey : current_key vertexBuffer we = current_key vertexBuffer w).
  { rewrite (mat_step_field (current_key vertexBuffer) _ _
               (fun _ _ _ _ _ _ => eq_refl) Hste).
    apply (tex_step_field (current_key vertexBuffer) _ _
             (fun _ _ _ _ _ _ => eq_refl) Hstd). }
  assert (Hmap : context_vaoMap context we = context_vaoMap context w).
  { unfold context_vaoMap.
    rewrite (mat_step_field s_vaos _ _ (fun _ _ _ _ _ _ => eq_refl) Hste).
    by rewrite (tex_step_field s_vaos _ _ (fun _ _ _ _ _ _ => eq_refl) Hstd). }
  destruct (update_layout_first context vertexBuffer d we Hfresh HVe Hunits)
    as (w' & Hrun & Hsteady').
  - by rewrite Ectx.
  - by rewrite Ebuf.
  - exact Hd.
  - by rewrite Einst.
  - by rewrite Hmap, Hkey.
  - by rewrite (build_fails_ext d None w we).
  - exists w'. split; [exact Hrun|]. by eapply steady_trans.
Qed.

(** A draw with a program, a target and such a vertex buffer bound issues
    its draw command and no other. *)
Lemma DrawPrimitives_first_layout context shader target vertexBuffer d
    mode firstVertex vertexCount w :
  Driver_fresh Drv ->
  (mode <= PrimitiveMode_Max cfg)%N ->
  reconcile_ready cfg w ->
  current_context w = Some context ->
  s_shader w = Some shader ->
  s_target w = Some target ->
  has_flag (s_updateFlags w) Update_Shader = true ->
  has_flag (s_updateFlags w) Update_VAO = true ->
  s_vertexBuffer w = Some vertexBuffer ->
  vb_declaration vertexBuffer = Some d ->
  s_instancing w = false ->
  context_vaoMap context w !! current_key vertexBuffer w = None ->
  build_fails cfg d None w = false ->
  exists w',
    DrawPrimitives cfg mode firstVertex vertexCount w = Some w'
    /\ draws w' = (draws w ++ [glDrawArrays mode firstVertex vertexCount])%list.
Proof.
  intros Hfresh Hmode Hready Hctx Hsh Htg HS HV Hbuf Hd Hinst Hmiss Hbuild.
  unfold DrawPrimitives. rewrite Hctx.
  rewrite (bool_decide_eq_false_2 (Some context = None)) by done.
  rewrite andb_false_r.
  replace (PrimitiveMode_Max cfg <? mode)%N with false
    by (symmetry; apply N.ltb_ge, Hmode).
  rewrite andb_false_r.
  replace (EnableInstancing false w) with w
    by (unfold EnableInstancing; by rewrite Hinst).
  rewrite (EnsureStateUpdate_shader_prologue shader target w Hsh Htg HS)
    by (by rewrite Hctx).
  destruct (shader_prologue_spec shader target w) as (Hsteady & Hdirty & Hf & _).
  set (wc := shader_prologue shader target w) in *.
  assert (Hmap : context_vaoMap context wc = context_vaoMap context w).
  { unfold wc, shader_prologue.
    rewrite (mat_step_field (context_vaoMap context) _ _
               (fun _ _ _ _ _ _ => eq_refl) (mat_step_send_target_size _ _ _)).
    rewrite (mat_step_field (context_vaoMap context) _ _
               (fun _ _ _ _ _ _ => eq_refl) (mat_step_resolve_locations _ _)).
    reflexivity. }
  assert (Hkey : current_key vertexBuffer wc = current_key vertexBuffer w).
  { unfold wc, shader_prologue.
    rewrite (mat_step_field (current_key vertexBuffer) _ _
               (fun _ _ _ _ _ _ => eq_refl) (mat_step_send_target_size _ _ _)).
    rewrite (mat_step_field (current_key vertexBuffer) _ _
               (fun _ _ _ _ _ _ => eq_refl) (mat_step_resolve_locations _ _)).
    reflexivity. }
  clearbody wc.
  destruct (steady_ready _ _ Hsteady Hready) as (Hctx' & Hlen & Hunits & Hvb & Hdecl & Hinst').
  pose proof (steady_vertexBuffer _ _ Hsteady) as Ebuf.
  pose proof (steady_context _ _ Hsteady) as Ectx.
  pose proof (steady_instancing _ _ Hsteady) as Einst.
  pose proof (steady_hasVertexAttribLPointer _ _ Hsteady) as EL.
  pose proof (steady_hasVertexAttribIPointer _ _ Hsteady) as EI.
  destruct (update_dirty_first_layout context vertexBuffer d wc)
    as (w' & -> & Hsteady'); try done.
  - rewrite Hf. flags. reflexivity.
  - rewrite Hf. flags. by rewrite HV.
  - unfold reconcile_ready. rewrite Hdirty. split_and!; try done.
    destruct Hready as (_ & Hdu & _).
    eapply Forall_impl; [exact Hdu|]. intros i Hi. by rewrite Hlen.
  - congruence.
  - congruence.
  - congruence.
  - by rewrite Hmap, Hkey.
  - by rewrite (build_fails_ext d None w wc).
  - eexists. split; [reflexivity|].
    pose proof (steady_draws _ _ (steady_trans _ _ _ Hsteady Hsteady')) as Edraws.
    set (w1 := emit (glDrawArrays mode firstVertex vertexCount) w').
    assert (E1 : draws w1 = (draws w ++ [glDrawArrays mode firstVertex vertexCount])%list)
      by (unfold w1; by rewrite draws_emit, Edraws).
    clearbody w1. destruct (s_useVertexArrayObjects w1); [|exact E1].
    rewrite draws_emit. cbn [is_draw]. by rewrite app_nil_r.
Qed.

(** A draw without a program returns after two errors and no command. *)
Lemma DrawPrimitives_no_shader mode firstVertex vertexCount w :
  NAZARA_RENDERER_SAFE cfg = true ->
  (mode <= PrimitiveMode_Max cfg)%N ->
  is_Some (current_context w) ->
  s_shader w = None ->
  exists w',
    DrawPrimitives cfg mode firstVertex vertexCount w = Some w'
    /\ trace w' = trace w
    /\ log w' = (log w ++ [NazaraError (Msg "No shader");
                           NazaraError (MsgFailedToUpdateStates (Msg "No shader"))])%list.
Proof.
  intros Hsafe Hmode [context Hctx] Hsh. unfold DrawPrimitives. rewrite Hctx.
  rewrite (bool_decide_eq_false_2 (Some context = None)) by done.
  rewrite andb_false_r.
  replace (PrimitiveMode_Max cfg <? mode)%N with false
    by (symmetry; apply N.ltb_ge, Hmode).
  rewrite andb_false_r.
  set (w0 := EnableInstancing false w).
  assert (H0 : current_context w0 = Some context /\ s_shader w0 = None
               /\ trace w0 = trace w /\ log w0 = log w).
  { unfold w0, EnableInstancing. by case_match. }
  clearbody w0. destruct H0 as (Hctx0 & Hsh0 & Ht0 & Hl0).
  unfold EnsureStateUpdate. rewrite Hctx0, Hsh0, Hsafe.
  rewrite (bool_decide_eq_false_2 (Some context = None)) by done.
  rewrite andb_false_r.
  eexists. split; [reflexivity|].
  cbn [trace log report set_log]. split; [exact Ht0|].
  rewrite Hl0. unfold Error_GetLastError. rewrite last_snoc.
  cbn [entry_message]. by rewrite <- app_assoc.
Qed.

(** *** The setters on a state that tracks nothing *)

Lemma SetTarget_first target w :
  s_target w = None ->
  rt_renderable target = true ->
  rt_activate target = true ->
  SetTarget cfg (Some target) w
  = (true, emit (OpenGL_SetTarget (Some (rt_ptr target)))
             (set_s_target (Some target)
                (emit (RenderTarget_Activate (rt_ptr target)) w))).
Proof.
  intros Hnone Hrenderable Hactivate. unfold SetTarget, same_ptr.
  rewrite Hnone, Hrenderable, Hactivate. cbn [negb]. by rewrite andb_false_r.
Qed.

Lemma SetShader_new shader w :
  sh_valid shader = true ->
  sh_linked shader = true ->
  same_ptr sh_ptr (s_shader w) (Some shader) = false ->
  SetShader cfg (Some shader) w
  = set_s_updateFlags (add_flag (s_updateFlags w) Update_Shader)
      (set_s_shader (Some shader) w).
Proof.
  intros Hvalid Hlinked Hnew. unfold SetShader.
  rewrite Hvalid, Hlinked, Hnew. cbn [negb orb]. by rewrite andb_false_r.
Qed.

Lemma SetVertexBuffer_new vertexBuffer w :
  vb_hardware vertexBuffer = true ->
  same_ptr vb_ptr (s_vertexBuffer w) (Some vertexBuffer) = false ->
  SetVertexBuffer cfg (Some vertexBuffer) w
  = set_s_updateFlags (add_flag (s_updateFlags w) Update_VAO)
      (set_s_vertexBuffer (Some vertexBuffer) w).
Proof.
  intros Hhardware Hnew. unfold SetVertexBuffer.
  rewrite Hhardware, Hnew. cbn [negb]. rewrite andb_false_r.
  by rewrite bool_decide_eq_true_2 by eauto.
Qed.

Lemma context_vaoMap_empty context w : s_vaos w = ∅ -> context_vaoMap context w = ∅.
Proof. intros H. unfold context_vaoMap. by rewrite H, lookup_empty. Qed.

(** C7.  From the start of the program, once [Initialize] has returned
    true, [SetTarget], [SetShader] and [SetVertexBuffer] followed by
    [DrawPrimitives(TriangleStrip, 0, 4)] return with that draw command as
    the one draw issued since the start.  Without the call to [SetShader]
    the draw returns after reporting that no shader is bound and that the
    states could not be updated, and the trace of commands is the one it
    found: no command reached the backend. *)
Theorem DrawPrimitives_after_Initialize env target shader vertexBuffer d context w w1 :
  Driver_fresh Drv ->
  NAZARA_RENDERER_SAFE cfg = true ->
  (PrimitiveMode_TriangleStrip cfg <= PrimitiveMode_Max cfg)%N ->
  at_start w ->
  current_context w = Some context ->
  Initialize env w = (true, w1) ->
  rt_renderable target = true ->
  rt_activate target = true ->
  sh_valid shader = true ->
  sh_linked shader = true ->
  vb_hardware vertexBuffer = true ->
  vb_declaration vertexBuffer = Some d ->
  build_fails cfg d None w = false ->
  let w2 := (SetTarget cfg (Some target) w1).2 in
  let draw := DrawPrimitives cfg (PrimitiveMode_TriangleStrip cfg) 0 4 in
  (exists w',
     draw (SetVertexBuffer cfg (Some vertexBuffer) (SetShader cfg (Some shader) w2))
     = Some w'
     /\ draws w' = (draws w ++ [glDrawArrays (PrimitiveMode_TriangleStrip cfg) 0 4])%list)
  /\ (exists w',
        draw (SetVertexBuffer cfg (Some vertexBuffer) w2) = Some w'
        /\ trace w' = trace (SetVertexBuffer cfg (Some vertexBuffer) w2)
        /\ log w'
           = (log (SetVertexBuffer cfg (Some vertexBuffer) w2)
              ++ [NazaraError (Msg "No shader");
                  NazaraError (MsgFailedToUpdateStates (Msg "No shader"))])%list).
Proof.
  intros Hfresh Hsafe Hmode (Hcount & Hvaos & Hinst & Hdirty) Hctx Hinit
    Hrenderable Hactivate Hvalid Hlinked Hhardware Hd Hbuild.
  destruct (Initialize_started env w w1 Hcount Hinit)
    as (Hsh1 & Htg1 & Hvb1 & _ & Hf1 & Hlen1 & Hvaos1 & Hinst1 & Hdirty1 & Hctx1
        & HL1 & HI1 & Htr1).
  cbv zeta. rewrite (SetTarget_first target w1 Htg1 Hrenderable Hactivate).
  cbn [snd].
  set (w2 := emit (OpenGL_SetTarget (Some (rt_ptr target)))
               (set_s_target (Some target)
                  (emit (RenderTarget_Activate (rt_ptr target)) w1))).
  assert (H2 : s_shader w2 = None /\ s_target w2 = Some target
               /\ s_vertexBuffer w2 = None
               /\ s_updateFlags w2 = s_updateFlags w1
               /\ s_textureUnits w2 = s_textureUnits w1
               /\ s_maxTextureUnit w2 = s_maxTextureUnit w1
               /\ s_vaos w2 = s_vaos w1
               /\ s_instancing w2 = s_instancing w1
               /\ s_dirtyTextureUnits w2 = s_dirtyTextureUnits w1
               /\ current_context w2 = current_context w1
               /\ gl_hasVertexAttribLPointer w2 = gl_hasVertexAttribLPointer w1
               /\ gl_hasVertexAttribIPointer w2 = gl_hasVertexAttribIPointer w1
               /\ draws w2 = draws w1)
    by (unfold w2; split_and!; try done;
        rewrite draws_emit; cbn [is_draw]; rewrite app_nil_r;
        change (draws (emit (RenderTarget_Activate (rt_ptr target)) w1) = draws w1);
        rewrite draws_emit; cbn [is_draw]; by rewrite app_nil_r).
  clearbody w2.
  destruct H2 as (Hsh2 & Htg2 & Hvb2 & Hf2 & Hu2 & Hmax2 & Hvaos2 & Hinst2 & Hdirty2
                  & Hctx2 & HL2 & HI2 & Hdraws2).
  split.
  - rewrite (SetShader_new shader w2 Hvalid Hlinked)
      by (unfold same_ptr; by rewrite Hsh2).
    set (w3 := set_s_updateFlags (add_flag (s_updateFlags w2) Update_Shader)
                 (set_s_shader (Some shader) w2)).
    rewrite (SetVertexBuffer_new vertexBuffer w3 Hhardware)
      by (unfold same_ptr; cbn [w3 s_vertexBuffer set_s_updateFlags set_s_shader];
          by rewrite Hvb2).
    set (w4 := set_s_updateFlags (add_flag (s_updateFlags w3) Update_VAO)
                 (set_s_vertexBuffer (Some vertexBuffer) w3)).
    assert (H4 : s_shader w4 = Some shader /\ s_target w4 = s_target w2
                 /\ s_vertexBuffer w4 = Some vertexBuffer
                 /\ s_updateFlags w4
                    = add_flag (add_flag (s_updateFlags w2) Update_Shader) Update_VAO
                 /\ s_textureUnits w4 = s_textureUnits w2
                 /\ s_maxTextureUnit w4 = s_maxTextureUnit w2
                 /\ s_vaos w4 = s_vaos w2
                 /\ s_instancing w4 = s_instancing w2
                 /\ s_dirtyTextureUnits w4 = s_dirtyTextureUnits w2
                 /\ current_context w4 = current_context w2
                 /\ gl_hasVertexAttribLPointer w4 = gl_hasVertexAttribLPointer w2
                 /\ gl_hasVertexAttribIPointer w4 = gl_hasVertexAttribIPointer w2
                 /\ draws w4 = draws w2)
      by (by split_and!).
    clearbody w4. clear w3.
    destruct H4 as (Hsh4 & Htg4 & Hvb4 & Hf4 & Hu4 & Hmax4 & Hvaos4 & Hinst4 & Hdirty4
                    & Hctx4 & HL4 & HI4 & Hdraws4).
    destruct (DrawPrimitives_first_layout context shader target vertexBuffer d
                (PrimitiveMode_TriangleStrip cfg) 0 4 w4 Hfresh Hmode)
      as (w' & Hrun & Hdraws).
    + unfold reconcile_ready.
      rewrite Hctx4, Hctx2, Hctx1, Hctx, Hdirty4, Hdirty2, Hdirty1, Hdirty,
        Hu4, Hu2, Hmax4, Hmax2, Hlen1, Hvb4, Hinst4, Hinst2, Hinst1, Hinst.
      split_and!; [eauto|constructor|lia|eauto| |discriminate].
      intros ? [= <-]. eauto.
    + by rewrite Hctx4, Hctx2, Hctx1.
    + exact Hsh4.
    + by rewrite Htg4.
    + rewrite Hf4. flags. reflexivity.
    + rewrite Hf4. flags. reflexivity.
    + exact Hvb4.
    + exact Hd.
    + by rewrite Hinst4, Hinst2, Hinst1.
    + rewrite (context_vaoMap_empty context w4); [apply lookup_empty|].
      by rewrite Hvaos4, Hvaos2, Hvaos1.
    + rewrite (build_fails_ext d None w w4); [exact Hbuild|congruence|congruence].
    + exists w'. split; [exact Hrun|].
      rewrite Hdraws, Hdraws4, Hdraws2. unfold draws. by rewrite Htr1.
  - rewrite (SetVertexBuffer_new vertexBuffer w2 Hhardware)
      by (unfold same_ptr; by rewrite Hvb2).
    apply (DrawPrimitives_no_shader _ _ _ _ Hsafe Hmode).
    + cbn [current_context set_s_updateFlags set_s_vertexBuffer].
      rewrite Hctx2, Hctx1, Hctx. eauto.
    + exact Hsh2.
Qed.

End Reconciliation.

(** ** Runs on the model *)
Module Runs.

Import Model.

Local Open Scope N_scope.

Lemma foldr_max_le (names : list GLuint) (n : GLuint) :
  n ∈ names -> n <= foldr N.max 0 names.
Proof.
  induction names as [|m names IH]; intros Hin; [by apply elem_of_nil in Hin|].
  cbn [foldr]. apply elem_of_cons in Hin as [->|Hin]; [lia|].
  specialize (IH Hin). lia.
Qed.

Lemma next_name_fresh : Driver_fresh next_name.
Proof.
  intros names. cbn [glGenVertexArrays_name next_name]. split; [|lia].
  intros Hin%foldr_max_le. lia.
Qed.

Lemma SetMatrix_View_skips_WorldView_run :
  let w' := SetMatrix MatrixType_View (diagonal 1 3 1 1)%Q world_initialized in
  updated (s_matrices world_initialized MatrixType_WorldView) = true
  /\ updated (s_matrices w' MatrixType_WorldView) = true
  /\ updated (s_matrices w' MatrixType_InvWorldView) = true
  /\ updated (s_matrices w' MatrixType_World) = false.
Proof. vm_compute. repeat split. Qed.

Lemma GetMatrix_ViewProj_latest_witness :
  (GetMatrix MatrixType_ViewProj (SetMatrices calls_View_Projection world_initialized)).1
  = Concatenate (diagonal 1 3 1 1)%Q (diagonal 5 1 1 1)%Q.
Proof.
  apply (GetMatrix_ViewProj_latest calls_View_Projection world_initialized).
  - intros _. vm_compute. reflexivity.
  - unfold calls_View_Projection. repeat (constructor; [cbn; auto|]). constructor.
Defined.

Lemma UpdateMatrix_singular_keeps_inverse_witness :
  let w' := UpdateMatrix MatrixType_InvView world_singular in
  matrix (s_matrices w' MatrixType_InvView)
  = matrix (s_matrices world_singular MatrixType_InvView)
  /\ updated (s_matrices w' MatrixType_InvView) = true
  /\ (exists text,
        log w' = (log world_singular ++ [NazaraWarning (Msg text)])%list)
  /\ (GetMatrix MatrixType_InvView world_singular).1
     = matrix (s_matrices world_singular MatrixType_InvView)
  /\ (GetMatrix MatrixType_InvView w').1
     = matrix (s_matrices world_singular MatrixType_InvView).
Proof.
  apply (UpdateMatrix_singular_keeps_inverse MatrixType_InvView MatrixType_View
           world_singular).
  - reflexivity.
  - vm_compute. reflexivity.
Defined.

Ltac world_ready :=
  split_and!;
  [ by vm_compute | by vm_compute | by eexists
  | let H := fresh in intros H; vm_compute in H; discriminate ].



Lemma update_vao_unsupported_component_witness :
  exists w',
    update_vao cfg V_quaternion (world_bound (Some S) V_quaternion) = Some w'
    /\ (exists e,
          context_vaoMap 100%positive w'
          !! current_key V_quaternion (world_bound (Some S) V_quaternion) = Some e
          /\ vao e = 0%N)
    /\ s_currentVAO w' = 0%N
    /\ glDeleteVertexArrays
         (glGenVertexArrays_name
            (gl_vertexArrays (world_bound (Some S) V_quaternion) !!! 100%positive))
       ∈ trace w'
    /\ (exists p j type, NazaraError (MsgInvalidDeclaration p j type) ∈ log w')
    /\ has_flag (s_updateFlags w') Update_VAO = false
    /\ finish_update (check_flags_cleared cfg w')
       = Some (false, report (NazaraError (Msg "Failed to create VAO")) w').
Proof.
  apply (update_vao_unsupported_component cfg 100%positive V_quaternion
           declaration_Quaternion (world_bound (Some S) V_quaternion)).
  - world_ready.
  - reflexivity.
  - by vm_compute.
  - by vm_compute.
Defined.

(** After a draw with the quaternion declaration the cache still holds an
    entry under the key of the draw, with the null name. *)
Lemma unsupported_component_entry_stays :
  match DrawPrimitives cfg 4 0 4 (world_bound (Some S) V_quaternion) with
  | Some w' =>
      vao <$> (context_vaoMap 100%positive w'
               !! current_key V_quaternion (world_bound (Some S) V_quaternion))
  | None => None
  end = Some 0%N.
Proof. vm_compute. reflexivity. Qed.

Lemma DrawPrimitives_after_Initialize_witness :
  let w2 := (SetTarget cfg (Some T) world_initialized).2 in
  let draw := DrawPrimitives cfg (PrimitiveMode_TriangleStrip cfg) 0 4 in
  (exists w',
     draw (SetVertexBuffer cfg (Some V) (SetShader cfg (Some S) w2)) = Some w'
     /\ draws w'
        = (draws world_static ++ [glDrawArrays (PrimitiveMode_TriangleStrip cfg) 0 4])%list)
  /\ (exists w',
        draw (SetVertexBuffer cfg (Some V) w2) = Some w'
        /\ trace w' = trace (SetVertexBuffer cfg (Some V) w2)
        /\ log w'
           = (log (SetVertexBuffer cfg (Some V) w2)
              ++ [NazaraError (Msg "No shader");
                  NazaraError (MsgFailedToUpdateStates (Msg "No shader"))])%list).
Proof.
  apply (DrawPrimitives_after_Initialize cfg env T S V declaration_XYZ_Color
           100%positive world_static world_initialized).
  - exact next_name_fresh.
  - reflexivity.
  - by vm_compute.
  - by vm_compute.
  - reflexivity.
  - by vm_compute.
  - reflexivity.
  - reflexivity.
  - reflexivity.
  - reflexivity.
  - reflexivity.
  - reflexivity.
  - by vm_compute.
Defined.

Lemma DrawPrimitivesInstanced_over_capacity_witness :
  exists m,
    DrawPrimitivesInstanced cfg 5 4 0 4 world_initialized
    = Some (report (NazaraError m) world_initialized)
    /\ trace (report (NazaraError m) world_initialized) = trace world_initialized
    /\ set_log (log world_initialized) (report (NazaraError m) world_initialized)
       = world_initialized.
Proof.
  apply (DrawPrimitivesInstanced_over_capacity cfg 5 4 0 4 world_initialized).
  - reflexivity.
  - by vm_compute.
Defined.

Lemma world_drawn_ready : reconcile_ready cfg world_drawn.
Proof.
  split_and!.
  - vm_compute. by eexists.
  - vm_compute. constructor.
  - vm_compute. lia.
  - by left.
  - intros vertexBuffer H. vm_compute in H. injection H as <-. by eexists.
  - intros H. vm_compute in H. discriminate.
Qed.


(** The matrices such a reconciliation sends: the one slot the new program
    declares. *)
Lemma EnsureStateUpdate_resends_matrices_run :
  match EnsureStateUpdate cfg (SetShader cfg (Some S') world_drawn) with
  | Some (ok, w') => Some (ok, drop (length (sends world_drawn)) (sends w'))
  | None => None
  end = Some (true, [Shader_SendMatrix 5%Z identity]).
Proof. vm_compute. reflexivity. Qed.

(** With no index buffer tracked, the null pointer leaves the flag of the
    vertex layout clear. *)
Lemma SetIndexBuffer_null_leaves_clean :
  s_indexBuffer world_drawn = None
  /\ has_flag (s_updateFlags world_drawn) Update_VAO = false
  /\ has_flag (s_updateFlags (SetIndexBuffer cfg None world_drawn)) Update_VAO = false.
Proof. vm_compute. repeat split. Qed.

End Runs.

(** * Further properties of the module *)

Section Lifecycle.

Context {Matrix4f : Type} {MOps : Matrix4Ops Matrix4f}.
Context {RenderStates : Type}.
Context {Drv : Driver}.

Implicit Types (w : @World Matrix4f RenderStates).
Implicit Types (env : @InitEnv RenderStates).

(** *** Deletions handed to the backend *)

(** A run of [OpenGL::DeleteVertexArray] calls appends one command per
    call and, besides, only edits the names in use. *)
Lemma delete_calls_spec (ds : list (Context * GLuint)) : forall w,
  exists names,
    fold_left (fun w d => OpenGL_DeleteVertexArray_call d.1 d.2 w) ds w
    = set_gl_vertexArrays names (set_trace (trace w ++ deletions ds)%list w).
Proof.
  induction ds as [|d ds IH]; intros w.
  - exists (gl_vertexArrays w). cbn [fold_left deletions map].
    rewrite app_nil_r. by destruct w.
  - cbn [fold_left]. destruct (IH (OpenGL_DeleteVertexArray_call d.1 d.2 w)) as [names ->].
    exists names. unfold OpenGL_DeleteVertexArray_call, drop_vertex_array, deletions.
    case_match; destruct w; cbn; by rewrite <- app_assoc.
Qed.

Lemma Uninitialize_last w :
  s_moduleReferenceCounter w = 1%N ->
  let w' := Uninitialize w in
  s_moduleReferenceCounter w' = 0%N
  /\ s_vaos w' = ∅
  /\ s_textureUnits w' = []
  /\ log w' = log w
  /\ trace w' = (trace w ++ deletions (evicted (fun _ => true) w))%list.
Proof.
  intros Hcount. cbv zeta. unfold Uninitialize. rewrite Hcount.
  rewrite bool_decide_eq_false_2 by (intros H; by apply H).
  set (w1 := set_s_instanceBuffer _ _).
  assert (Hev : evicted (fun _ => true) w1 = evicted (fun _ => true) w) by reflexivity.
  assert (Htr : trace w1 = trace w) by reflexivity.
  assert (Hlog : log w1 = log w) by reflexivity.
  assert (Hc : s_moduleReferenceCounter w1 = 0%N) by reflexivity.
  assert (Hu : s_textureUnits w1 = []) by reflexivity.
  clearbody w1. rewrite Hev.
  destruct (delete_calls_spec (evicted (fun _ => true) w) w1) as [names ->].
  cbn [s_moduleReferenceCounter s_vaos s_textureUnits log trace set_s_vaos
       set_gl_vertexArrays set_trace].
  by rewrite Htr.
Qed.

Lemma UInt_incr_small n : (n < UINT_MAX)%N -> UInt_incr n = (n + 1)%N.
Proof. intros Hn. unfold UInt_incr, UINT_MAX in *. apply N.mod_small. lia. Qed.

(** At [UINT_MAX] users the counter wraps: [Initialize] answers true and
    leaves a module that counts no user, which [Uninitialize] no longer
    releases. *)
Lemma Initialize_counter_wraps env w :
  s_moduleReferenceCounter w = UINT_MAX ->
  Initialize env w = (true, set_s_moduleReferenceCounter 0%N w)
  /\ Uninitialize (set_s_moduleReferenceCounter 0%N w)
     = set_s_moduleReferenceCounter 0%N w.
Proof.
  intros Hcount. unfold Initialize. rewrite Hcount. split; reflexivity.
Qed.

(** X1.  A second user of the module: when the module is already
    initialised and the counter of users is below [UINT_MAX], [Initialize]
    answers true and raises the counter by one, and [Uninitialize] right
    after it gives back the state there was, so the pair only counts the
    user in and out. *)
Theorem Initialize_Uninitialize_nested env w :
  (0 < s_moduleReferenceCounter w)%N ->
  (s_moduleReferenceCounter w < UINT_MAX)%N ->
  (Initialize env w).1 = true
  /\ s_moduleReferenceCounter (Initialize env w).2 = (s_moduleReferenceCounter w + 1)%N
  /\ Uninitialize (Initialize env w).2 = w.
Proof.
  intros Hcount Hmax. unfold Initialize.
  replace (0 <? s_moduleReferenceCounter w)%N with true
    by (symmetry; by apply N.ltb_lt).
  rewrite (UInt_incr_small _ Hmax).
  cbn [fst snd]. split; [reflexivity|]. split; [reflexivity|].
  unfold Uninitialize.
  cbn [s_moduleReferenceCounter set_s_moduleReferenceCounter].
  rewrite bool_decide_eq_true_2 by lia.
  replace (1 <? s_moduleReferenceCounter w + 1)%N with true
    by (symmetry; apply N.ltb_lt; lia).
  replace (s_moduleReferenceCounter w + 1 - 1)%N with (s_moduleReferenceCounter w) by lia.
  by destruct w.
Qed.

(** X2.  When the first [Initialize] answers false the module is left
    uninitialised: the counter is zero again and an error is in the log;
    when the failure comes after the Utility module started, the exit
    handler has run [Uninitialize], which leaves no cached vertex array and
    no texture unit. *)
Theorem Initialize_failure_uninitialized env w :
  s_moduleReferenceCounter w = 0%N ->
  (Initialize env w).1 = false ->
  s_moduleReferenceCounter (Initialize env w).2 = 0%N
  /\ (exists text, NazaraError (Msg text) ∈ log (Initialize env w).2)
  /\ (Utility_Initialize env = true ->
      s_vaos (Initialize env w).2 = ∅ /\ s_textureUnits (Initialize env w).2 = []).
Proof.
  intros Hcount. unfold Initialize. rewrite Hcount. cbn [N.ltb N.compare].
  destruct (Utility_Initialize env); cbn [negb].
  2:{ intros _. cbn [snd]. split; [exact Hcount|]. split; [|discriminate].
      eexists. cbn [log report set_log]. apply elem_of_app. right. by left. }
  assert (Hfail : forall text w1,
            s_moduleReferenceCounter w1 = 1%N ->
            let w' := Uninitialize (report (NazaraError (Msg text)) w1) in
            s_moduleReferenceCounter w' = 0%N
            /\ (exists text, NazaraError (Msg text) ∈ log w')
            /\ (true = true -> s_vaos w' = ∅ /\ s_textureUnits w' = [])).
  { intros text w1 H1.
    destruct (Uninitialize_last (report (NazaraError (Msg text)) w1) H1)
      as (Hc & Hv & Hu & Hl & _).
    cbv zeta. split; [exact Hc|]. split; [|by intros _].
    exists text. rewrite Hl. cbn [log report set_log]. apply elem_of_app. right. by left. }
  cbv zeta.
  destruct (OpenGL_Initialize env); cbn [negb].
  2:{ intros _. by apply Hfail. }
  destruct (fullscreenQuadBuffer_Fill env); cbn [negb].
  2:{ intros _. by apply Hfail. }
  destruct (first_failure (Initialize_steps env)) as [text|]; [|discriminate].
  intros _. apply Hfail.
  unfold Initialize_instanceBuffer. by repeat case_match.
Qed.


(** The pairs handed to the backend by a release are the entries whose
    key satisfies the test, each with its context. *)
Lemma elem_of_evicted (hit : VAO_Key -> bool) w context n :
  (context, n) ∈ evicted hit w
  <-> exists key e,
        context_vaoMap context w !! key = Some e /\ hit key = true /\ vao e = n.
Proof.
  unfold evicted, context_vaoMap. rewrite list_elem_of_bind. split.
  - intros ([c entry] & Hin & Hentry%elem_of_map_to_list).
    apply list_elem_of_bind in Hin as ([key e] & Hin & He%elem_of_map_to_list).
    destruct (hit key) eqn:Hhit; [|by apply elem_of_nil in Hin].
    apply list_elem_of_singleton in Hin. injection Hin as -> ->.
    exists key, e. by rewrite Hentry.
  - intros (key & e & Hlook & Hhit & <-).
    destruct (s_vaos w !! context) as [entry|] eqn:Hentry;
      [|by rewrite lookup_empty in Hlook].
    exists (context, entry). split; [|by apply elem_of_map_to_list].
    apply list_elem_of_bind. exists (key, e). split; [|by apply elem_of_map_to_list].
    rewrite Hhit. by apply list_elem_of_singleton.
Qed.

(** X4.  The release of a buffer or of a declaration issues, for each
    cache entry keyed on it and for nothing else, one call of
    [OpenGL::DeleteVertexArray] with the entry's context and name; it reports
    nothing. *)
Theorem release_deletes_evicted (r : Resource) w :
  trace (on_release r w) = (trace w ++ deletions (evicted (keyed_on r) w))%list
  /\ log (on_release r w) = log w
  /\ forall context n,
       (context, n) ∈ evicted (keyed_on r) w
       <-> exists key e,
             context_vaoMap context w !! key = Some e
             /\ keyed_on r key = true /\ vao e = n.
Proof.
  rewrite on_release_release. unfold release.
  destruct (delete_calls_spec (evicted (keyed_on r) w) w) as [names ->].
  split; [reflexivity|]. split; [reflexivity|].
  intros context n. apply elem_of_evicted.
Qed.

(** X5.  The release of a context forgets the entries of that context and
    of no other, and issues no command: the vertex arrays die with their
    context.  A later search in the context misses and creates. *)
Theorem OnContextRelease_forgets_context (context : Context) w :
  let w' := OnContextRelease context w in
  context_vaoMap context w' = ∅
  /\ (forall context', context' <> context ->
        context_vaoMap context' w' = context_vaoMap context' w)
  /\ trace w' = trace w
  /\ gl_vertexArrays w' = gl_vertexArrays w
  /\ forall vertexBuffer d,
       vb_declaration vertexBuffer = Some d ->
       exists w'', find_or_create_vao context vertexBuffer w' = Some (w'', true).
Proof.
  cbv zeta.
  assert (Hempty : context_vaoMap context (OnContextRelease context w) = ∅).
  { unfold context_vaoMap, OnContextRelease. cbn [s_vaos set_s_vaos].
    by rewrite lookup_delete_eq. }
  split; [exact Hempty|]. split; [|split; [reflexivity|split; [reflexivity|]]].
  - intros context' Hne. unfold context_vaoMap, OnContextRelease. cbn [s_vaos set_s_vaos].
    by rewrite lookup_delete_ne.
  - intros vertexBuffer d Hd. eexists.
    apply (find_or_create_vao_created context vertexBuffer d); [|exact Hd].
    rewrite Hempty. apply lookup_empty.
Qed.

End Lifecycle.

Section MatrixReads.

Context {Matrix4f : Type} {MOps : Matrix4Ops Matrix4f}.
Context {RenderStates : Type}.

Implicit Types (w : @World Matrix4f RenderStates).
Implicit Types (type src inv : MatrixType) (m : Matrix4f).

Lemma ensure_updated_flags type w :
  s_updateFlags (ensure_updated type w) = s_updateFlags w.
Proof.
  unfold ensure_updated, UpdateMatrix. case_match; [done|].
  apply UpdateMatrix_fuel_frame.
Qed.

Lemma ensure_updated_twice type w :
  ensure_updated type (ensure_updated type w) = ensure_updated type w.
Proof.
  unfold ensure_updated at 1. by rewrite ensure_updated_updated.
Qed.

Lemma SetMatrix_updated type m w : updated (s_matrices (SetMatrix type m w) type) = true.
Proof. unfold SetMatrix. destruct type; slots. Qed.

(** X6.  A slot is read back as written: [GetMatrix] right after
    [SetMatrix] on the same slot, base or derived, answers the matrix given
    and recomputes nothing. *)
Theorem SetMatrix_GetMatrix type m w :
  GetMatrix type (SetMatrix type m w) = (m, SetMatrix type m w).
Proof.
  unfold GetMatrix, ensure_updated. rewrite SetMatrix_updated.
  by rewrite SetMatrix_matrix, decide_True.
Qed.

(** X7.  [GetMatrix] caches: a second read of a slot answers the same
    matrix and leaves the state as the first read left it; a read issues no
    command and sets no dirty flag. *)
Theorem GetMatrix_cached type w :
  GetMatrix type (GetMatrix type w).2 = GetMatrix type w
  /\ trace (GetMatrix type w).2 = trace w
  /\ s_updateFlags (GetMatrix type w).2 = s_updateFlags w.
Proof.
  unfold GetMatrix. cbn [fst snd]. rewrite ensure_updated_twice.
  split; [reflexivity|]. split; [apply ensure_updated_trace|apply ensure_updated_flags].
Qed.

(** X8.  A stale WorldViewProj slot is recomputed as WorldView
    concatenated with Projection, where WorldView is the cached value when
    the slot is marked up to date and World concatenated (affine) with View
    otherwise. *)
Theorem GetMatrix_WorldViewProj w :
  updated (s_matrices w MatrixType_WorldViewProj) = false ->
  (GetMatrix MatrixType_WorldViewProj w).1
  = Concatenate
      (if updated (s_matrices w MatrixType_WorldView)
       then matrix (s_matrices w MatrixType_WorldView)
       else ConcatenateAffine (matrix (s_matrices w MatrixType_World))
                              (matrix (s_matrices w MatrixType_View)))
      (matrix (s_matrices w MatrixType_Projection)).
Proof.
  intros Hstale. unfold GetMatrix, ensure_updated, UpdateMatrix. rewrite Hstale.
  cbn [fst UpdateMatrix_fuel].
  destruct (updated (s_matrices w MatrixType_WorldView)); slots.
Qed.

(** X9.  A stale inverse slot whose source can be inverted is read as the
    inverse of the source's value, and the read reports nothing. *)
Theorem GetMatrix_inverse inv src m w :
  inverse_source inv = Some src ->
  updated (s_matrices w inv) = false ->
  GetInverse (GetMatrix src w).1 = Some m ->
  (GetMatrix inv w).1 = m /\ log (GetMatrix inv w).2 = log w.
Proof.
  intros Hsrc Hstale Hinv. unfold GetMatrix in *. cbn [fst snd] in *.
  unfold ensure_updated. rewrite Hstale.
  destruct (UpdateMatrix_inverse inv src w Hsrc) as [text ->].
  destruct (ensure_updated_source_frame src w (inverse_source_not_inverse _ _ Hsrc))
    as [Hlog _].
  unfold inverse_into. rewrite Hinv. split; [slots|].
  by rewrite log_set_updated, log_set_matrix.
Qed.

End MatrixReads.

Section BindingEdges.

Context {Matrix4f : Type} {MOps : Matrix4Ops Matrix4f}.
Context {RenderStates : Type}.
Context {Drv : Driver}.
Variable cfg : Config.

Implicit Types (w : @World Matrix4f RenderStates).
Implicit Types (env : @InitEnv RenderStates).

(** X10.  [SetTarget] with the target already bound answers true and does
    nothing.  With another target that is not renderable it answers false
    after reporting it, and no target is bound afterwards: the target bound
    before the call has been let go (and deactivated when it has no context
    of its own) before the new one is examined. *)
Theorem SetTarget_not_renderable_unbinds (target : RenderTarget) w :
  (same_ptr rt_ptr (s_target w) (Some target) = true ->
   SetTarget cfg (Some target) w = (true, w))
  /\ (same_ptr rt_ptr (s_target w) (Some target) = false ->
      NAZARA_RENDERER_SAFE cfg = true ->
      rt_renderable target = false ->
      (SetTarget cfg (Some target) w).1 = false
      /\ s_target (SetTarget cfg (Some target) w).2 = None
      /\ log (SetTarget cfg (Some target) w).2
         = (log w ++ [NazaraError (Msg "Target not renderable")])%list
      /\ trace (SetTarget cfg (Some target) w).2
         = (trace w
            ++ match s_target w with
               | Some old =>
                   if rt_hasContext old then []
                   else [RenderTarget_Desactivate (rt_ptr old)]
               | None => []
               end)%list).
Proof.
  split.
  - intros Hsame. unfold SetTarget. by rewrite Hsame.
  - intros Hnew Hsafe Hrenderable. unfold SetTarget.
    rewrite Hnew, Hsafe, Hrenderable. cbn [negb andb fst snd].
    destruct (s_target w) as [old|] eqn:Hold.
    + destruct (rt_hasContext old); cbn [negb]; repeat split; try done;
        cbn [trace report set_log set_s_target emit set_trace]; by rewrite ?app_nil_r.
    + repeat split; try done. cbn [trace report set_log]. by rewrite app_nil_r.
Qed.

(** X11.  The release of the bound program unbinds it: the next draw
    returns after reporting that no shader is bound, without a command.
    The release of any other program changes nothing. *)
Theorem OnShaderReleased_then_draw (shader : ptr) mode firstVertex vertexCount w :
  (sh_ptr <$> s_shader w <> Some shader -> OnShaderReleased shader w = w)
  /\ (sh_ptr <$> s_shader w = Some shader ->
      NAZARA_RENDERER_SAFE cfg = true ->
      (mode <= PrimitiveMode_Max cfg)%N ->
      is_Some (current_context w) ->
      s_shader (OnShaderReleased shader w) = None
      /\ has_flag (s_updateFlags (OnShaderReleased shader w)) Update_Shader = true
      /\ exists w',
           DrawPrimitives cfg mode firstVertex vertexCount (OnShaderReleased shader w)
           = Some w'
           /\ trace w' = trace w
           /\ log w'
              = (log w ++ [NazaraError (Msg "No shader");
                           NazaraError (MsgFailedToUpdateStates (Msg "No shader"))])%list).
Proof.
  split.
  - intros Hother. unfold OnShaderReleased. by rewrite bool_decide_eq_false_2.
  - intros Hbound Hsafe Hmode Hctx.
    assert (Hrel : OnShaderReleased shader w
                   = set_s_updateFlags (add_flag (s_updateFlags w) Update_Shader)
                       (set_s_shader None w))
      by (unfold OnShaderReleased; by rewrite bool_decide_eq_true_2).
    rewrite Hrel. split; [reflexivity|]. split.
    + cbn [s_updateFlags set_s_updateFlags set_s_shader].
      apply has_flag_add, Update_flags_Shader.
    + destruct (DrawPrimitives_no_shader cfg mode firstVertex vertexCount
                  (set_s_updateFlags (add_flag (s_updateFlags w) Update_Shader)
                     (set_s_shader None w)) Hsafe Hmode Hctx eq_refl)
        as (w' & Hrun & Htrace & Hlog).
      exists w'. split; [exact Hrun|]. split; [exact Htrace|exact Hlog].
Qed.

(** X12.  With the safety checks compiled in, a program that is not valid
    or not linked, and a vertex or index buffer that is not in hardware
    storage, are refused: the call reports an error and the bindings and
    the dirty flags stay as they were. *)
Theorem bindings_refused (shader : Shader) (vertexBuffer : VertexBuffer)
    (indexBuffer : IndexBuffer) w :
  NAZARA_RENDERER_SAFE cfg = true ->
  (sh_valid shader && sh_linked shader = false ->
   SetShader cfg (Some shader) w = report (NazaraError (Msg "Invalid shader")) w)
  /\ (vb_hardware vertexBuffer = false ->
      SetVertexBuffer cfg (Some vertexBuffer) w
      = report (NazaraError (Msg "Buffer must be hardware")) w)
  /\ (ib_hardware indexBuffer = false ->
      SetIndexBuffer cfg (Some indexBuffer) w
      = report (NazaraError (Msg "Buffer must be hardware")) w)
  /\ forall e,
       s_shader (report e w) = s_shader w
       /\ s_vertexBuffer (report e w) = s_vertexBuffer w
       /\ s_indexBuffer (report e w) = s_indexBuffer w
       /\ s_updateFlags (report e w) = s_updateFlags w
       /\ trace (report e w) = trace w.
Proof.
  intros Hsafe. split; [|split; [|split]].
  - intros Hbad. unfold SetShader. rewrite Hsafe.
    by destruct (sh_valid shader), (sh_linked shader).
  - intros Hsoft. unfold SetVertexBuffer. by rewrite Hsafe, Hsoft.
  - intros Hsoft. unfold SetIndexBuffer. by rewrite Hsafe, Hsoft.
  - done.
Qed.

Lemma first_failure_none (steps : list (bool * string)) :
  Forall (fun step => step.1 = true) steps -> first_failure steps = None.
Proof.
  intros Hall. unfold first_failure.
  replace (filter (fun step : bool * string => step.1 = false) steps) with
    (@nil (bool * string)); [done|].
  symmetry. induction Hall as [|step steps Hstep _ IH]; [done|].
  rewrite filter_cons_False; [exact IH|]. by rewrite Hstep.
Qed.

(** X13.  When the driver supports instancing but the instance buffer
    cannot be created, and every other step of the start succeeds, the
    first [Initialize] still answers true, with one user counted, the
    capability withdrawn and the failure reported with the text of the
    exception, and issues no command; from then on, with the
    safety checks compiled in, an instanced draw is refused before any
    command and [GetInstanceBuffer] answers the null pointer. *)
Theorem Initialize_instancing_withdrawn env what w :
  s_moduleReferenceCounter w = 0%N ->
  Utility_Initialize env = true ->
  OpenGL_Initialize env = true ->
  fullscreenQuadBuffer_Fill env = true ->
  Forall (fun step => step.1 = true) (Initialize_steps env) ->
  OpenGL_IsSupported env OpenGLExtension_DrawInstanced = true ->
  OpenGL_IsSupported env OpenGLExtension_InstancedArray = true ->
  instanceBuffer_Reset env = inr what ->
  exists w1,
    Initialize env w = (true, w1)
    /\ s_moduleReferenceCounter w1 = 1%N
    /\ s_capabilities w1 RendererCap_Instancing = false
    /\ log w1
       = (log w
          ++ [NazaraError (Msg ("Failed to create instancing buffer: " ++ what))])%list
    /\ trace w1 = trace w
    /\ (NAZARA_RENDERER_SAFE cfg = true ->
        (GetInstanceBuffer cfg w1).1 = None
        /\ forall instanceCount mode firstVertex vertexCount,
             is_Some (current_context w1) ->
             (mode <= PrimitiveMode_Max cfg)%N ->
             DrawPrimitivesInstanced cfg instanceCount mode firstVertex vertexCount w1
             = Some (report (NazaraError (Msg "Instancing not supported")) w1)).
Proof.
  intros Hcount Hutility Hopengl Hfill Hsteps Hdraw Harray Hreset.
  assert (Hinit : exists w1,
            Initialize env w = (true, w1)
            /\ s_moduleReferenceCounter w1 = 1%N
            /\ s_capabilities w1 RendererCap_Instancing = false
            /\ log w1
               = (log w
                  ++ [NazaraError
                        (Msg ("Failed to create instancing buffer: " ++ what))])%list
            /\ trace w1 = trace w).
  { unfold Initialize. rewrite Hcount, Hutility, Hopengl, Hfill. cbn [N.ltb N.compare negb].
    cbv zeta. rewrite (first_failure_none _ Hsteps).
    eexists. split; [reflexivity|].
    unfold Initialize_instanceBuffer.
    cbn [Initialize_state s_capabilities]. rewrite Hdraw, Harray, Hreset. cbn [andb].
    split_and!.
    - reflexivity.
    - cbn [s_capabilities report set_log set_s_capabilities]. apply fn_lookup_insert.
    - reflexivity.
    - reflexivity. }
  destruct Hinit as (w1 & Hinit & Hone & Hcap & Hlog & Htrace).
  exists w1. split_and!; [exact Hinit|exact Hone|exact Hcap|exact Hlog|exact Htrace|].
  intros Hsafe. split.
  - unfold GetInstanceBuffer. by rewrite Hsafe, Hcap.
  - intros instanceCount mode firstVertex vertexCount [context Hctx] Hmode.
    unfold DrawPrimitivesInstanced. rewrite Hctx, Hsafe, Hcap.
    rewrite (bool_decide_eq_false_2 (Some context = None)) by done.
    rewrite andb_false_r.
    replace (PrimitiveMode_Max cfg <? mode)%N with false
      by (symmetry; apply N.ltb_ge, Hmode).
    by rewrite andb_false_r.
Qed.

End BindingEdges.

(** Rewrites [has_flag] through the updates of the flag_bits. *)
Ltac flag_bits :=
  change Update_Matrices with (2 ^ 0);
  change Update_Shader with (2 ^ 1);
  change Update_Textures with (2 ^ 2);
  change Update_VAO with (2 ^ 3);
  repeat first [rewrite has_flag_add_bit by lia | rewrite has_flag_clear_bit by lia];
  cbn [Z.eqb Pos.eqb negb];
  rewrite ?orb_true_r, ?orb_false_r, ?andb_true_r, ?andb_false_r.

Section ReconcileEdges.

Context {Matrix4f : Type} {MOps : Matrix4Ops Matrix4f}.
Context {RenderStates : Type}.
Context {Drv : Driver}.
Variable cfg : Config.

Implicit Types (w : @World Matrix4f RenderStates).

(** *** Draws that stop at a check *)

(** The steps of a reconciliation before the block of the dirty flags,
    when the vertex layout is among them. *)
Lemma EnsureStateUpdate_layout_pending shader target w :
  s_shader w = Some shader ->
  s_target w = Some target ->
  is_Some (current_context w) ->
  has_flag (s_updateFlags w) Update_VAO = true ->
  exists wc,
    EnsureStateUpdate cfg w = update_dirty cfg wc
    /\ mat_step w wc
    /\ has_flag (s_updateFlags wc) Update_VAO = true.
Proof.
  intros Hsh Htg [context Hctx] HV.
  unfold EnsureStateUpdate. rewrite Hsh, Htg, Hctx.
  rewrite (bool_decide_eq_false_2 (Some context = None)) by done.
  rewrite andb_false_r. cbv zeta.
  set (wa := emit (Shader_Bind (sh_ptr shader))
               (emit (RenderTarget_EnsureTargetUpdated (rt_ptr target)) w)).
  assert (Hsa : mat_step w wa)
    by (eapply mat_step_trans; apply mat_step_emit; reflexivity).
  assert (Hfa : s_updateFlags wa = s_updateFlags w) by reflexivity.
  clearbody wa.
  set (wb := if has_flag (s_updateFlags wa) Update_Shader
             then resolve_locations shader wa else wa).
  assert (Hb : mat_step wa wb /\ has_flag (s_updateFlags wb) Update_VAO = true).
  { unfold wb. destruct (has_flag (s_updateFlags wa) Update_Shader).
    - split; [apply mat_step_resolve_locations|].
      destruct (resolve_locations_spec shader wa) as (_ & -> & _).
      rewrite Hfa. flag_bits. exact HV.
    - split; [apply mat_step_refl|]. by rewrite Hfa. }
  clearbody wb. destruct Hb as [Hsb HVb].
  destruct (send_target_size_spec shader target wb) as (_ & Hfc & _).
  pose proof (mat_step_send_target_size shader target wb) as Hsc.
  set (wc := send_target_size shader target wb) in *. clearbody wc.
  exists wc. rewrite <- Hfc in HVb.
  rewrite bool_decide_eq_true_2 by (by eapply has_flag_nonzero).
  split; [reflexivity|]. split; [|exact HVb].
  eapply mat_step_trans; [exact Hsa|]. by eapply mat_step_trans.
Qed.

Lemma update_dirty_no_vertex_buffer w :
  NAZARA_RENDERER_SAFE cfg = true ->
  has_flag (s_updateFlags w) Update_VAO = true ->
  s_vertexBuffer w = None ->
  Forall (fun i => (i < length (s_textureUnits w))%nat) (s_dirtyTextureUnits w) ->
  exists w',
    update_dirty cfg w
    = Some (false, report (NazaraError (Msg "No vertex buffer")) w')
    /\ steady w w'.
Proof.
  intros Hsafe HV Hbuf Hdirty. unfold update_dirty.
  destruct (texture_stage_spec w Hdirty) as (wd & -> & Hstd & _ & HVd).
  rewrite HV in HVd.
  set (we := if has_flag (s_updateFlags wd) Update_Matrices
             then update_matrices wd else wd).
  assert (He : mat_step wd we /\ has_flag (s_updateFlags we) Update_VAO = true).
  { unfold we. destruct (has_flag (s_updateFlags wd) Update_Matrices).
    - destruct (update_matrices_spec wd) as (Hstep & -> & _).
      split; [exact Hstep|]. flag_bits. exact HVd.
    - split; [apply mat_step_refl|exact HVd]. }
  clearbody we. destruct He as [Hste HVe].
  assert (Hsteady : steady w we).
  { eapply steady_trans; [apply steady_tex_step, Hstd|apply steady_mat_step, Hste]. }
  exists we. split; [|exact Hsteady].
  unfold update_layout. by rewrite HVe, (steady_vertexBuffer _ _ Hsteady), Hbuf, Hsafe.
Qed.

(** X14.  With the safety checks compiled in, a draw with a program and
    a target bound but no vertex buffer, while the vertex layout is dirty
    (as it is from [Initialize] on), issues no draw command: the
    reconciliation reports that no vertex buffer is bound, and the draw that
    the states could not be updated. *)
Theorem DrawPrimitives_no_vertex_buffer shader target mode firstVertex vertexCount w :
  NAZARA_RENDERER_SAFE cfg = true ->
  (mode <= PrimitiveMode_Max cfg)%N ->
  is_Some (current_context w) ->
  s_shader w = Some shader ->
  s_target w = Some target ->
  s_vertexBuffer w = None ->
  has_flag (s_updateFlags w) Update_VAO = true ->
  Forall (fun i => (i < length (s_textureUnits w))%nat) (s_dirtyTextureUnits w) ->
  exists w',
    DrawPrimitives cfg mode firstVertex vertexCount w = Some w'
    /\ draws w' = draws w
    /\ exists l,
         log w'
         = (l ++ [NazaraError (Msg "No vertex buffer");
                  NazaraError (MsgFailedToUpdateStates (Msg "No vertex buffer"))])%list.
Proof.
  intros Hsafe Hmode Hctx Hsh Htg Hbuf HV Hdirty.
  unfold DrawPrimitives.
  destruct Hctx as [context Hctx]. rewrite Hctx.
  rewrite (bool_decide_eq_false_2 (Some context = None)) by done.
  rewrite andb_false_r.
  replace (PrimitiveMode_Max cfg <? mode)%N with false
    by (symmetry; apply N.ltb_ge, Hmode).
  rewrite andb_false_r.
  set (w0 := EnableInstancing false w).
  assert (H0 : has_flag (s_updateFlags w0) Update_VAO = true
               /\ s_dirtyTextureUnits w0 = s_dirtyTextureUnits w
               /\ s_textureUnits w0 = s_textureUnits w
               /\ s_shader w0 = s_shader w /\ s_target w0 = s_target w
               /\ s_vertexBuffer w0 = s_vertexBuffer w
               /\ current_context w0 = current_context w
               /\ draws w0 = draws w).
  { unfold w0, EnableInstancing. case_match.
    - split_and!; try reflexivity. apply has_flag_add, Update_flags_VAO.
    - split_and!; try reflexivity. exact HV. }
  destruct H0 as (HV0 & Hd0 & Hu0 & Hsh0 & Htg0 & Hbuf0 & Hctx0 & Hdraws0).
  clearbody w0.
  destruct (EnsureStateUpdate_layout_pending shader target w0)
    as (wc & -> & Hstc & HVc); [congruence|congruence|by rewrite Hctx0, Hctx|exact HV0|].
  destruct (update_dirty_no_vertex_buffer wc Hsafe HVc) as (w1 & -> & Hsteady).
  - rewrite (steady_vertexBuffer _ _ (steady_mat_step _ _ Hstc)). congruence.
  - rewrite (mat_step_field s_dirtyTextureUnits _ _ (fun _ _ _ _ _ _ => eq_refl) Hstc).
    rewrite (mat_step_field s_textureUnits _ _ (fun _ _ _ _ _ _ => eq_refl) Hstc).
    by rewrite Hd0, Hu0.
  - eexists. split; [reflexivity|]. split.
    + change (draws w1 = draws w).
      rewrite (steady_draws _ _ Hsteady), (steady_draws _ _ (steady_mat_step _ _ Hstc)).
      exact Hdraws0.
    + exists (log w1). cbn [log report set_log].
      unfold Error_GetLastError. rewrite last_snoc. cbn [entry_message].
      by rewrite <- app_assoc.
Qed.

(** X15.  With the safety checks compiled in, a draw with a program but
    no target bound returns after reporting it, without a command. *)
Theorem DrawPrimitives_no_target shader mode firstVertex vertexCount w :
  NAZARA_RENDERER_SAFE cfg = true ->
  (mode <= PrimitiveMode_Max cfg)%N ->
  is_Some (current_context w) ->
  s_shader w = Some shader ->
  s_target w = None ->
  exists w',
    DrawPrimitives cfg mode firstVertex vertexCount w = Some w'
    /\ trace w' = trace w
    /\ log w' = (log w ++ [NazaraError (Msg "No target");
                           NazaraError (MsgFailedToUpdateStates (Msg "No target"))])%list.
Proof.
  intros Hsafe Hmode [context Hctx] Hsh Htg. unfold DrawPrimitives. rewrite Hctx.
  rewrite (bool_decide_eq_false_2 (Some context = None)) by done.
  rewrite andb_false_r.
  replace (PrimitiveMode_Max cfg <? mode)%N with false
    by (symmetry; apply N.ltb_ge, Hmode).
  rewrite andb_false_r.
  set (w0 := EnableInstancing false w).
  assert (H0 : current_context w0 = Some context /\ s_shader w0 = Some shader
               /\ s_target w0 = None /\ trace w0 = trace w /\ log w0 = log w).
  { unfold w0, EnableInstancing. by case_match. }
  clearbody w0. destruct H0 as (Hctx0 & Hsh0 & Htg0 & Ht0 & Hl0).
  unfold EnsureStateUpdate. rewrite Hctx0, Hsh0, Htg0, Hsafe.
  rewrite (bool_decide_eq_false_2 (Some context = None)) by done.
  rewrite andb_false_r.
  eexists. split; [reflexivity|].
  cbn [trace log report set_log]. split; [exact Ht0|].
  rewrite Hl0. unfold Error_GetLastError. rewrite last_snoc.
  cbn [entry_message]. by rewrite <- app_assoc.
Qed.

(** *** The vertex layout stage *)


(** X17.  Without vertex array objects the attributes are declared at
    every reconciliation: the flag of the vertex layout stays set, nothing
    is cached, and a component the backend cannot take is reported but does
    not make the reconciliation fail. *)
Theorem update_layout_without_vertex_arrays vertexBuffer d w :
  s_useVertexArrayObjects w = false ->
  has_flag (s_updateFlags w) Update_VAO = true ->
  s_vertexBuffer w = Some vertexBuffer ->
  vb_declaration vertexBuffer = Some d ->
  (s_instancing w = true -> is_Some (vb_declaration (s_instanceBuffer w))) ->
  (N.to_nat (s_maxTextureUnit w) <= length (s_textureUnits w))%nat ->
  exists w',
    update_layout cfg w = Some (true, w')
    /\ has_flag (s_updateFlags w') Update_VAO = true
    /\ s_vaos w' = s_vaos w
    /\ (build_fails cfg d (instancing_declaration w) w = true ->
        exists p j type, NazaraError (MsgInvalidDeclaration p j type) ∈ log w').
Proof.
  intros Huse HV Hbuf Hd Hinst Hunits. unfold update_layout, update_vao.
  rewrite HV, Hbuf, Huse.
  destruct (program_vao_spec cfg vertexBuffer d w Hd Hinst) as (w1 & -> & Hq1 & Herr).
  pose proof (quiet_check_flags_cleared cfg w1) as Hq2.
  set (w2 := check_flags_cleared cfg w1) in *. clearbody w2.
  pose proof (quiet_trans _ _ _ Hq1 Hq2) as Hq.
  destruct (finish_update_spec w2) as (w' & -> & Hq3).
  { rewrite (quiet_field s_maxTextureUnit _ _ (fun _ _ _ => eq_refl) Hq).
    by rewrite (quiet_field s_textureUnits _ _ (fun _ _ _ => eq_refl) Hq). }
  pose proof (quiet_trans _ _ _ Hq Hq3) as Hq'.
  rewrite (quiet_field s_useVertexArrayObjects _ _ (fun _ _ _ => eq_refl) Hq), Huse.
  exists w'. split; [reflexivity|]. split_and!.
  - by rewrite (quiet_field s_updateFlags _ _ (fun _ _ _ => eq_refl) Hq').
  - apply (quiet_field s_vaos _ _ (fun _ _ _ => eq_refl) Hq').
  - intros Hfail. destruct (Herr Hfail) as (p & j & type & Hin).
    exists p, j, type. eapply quiet_log; [|exact Hin]. by eapply quiet_trans.
Qed.

(** X18.  The walk of a declaration is left at the first enabled
    component whose type the backend cannot take: the components after it
    are neither enabled nor disabled, and the failing component itself
    issues no command. *)
Theorem declare_components_break i d bufferOffset stride js1 j js2 : forall w,
  has_unsupported d js1 w = false ->
  has_unsupported d [j] w = true ->
  declare_components i d bufferOffset stride (js1 ++ j :: js2) w
  = declare_components i d bufferOffset stride (js1 ++ [j]) w
  /\ (declare_components i d bufferOffset stride (js1 ++ j :: js2) w).2 = true
  /\ trace (declare_components i d bufferOffset stride (js1 ++ j :: js2) w).1
     = trace (declare_components i d bufferOffset stride js1 w).1.
Proof.
  induction js1 as [|j1 js1 IH]; intros w Hok Hbad.
  - cbn [app declare_components].
    destruct (declare_component_spec i d bufferOffset stride j w) as (_ & Hb & _).
    cbn [has_unsupported existsb] in Hbad. rewrite orb_false_r in Hbad.
    rewrite Hbad in Hb. rewrite Hb. cbn [fst snd].
    split; [reflexivity|]. split; [reflexivity|].
    unfold declare_component.
    destruct (vd_component d j) as [[enabled type] offset]. cbn [fst snd] in Hbad.
    destruct enabled; [|discriminate]. cbn [andb] in Hbad. by rewrite Hbad.
  - cbn [has_unsupported existsb] in Hok. apply orb_false_elim in Hok as [Hj1 Hok].
    destruct (declare_component_spec i d bufferOffset stride j1 w) as (Hq & Hb & _).
    rewrite Hj1 in Hb.
    cbn [app declare_components]. rewrite Hb.
    apply IH.
    + rewrite <- Hok. unfold has_unsupported. apply existsb_pointwise.
      intros j'. by rewrite (quiet_supported _ _ _ Hq).
    + rewrite <- Hbad. unfold has_unsupported. apply existsb_pointwise.
      intros j'. by rewrite (quiet_supported _ _ _ Hq).
Qed.

End ReconcileEdges.

Section TextureUnits.

Context {Matrix4f : Type} {MOps : Matrix4Ops Matrix4f}.
Context {RenderStates : Type}.
Context {Drv : Driver}.
Context {Smp : Samplers}.
Variable cfg : Config.

Implicit Types (w : @World Matrix4f RenderStates).
Implicit Types (env : @InitEnv RenderStates).

Lemma units_ok_push (i : nat) (u : TextureUnit) fl w :
  units_ok w ->
  (i < length (s_textureUnits w))%nat ->
  units_ok
    (set_s_updateFlags fl
       (set_s_dirtyTextureUnits (s_dirtyTextureUnits w ++ [i])
          (set_s_textureUnits (<[i := u]> (s_textureUnits w)) w))).
Proof.
  intros [Hlen Hdirty] Hi. unfold units_ok.
  cbn [s_textureUnits s_maxTextureUnit s_dirtyTextureUnits set_s_updateFlags
       set_s_dirtyTextureUnits set_s_textureUnits].
  rewrite length_insert. split; [exact Hlen|].
  apply Forall_app. split; [exact Hdirty|]. by repeat constructor.
Qed.

(** X19.  With the safety checks compiled in, [SetTexture] and
    [SetTextureSampler] never index past the texture units and keep the
    queue of dirty units within them: a unit at or past [s_maxTextureUnit]
    is refused with an error and nothing else changes. *)
Theorem SetTexture_keeps_units_ok (unit smp : N) (tex : option Texture) w :
  NAZARA_RENDERER_SAFE cfg = true ->
  units_ok w ->
  (exists w', SetTexture cfg unit tex w = Some w' /\ units_ok w'
              /\ s_maxTextureUnit w' = s_maxTextureUnit w)
  /\ (exists w', SetTextureSampler cfg unit smp w = Some w' /\ units_ok w'
                 /\ s_maxTextureUnit w' = s_maxTextureUnit w)
  /\ ((s_maxTextureUnit w <= unit)%N ->
      SetTexture cfg unit tex w
      = Some (report (NazaraError (MsgTextureUnit unit (s_maxTextureUnit w))) w)
      /\ SetTextureSampler cfg unit smp w
         = Some (report (NazaraError (MsgTextureUnit unit (s_maxTextureUnit w))) w)).
Proof.
  intros Hsafe Hok. unfold SetTexture, SetTextureSampler. rewrite Hsafe. cbn [andb].
  destruct (s_maxTextureUnit w <=? unit)%N eqn:Hrange.
  - split; [|split; [|done]]; eexists; (split; [reflexivity|]); by split.
  - apply N.leb_gt in Hrange.
    assert (Hi : (N.to_nat unit < length (s_textureUnits w))%nat)
      by (destruct Hok as [-> _]; lia).
    destruct (lookup_lt_is_Some_2 _ _ Hi) as [u ->].
    split; [|split; [|lia]].
    + destruct (negb (same_ptr tex_ptr (texture u) tex)).
      * eexists. split; [reflexivity|]. split; [exact (units_ok_push (N.to_nat unit) _ _ w Hok Hi)|reflexivity].
      * eexists. split; [reflexivity|]. by split.
    + eexists. split; [reflexivity|]. split; [exact (units_ok_push (N.to_nat unit) _ _ w Hok Hi)|reflexivity].
Qed.

(** X20.  After [SetTexture] on a unit in range the unit holds the
    texture given, and a second call with the same texture changes nothing:
    the unit is queued for an update only when its texture changes. *)
Theorem SetTexture_twice (unit : N) (tex : option Texture) w w' :
  (N.to_nat unit < length (s_textureUnits w))%nat ->
  (unit < s_maxTextureUnit w)%N ->
  SetTexture cfg unit tex w = Some w' ->
  (exists u, s_textureUnits w' !! N.to_nat unit = Some u
             /\ same_ptr tex_ptr (texture u) tex = true)
  /\ SetTexture cfg unit tex w' = Some w'.
Proof.
  intros Hi Hrange. unfold SetTexture at 1.
  replace (s_maxTextureUnit w <=? unit)%N with false
    by (symmetry; by apply N.leb_gt).
  rewrite andb_false_r.
  destruct (lookup_lt_is_Some_2 _ _ Hi) as [u Hu]. rewrite Hu.
  destruct (same_ptr tex_ptr (texture u) tex) eqn:Hsame; cbn [negb].
  - intros [= <-]. split; [by exists u|].
    unfold SetTexture.
    replace (s_maxTextureUnit w <=? unit)%N with false
      by (symmetry; by apply N.leb_gt).
    by rewrite andb_false_r, Hu, Hsame.
  - intros [= <-].
    set (u' := match tex with Some t => _ | None => _ end).
    assert (Htex : texture u' = tex) by (unfold u'; by destruct tex).
    clearbody u'.
    assert (Hlook : (<[N.to_nat unit := u']> (s_textureUnits w)) !! N.to_nat unit = Some u')
      by (by apply list_lookup_insert_eq).
    assert (Hsame' : same_ptr tex_ptr (texture u') tex = true)
      by (unfold same_ptr; rewrite Htex; by apply bool_decide_eq_true_2).
    split; [by exists u'|].
    unfold SetTexture.
    cbn [s_maxTextureUnit s_textureUnits set_s_updateFlags set_s_dirtyTextureUnits
         set_s_textureUnits].
    replace (s_maxTextureUnit w <=? unit)%N with false
      by (symmetry; by apply N.leb_gt).
    by rewrite andb_false_r, Hlook, Hsame'.
Qed.

(** X21.  From the start of the program a successful [Initialize] leaves
    one texture unit for each index below [s_maxTextureUnit] and an empty
    queue; on such a state, and on any state the texture setters make of
    it, the texture stage of a reconciliation follows no index out of the
    vector, empties the queue and clears its flag. *)
Theorem texture_stage_in_range env w w1 :
  (at_start w -> Initialize env w = (true, w1) -> units_ok w1)
  /\ (units_ok w ->
      exists w',
        update_textures w = Some w'
        /\ units_ok w'
        /\ s_dirtyTextureUnits w' = []
        /\ has_flag (s_updateFlags w') Update_Textures = false).
Proof.
  split.
  - intros (Hcount & _ & _ & Hdirty) Hinit.
    destruct (Initialize_started env w w1 Hcount Hinit)
      as (_ & _ & _ & _ & _ & Hlen & _ & _ & Hdirty1 & _).
    split; [exact Hlen|]. rewrite Hdirty1, Hdirty. constructor.
  - intros [Hlen Hdirty]. unfold update_textures.
    destruct (update_samplers_spec _ w Hdirty) as (w1' & -> & Hstep & Hfl).
    eexists. split; [reflexivity|].
    pose proof (tex_step_length _ _ Hstep) as Hlen'.
    pose proof (tex_step_field s_maxTextureUnit _ _ (fun _ _ _ _ _ _ => eq_refl) Hstep)
      as Hmax.
    split; [|split; [reflexivity|]].
    + split; [|constructor].
      cbn [s_textureUnits s_maxTextureUnit set_s_updateFlags set_s_dirtyTextureUnits].
      by rewrite Hlen', Hmax.
    + cbn [s_updateFlags set_s_updateFlags set_s_dirtyTextureUnits].
      apply has_flag_clear, Update_flags_Textures.
Qed.

(** X22.  The release of a texture takes it out of every unit that holds
    it and touches nothing else: the other units, the samplers, the number
    of units, the queue and the flags stay, and no command is issued. *)
Theorem OnTextureReleased_forgets (tex : ptr) w :
  let w' := OnTextureReleased tex w in
  length (s_textureUnits w') = length (s_textureUnits w)
  /\ (forall i u', s_textureUnits w' !! i = Some u' -> tex_ptr <$> texture u' <> Some tex)
  /\ (forall i u,
        s_textureUnits w !! i = Some u ->
        exists u',
          s_textureUnits w' !! i = Some u'
          /\ sampler u' = sampler u /\ samplerUpdated u' = samplerUpdated u
          /\ (tex_ptr <$> texture u <> Some tex -> u' = u))
  /\ s_dirtyTextureUnits w' = s_dirtyTextureUnits w
  /\ s_updateFlags w' = s_updateFlags w
  /\ trace w' = trace w.
Proof.
  cbv zeta. unfold OnTextureReleased. cbn [s_textureUnits set_s_textureUnits].
  split; [apply length_map|]. split; [|split; [|done]].
  - intros i u' Hu'. change (map ?f ?l) with (f <$> l) in Hu'.
    rewrite list_lookup_fmap in Hu'.
    destruct (s_textureUnits w !! i) as [u|]; [|discriminate].
    injection Hu' as <-. case_bool_decide; [discriminate|done].
  - intros i u Hu. change (map ?f ?l) with (f <$> l).
    rewrite list_lookup_fmap, Hu. cbn [fmap option_fmap option_map].
    eexists. split; [reflexivity|]. case_bool_decide; by split_and!.
Qed.

End TextureUnits.

Section Resend.

Context {Matrix4f : Type} {MOps : Matrix4Ops Matrix4f}.
Context {RenderStates : Type}.
Context {Drv : Driver}.
Variable cfg : Config.

Implicit Types (w : @World Matrix4f RenderStates).
Implicit Types (type : MatrixType) (m : Matrix4f).

Lemma set_locations_updated (f : MatrixType -> Z) types : forall w type,
  updated (s_matrices (fold_left (fun w type => set_location type (f type) w) types w)
             type)
  = updated (s_matrices w type).
Proof.
  induction types as [|type' types IH]; intros w type; [done|].
  cbn [fold_left]. by rewrite IH, updated_set_location.
Qed.

Lemma resolve_locations_slots shader w type :
  matrix (s_matrices (resolve_locations shader w) type) = matrix (s_matrices w type)
  /\ updated (s_matrices (resolve_locations shader w) type)
     = updated (s_matrices w type).
Proof.
  destruct (resolve_locations_spec shader w) as (_ & _ & Hm & _).
  split; [exact (Hm type)|]. clear Hm.
  pose proof (set_locations_updated
                (fun type => sh_uniformLocation shader (matrix_uniform type))
                MatrixType_all w type) as H.
  cbv beta in H. unfold resolve_locations.
  generalize dependent
    (fold_left
       (fun w type =>
          set_location type (sh_uniformLocation shader (matrix_uniform type)) w)
       MatrixType_all w).
  intros w' H. cbn [s_matrices set_s_updateFlags set_s_targetSize]. exact H.
Qed.

Lemma keeps_update_matrices type w : keeps type w (update_matrices w).
Proof.
  pose proof (keeps_send_matrices type MatrixType_all w) as H.
  unfold keeps in *. intros Hup. specialize (H Hup). clear Hup.
  unfold update_matrices.
  generalize dependent (fold_left (fun w type => send_matrix type w) MatrixType_all w).
  intros w' H. cbn [s_matrices set_s_updateFlags]. exact H.
Qed.

(** The steps of a reconciliation before the block of the dirty flags,
    when the matrices are among them. *)
Lemma EnsureStateUpdate_matrices_pending shader target w :
  s_shader w = Some shader ->
  s_target w = Some target ->
  is_Some (current_context w) ->
  has_flag (s_updateFlags w) Update_Matrices = true ->
  exists wc,
    EnsureStateUpdate cfg w = update_dirty cfg wc
    /\ mat_step w wc
    /\ has_flag (s_updateFlags wc) Update_Matrices = true
    /\ sends wc = sends w
    /\ forall type,
         matrix (s_matrices wc type) = matrix (s_matrices w type)
         /\ updated (s_matrices wc type) = updated (s_matrices w type).
Proof.
  intros Hsh Htg [context Hctx] HM.
  unfold EnsureStateUpdate. rewrite Hsh, Htg, Hctx.
  rewrite (bool_decide_eq_false_2 (Some context = None)) by done.
  rewrite andb_false_r. cbv zeta.
  set (wa := emit (Shader_Bind (sh_ptr shader))
               (emit (RenderTarget_EnsureTargetUpdated (rt_ptr target)) w)).
  assert (Ha : mat_step w wa /\ s_updateFlags wa = s_updateFlags w
               /\ sends wa = sends w /\ s_matrices wa = s_matrices w).
  { split_and!; try reflexivity.
    - eapply mat_step_trans; apply mat_step_emit; reflexivity.
    - apply quiet_sends. eapply quiet_trans; apply quiet_emit; reflexivity. }
  clearbody wa. destruct Ha as (Hsa & Hfa & Hsenda & Hma).
  set (wb := if has_flag (s_updateFlags wa) Update_Shader
             then resolve_locations shader wa else wa).
  assert (Hb : mat_step wa wb
               /\ has_flag (s_updateFlags wb) Update_Matrices = true
               /\ sends wb = sends wa
               /\ forall type,
                    matrix (s_matrices wb type) = matrix (s_matrices wa type)
                    /\ updated (s_matrices wb type) = updated (s_matrices wa type)).
  { unfold wb. destruct (has_flag (s_updateFlags wa) Update_Shader).
    - split; [apply mat_step_resolve_locations|].
      destruct (resolve_locations_spec shader wa) as (Ht & Hf & _).
      split; [rewrite Hf; flag_bits; reflexivity|].
      split; [unfold sends; by rewrite Ht|].
      intros type. apply resolve_locations_slots.
    - split; [apply mat_step_refl|]. by rewrite Hfa. }
  clearbody wb. destruct Hb as (Hsb & HMb & Hsendb & Hslotb).
  destruct (send_target_size_spec shader target wb) as (Hsendc & Hfc & Hmc).
  pose proof (mat_step_send_target_size shader target wb) as Hsc.
  set (wc := send_target_size shader target wb) in *. clearbody wc.
  exists wc. rewrite <- Hfc in HMb.
  rewrite bool_decide_eq_true_2 by (by eapply has_flag_nonzero).
  split; [reflexivity|]. split_and!.
  - eapply mat_step_trans; [exact Hsa|]. by eapply mat_step_trans.
  - exact HMb.
  - by rewrite Hsendc, Hsendb.
  - intros type. rewrite Hmc. destruct (Hslotb type) as [-> ->]. by rewrite Hma.
Qed.

(** The block of the dirty flags keeps the slots that are up to date. *)
Lemma update_dirty_keeps type ok w w' :
  has_flag (s_updateFlags w) Update_Matrices = true ->
  reconcile_ready cfg w ->
  update_dirty cfg w = Some (ok, w') ->
  keeps type w w'.
Proof.
  intros HM Hready. unfold update_dirty.
  destruct (texture_stage_spec w) as (wd & -> & Hstd & HMd & _); [apply Hready|].
  rewrite HM in HMd. rewrite HMd.
  pose proof (keeps_update_matrices type wd) as Hkeep.
  destruct (update_matrices_spec wd) as (Hste & _).
  set (we := update_matrices wd) in *. clearbody we.
  assert (Hsteady : steady w we).
  { eapply steady_trans; [apply steady_tex_step, Hstd|apply steady_mat_step, Hste]. }
  destruct (steady_ready cfg _ _ Hsteady Hready)
    as (Hctx & _ & Hunits & Hvb & Hdecl & Hinst).
  destruct (update_layout_returns cfg we Hctx Hunits Hvb Hdecl Hinst)
    as (ok' & w'' & -> & Hst').
  intros [= <- <-].
  pose proof (vao_step_field s_matrices _ _ (fun _ _ _ _ _ _ _ => eq_refl) Hst') as Hm'.
  pose proof (tex_step_field s_matrices _ _ (fun _ _ _ _ _ _ => eq_refl) Hstd) as Hmd.
  unfold keeps in *. rewrite Hm', <- Hmd. exact Hkeep.
Qed.


(** X24.  A reconciliation with no dirty flag looks up no vertex array and
    sends no matrix: it returns, answers whether a vertex array is current
    (always so without vertex array objects), and the matrix uploads, the
    draws, the cache of vertex arrays, the matrix slots and the flags are
    as before. *)
Theorem EnsureStateUpdate_clean shader target w :
  s_updateFlags w = Update_None ->
  s_shader w = Some shader ->
  s_target w = Some target ->
  is_Some (current_context w) ->
  (N.to_nat (s_maxTextureUnit w) <= length (s_textureUnits w))%nat ->
  exists w',
    EnsureStateUpdate cfg w
    = Some (negb (s_useVertexArrayObjects w && (s_currentVAO w =? 0)%N), w')
    /\ sends w' = sends w
    /\ draws w' = draws w
    /\ s_vaos w' = s_vaos w
    /\ s_matrices w' = s_matrices w
    /\ s_updateFlags w' = Update_None.
Proof.
  intros Hclean Hsh Htg [context Hctx] Hunits.
  unfold EnsureStateUpdate. rewrite Hsh, Htg, Hctx.
  rewrite (bool_decide_eq_false_2 (Some context = None)) by done.
  rewrite andb_false_r. cbv zeta.
  set (wa := emit (Shader_Bind (sh_ptr shader))
               (emit (RenderTarget_EnsureTargetUpdated (rt_ptr target)) w)).
  assert (Ha : mat_step w wa /\ s_updateFlags wa = s_updateFlags w
               /\ sends wa = sends w /\ s_matrices wa = s_matrices w).
  { split_and!; try reflexivity.
    - eapply mat_step_trans; apply mat_step_emit; reflexivity.
    - apply quiet_sends. eapply quiet_trans; apply quiet_emit; reflexivity. }
  clearbody wa. destruct Ha as (Hsa & Hfa & Hsenda & Hma).
  assert (Hno : forall bit, has_flag Update_None bit = false).
  { intros bit. unfold has_flag, Update_None. by rewrite Z.land_0_l. }
  rewrite Hfa, Hclean, !Hno.
  destruct (send_target_size_spec shader target wa) as (Hsendc & Hfc & Hmc).
  pose proof (mat_step_send_target_size shader target wa) as Hsc.
  set (wc := send_target_size shader target wa) in *. clearbody wc.
  pose proof (mat_step_trans _ _ _ Hsa Hsc) as Hstep.
  pose proof (steady_mat_step _ _ Hstep) as Hsteady.
  rewrite Hfc, Hfa, Hclean.
  rewrite bool_decide_eq_false_2 by (intros H; by apply H).
  destruct (finish_update_spec wc) as (w' & -> & Hq).
  { by rewrite (steady_maxTextureUnit _ _ Hsteady), (steady_textureUnits _ _ Hsteady). }
  rewrite (steady_useVertexArrayObjects _ _ Hsteady).
  rewrite (mat_step_field s_currentVAO _ _ (fun _ _ _ _ _ _ => eq_refl) Hstep).
  exists w'. split; [reflexivity|]. split_and!.
  - by rewrite (quiet_sends _ _ Hq), Hsendc.
  - by rewrite (quiet_draws _ _ Hq), (steady_draws _ _ Hsteady).
  - rewrite (quiet_field s_vaos _ _ (fun _ _ _ => eq_refl) Hq).
    exact (mat_step_field s_vaos _ _ (fun _ _ _ _ _ _ => eq_refl) Hstep).
  - rewrite (quiet_field s_matrices _ _ (fun _ _ _ => eq_refl) Hq). by rewrite Hmc.
  - rewrite (quiet_field s_updateFlags _ _ (fun _ _ _ => eq_refl) Hq).
    by rewrite Hfc, Hfa.
Qed.

End Resend.

(** ** Runs of the further properties *)
Module ExtraRuns.

Import Model.

Local Open Scope N_scope.

Lemma Initialize_Uninitialize_nested_witness :
  (Initialize env world_initialized).1 = true
  /\ s_moduleReferenceCounter (Initialize env world_initialized).2
     = (s_moduleReferenceCounter world_initialized + 1)%N
  /\ Uninitialize (Initialize env world_initialized).2 = world_initialized.
Proof.
  apply (Initialize_Uninitialize_nested env world_initialized); by vm_compute.
Defined.

Lemma Initialize_failure_uninitialized_witness :
  s_moduleReferenceCounter (Initialize env_no_link world_static).2 = 0%N
  /\ (exists text, NazaraError (Msg text) ∈ log (Initialize env_no_link world_static).2)
  /\ (Utility_Initialize env_no_link = true ->
      s_vaos (Initialize env_no_link world_static).2 = ∅
      /\ s_textureUnits (Initialize env_no_link world_static).2 = []).
Proof.
  apply (Initialize_failure_uninitialized env_no_link world_static).
  - reflexivity.
  - by vm_compute.
Defined.


(** The one cached vertex array is the one deleted. *)
Lemma Uninitialize_releases_cache_run :
  evicted (fun _ => true) world_drawn = [(100%positive, 1%N)].
Proof. by vm_compute. Qed.

Lemma GetMatrix_WorldViewProj_witness :
  (GetMatrix MatrixType_WorldViewProj world_moved).1
  = Concatenate
      (if updated (s_matrices world_moved MatrixType_WorldView)
       then matrix (s_matrices world_moved MatrixType_WorldView)
       else ConcatenateAffine (matrix (s_matrices world_moved MatrixType_World))
                              (matrix (s_matrices world_moved MatrixType_View)))
      (matrix (s_matrices world_moved MatrixType_Projection)).
Proof. apply (GetMatrix_WorldViewProj world_moved). by vm_compute. Defined.

Lemma GetMatrix_inverse_witness :
  (GetMatrix MatrixType_InvView world_viewed).1 = diagonal 1 (1 # 4) 1 1
  /\ log (GetMatrix MatrixType_InvView world_viewed).2 = log world_viewed.
Proof.
  apply (GetMatrix_inverse MatrixType_InvView MatrixType_View
           (diagonal 1 (1 # 4) 1 1) world_viewed).
  - reflexivity.
  - by vm_compute.
  - by vm_compute.
Defined.

Lemma bindings_refused_witness :
  (sh_valid S_unlinked && sh_linked S_unlinked = false ->
   SetShader cfg (Some S_unlinked) world_drawn
   = report (NazaraError (Msg "Invalid shader")) world_drawn)
  /\ (vb_hardware V_software = false ->
      SetVertexBuffer cfg (Some V_software) world_drawn
      = report (NazaraError (Msg "Buffer must be hardware")) world_drawn)
  /\ (ib_hardware I_software = false ->
      SetIndexBuffer cfg (Some I_software) world_drawn
      = report (NazaraError (Msg "Buffer must be hardware")) world_drawn)
  /\ forall e,
       s_shader (report e world_drawn) = s_shader world_drawn
       /\ s_vertexBuffer (report e world_drawn) = s_vertexBuffer world_drawn
       /\ s_indexBuffer (report e world_drawn) = s_indexBuffer world_drawn
       /\ s_updateFlags (report e world_drawn) = s_updateFlags world_drawn
       /\ trace (report e world_drawn) = trace world_drawn.
Proof.
  apply (bindings_refused cfg S_unlinked V_software I_software world_drawn).
  reflexivity.
Defined.

Lemma Initialize_instancing_withdrawn_witness :
  exists w1,
    Initialize env_no_instances world_static = (true, w1)
    /\ s_moduleReferenceCounter w1 = 1%N
    /\ s_capabilities w1 RendererCap_Instancing = false
    /\ log w1
       = (log world_static
          ++ [NazaraError
                (Msg "Failed to create instancing buffer: Failed to create buffer")])%list
    /\ trace w1 = trace world_static
    /\ (NAZARA_RENDERER_SAFE cfg = true ->
        (GetInstanceBuffer cfg w1).1 = None
        /\ forall instanceCount mode firstVertex vertexCount,
             is_Some (current_context w1) ->
             (mode <= PrimitiveMode_Max cfg)%N ->
             DrawPrimitivesInstanced cfg instanceCount mode firstVertex vertexCount w1
             = Some (report (NazaraError (Msg "Instancing not supported")) w1)).
Proof.
  apply (Initialize_instancing_withdrawn cfg env_no_instances "Failed to create buffer"
           world_static).
  - reflexivity.
  - reflexivity.
  - reflexivity.
  - reflexivity.
  - vm_compute. repeat constructor.
  - reflexivity.
  - reflexivity.
  - reflexivity.
Defined.

Lemma DrawPrimitives_no_vertex_buffer_witness :
  exists w',
    DrawPrimitives cfg 4 0 4 world_no_buffer = Some w'
    /\ draws w' = draws world_no_buffer
    /\ exists l,
         log w'
         = (l ++ [NazaraError (Msg "No vertex buffer");
                  NazaraError (MsgFailedToUpdateStates (Msg "No vertex buffer"))])%list.
Proof.
  apply (DrawPrimitives_no_vertex_buffer cfg S T 4 0 4 world_no_buffer).
  - reflexivity.
  - by vm_compute.
  - vm_compute. by eexists.
  - by vm_compute.
  - by vm_compute.
  - by vm_compute.
  - by vm_compute.
  - vm_compute. constructor.
Defined.

Lemma DrawPrimitives_no_target_witness :
  exists w',
    DrawPrimitives cfg 4 0 4 world_no_target = Some w'
    /\ trace w' = trace world_no_target
    /\ log w' = (log world_no_target
                 ++ [NazaraError (Msg "No target");
                     NazaraError (MsgFailedToUpdateStates (Msg "No target"))])%list.
Proof.
  apply (DrawPrimitives_no_target cfg S 4 0 4 world_no_target).
  - reflexivity.
  - by vm_compute.
  - vm_compute. by eexists.
  - by vm_compute.
  - by vm_compute.
Defined.


Lemma update_layout_without_vertex_arrays_witness :
  exists w',
    update_layout cfg world_plain = Some (true, w')
    /\ has_flag (s_updateFlags w') Update_VAO = true
    /\ s_vaos w' = s_vaos world_plain
    /\ (build_fails cfg declaration_Quaternion (instancing_declaration world_plain)
          world_plain = true ->
        exists p j type, NazaraError (MsgInvalidDeclaration p j type) ∈ log w').
Proof.
  apply (update_layout_without_vertex_arrays cfg V_quaternion declaration_Quaternion
           world_plain).
  - by vm_compute.
  - by vm_compute.
  - by vm_compute.
  - reflexivity.
  - intros H. vm_compute in H. discriminate.
  - vm_compute. lia.
Defined.

Lemma declare_components_break_witness :
  declare_components 0 declaration_Quaternion 0 28
    (components_before ++ 11%nat :: components_after)%list world_initialized
  = declare_components 0 declaration_Quaternion 0 28
      (components_before ++ [11%nat])%list world_initialized
  /\ (declare_components 0 declaration_Quaternion 0 28
        (components_before ++ 11%nat :: components_after)%list world_initialized).2 = true
  /\ trace (declare_components 0 declaration_Quaternion 0 28
              (components_before ++ 11%nat :: components_after)%list world_initialized).1
     = trace (declare_components 0 declaration_Quaternion 0 28
                components_before world_initialized).1.
Proof.
  apply (declare_components_break 0 declaration_Quaternion 0 28
           components_before 11%nat components_after world_initialized).
  - by vm_compute.
  - by vm_compute.
Defined.

Lemma world_initialized_units_ok : units_ok world_initialized.
Proof. split; [by vm_compute|]. vm_compute. constructor. Qed.

Lemma SetTexture_keeps_units_ok_witness :
  (exists w', SetTexture cfg 7 (Some texture_A) world_initialized = Some w'
              /\ units_ok w'
              /\ s_maxTextureUnit w' = s_maxTextureUnit world_initialized)
  /\ (exists w', SetTextureSampler cfg 7 3 world_initialized = Some w'
                 /\ units_ok w'
                 /\ s_maxTextureUnit w' = s_maxTextureUnit world_initialized)
  /\ ((s_maxTextureUnit world_initialized <= 7)%N ->
      SetTexture cfg 7 (Some texture_A) world_initialized
      = Some (report (NazaraError
                        (MsgTextureUnit 7 (s_maxTextureUnit world_initialized)))
                world_initialized)
      /\ SetTextureSampler cfg 7 3 world_initialized
         = Some (report (NazaraError
                           (MsgTextureUnit 7 (s_maxTextureUnit world_initialized)))
                   world_initialized)).
Proof.
  apply (SetTexture_keeps_units_ok cfg 7 3 (Some texture_A) world_initialized).
  - reflexivity.
  - exact world_initialized_units_ok.
Defined.

(** The text of the error. *)
Lemma SetTexture_out_of_range_run :
  log <$> SetTexture cfg 7 (Some texture_A) world_initialized
  = Some [NazaraError (Msg "Texture unit out of range (7 >= 4)")].
Proof. by vm_compute. Qed.

Lemma SetTexture_twice_witness :
  (exists u, s_textureUnits world_textured !! N.to_nat 2 = Some u
             /\ same_ptr tex_ptr (texture u) (Some texture_A) = true)
  /\ SetTexture cfg 2 (Some texture_A) world_textured = Some world_textured.
Proof.
  apply (SetTexture_twice cfg 2 (Some texture_A) world_initialized world_textured).
  - vm_compute. lia.
  - by vm_compute.
  - by vm_compute.
Defined.

Lemma texture_stage_in_range_witness :
  units_ok world_initialized
  /\ exists w',
       update_textures world_textured = Some w'
       /\ units_ok w'
       /\ s_dirtyTextureUnits w' = []
       /\ has_flag (s_updateFlags w') Update_Textures = false.
Proof.
  split.
  - apply (proj1 (texture_stage_in_range env world_static world_initialized)).
    + by vm_compute.
    + by vm_compute.
  - apply (proj2 (texture_stage_in_range env world_textured world_initialized)).
    split; [by vm_compute|]. vm_compute. repeat constructor.
Defined.


Lemma EnsureStateUpdate_clean_witness :
  exists w',
    EnsureStateUpdate cfg world_drawn
    = Some (negb (s_useVertexArrayObjects world_drawn
                  && (s_currentVAO world_drawn =? 0)%N), w')
    /\ sends w' = sends world_drawn
    /\ draws w' = draws world_drawn
    /\ s_vaos w' = s_vaos world_drawn
    /\ s_matrices w' = s_matrices world_drawn
    /\ s_updateFlags w' = Update_None.
Proof.
  apply (EnsureStateUpdate_clean cfg S T world_drawn).
  - by vm_compute.
  - by vm_compute.
  - by vm_compute.
  - vm_compute. by eexists.
  - vm_compute. lia.
Defined.

End ExtraRuns.
